(** * seller-apis: reconciliation, normalisation, batching and pagination

    A shallow embedding of [seller.py] (Ozon) and [market.py] (Yandex.Market)
    and the properties of their pure core: the quantity and price
    normalisers, the stock / price reconciliation against the listed offer
    identifiers, the batcher [divide], the pagination loops of
    [get_offer_ids] and the clean-up step of [download_stock].

    Conventions of the embedding.
    - A Python [str] is its sequence of UTF-8 bytes, a Rocq [string].  All
      characters the programs inspect ('.', the digits, '>', '-', '+', '_',
      white space) are ASCII, and no byte of a multi-byte UTF-8 sequence is
      ASCII, so working on bytes agrees with working on code points.
    - A Python [int] is a [Z].
    - A spreadsheet cell or JSON scalar is a [pyval].  Floating point cells
      are not represented.
    - A raised exception is the [Raise] outcome of a [result].
    - The list object [offer_ids], which [create_stocks] mutates in place,
      lives in a store of list objects and is passed by reference. *)

From Stdlib Require Import ZArith List String Ascii Bool Lia Permutation.
From Stdlib Require Import DecimalString DecimalZ.
Import ListNotations.

Open Scope string_scope.
Open Scope list_scope.
Open Scope Z_scope.

(** ** Python values, exceptions, outcomes *)

Inductive exn : Type :=
| ValueError
| TypeError
| AttributeError
| HTTPError
| FileNotFoundError
| OtherError.

Inductive result (A : Type) : Type :=
| Ok (a : A)
| Raise (e : exn).

Arguments Ok {A} a.
Arguments Raise {A} e.

Definition rbind {A B} (r : result A) (k : A -> result B) : result B :=
  match r with
  | Ok a => k a
  | Raise e => Raise e
  end.

Definition is_ok {A} (r : result A) : bool :=
  match r with Ok _ => true | Raise _ => false end.

(** [mapM f l]: run [f] on the elements left to right, stop at the first
    exception. *)
Fixpoint mapM {A B} (f : A -> result B) (l : list A) : result (list B) :=
  match l with
  | [] => Ok []
  | a :: l' => rbind (f a) (fun b => rbind (mapM f l') (fun bs => Ok (b :: bs)))
  end.

Inductive pyval : Type :=
| PyNone
| PyBool (b : bool)
| PyInt (z : Z)
| PyStr (s : string).

(** [str(v)] *)
Definition py_str (v : pyval) : string :=
  match v with
  | PyNone => "None"
  | PyBool true => "True"
  | PyBool false => "False"
  | PyInt z => NilZero.string_of_int (Z.to_int z)
  | PyStr s => s
  end.

(** [bool(v)], as used by [if not page] *)
Definition py_truthy (v : pyval) : bool :=
  match v with
  | PyNone => false
  | PyBool b => b
  | PyInt z => negb (z =? 0)
  | PyStr s => negb (s =? "")%string
  end.

(** [x in l] for a list of strings *)
Fixpoint py_in (x : string) (l : list string) : bool :=
  match l with
  | [] => false
  | y :: l' => (x =? y)%string || py_in x l'
  end.

(** [l.remove(x)]: drops the first element equal to [x], raises
    [ValueError] when there is none. *)
Fixpoint list_remove (x : string) (l : list string) : result (list string) :=
  match l with
  | [] => Raise ValueError
  | y :: l' =>
      if (x =? y)%string then Ok l'
      else rbind (list_remove x l') (fun r => Ok (y :: r))
  end.

(** ** [int(text)] on text

    CPython: white space is stripped on both sides, then an optional sign,
    then one or more groups of decimal digits separated by single
    underscores.  Only the ASCII digits and the ASCII white space
    (code points 9-13 and 32) are recognised here; CPython also accepts
    decimal digits and white space from other scripts (a no-break space,
    Arabic-Indic digits), and refuses a text of more than 4300 digits with
    [ValueError].  So [int_of_text] is [int] on the ASCII texts of at most
    4300 characters ([is_ascii] below); texts outside that domain are
    outside this model, and what is stated of [int] on an arbitrary text
    carries the two conditions as premises. *)

Definition is_digit (c : ascii) : bool :=
  let n := nat_of_ascii c in (48 <=? n)%nat && (n <=? 57)%nat.

Definition digit_val (c : ascii) : Z := Z.of_nat (nat_of_ascii c) - 48.

Definition is_space (c : ascii) : bool :=
  let n := nat_of_ascii c in
  ((9 <=? n)%nat && (n <=? 13)%nat) || (n =? 32)%nat.

Fixpoint lstrip (s : string) : string :=
  match s with
  | String c s' => if is_space c then lstrip s' else s
  | EmptyString => EmptyString
  end.

Fixpoint rstrip (s : string) : string :=
  match s with
  | EmptyString => EmptyString
  | String c s' =>
      match rstrip s' with
      | EmptyString => if is_space c then EmptyString else String c EmptyString
      | r => String c r
      end
  end.

(** Digits with single underscores between them.  [prev_digit] tells
    whether the previous character was a digit, so that an underscore is
    accepted only between two digits. *)
Fixpoint parse_digits (s : string) (acc : Z) (prev_digit : bool) : option Z :=
  match s with
  | EmptyString => if prev_digit then Some acc else None
  | String c s' =>
      if is_digit c then parse_digits s' (10 * acc + digit_val c) true
      else if (c =? "_")%char then
        if prev_digit then parse_digits s' acc false else None
      else None
  end.

(** the optional sign in front of the digits *)
Definition split_sign (body : string) : bool * string :=
  match body with
  | String c d =>
      if (c =? "-")%char then (true, d)
      else if (c =? "+")%char then (false, d)
      else (false, body)
  | EmptyString => (false, body)
  end.

Definition int_of_text (s : string) : result Z :=
  let '(neg, digits) := split_sign (rstrip (lstrip s)) in
  match parse_digits digits 0 false with
  | Some z => Ok (if neg then - z else z)
  | None => Raise ValueError
  end.

(** [int(v)] *)
Definition py_int (v : pyval) : result Z :=
  match v with
  | PyNone => Raise TypeError
  | PyBool b => Ok (if b then 1 else 0)
  | PyInt z => Ok z
  | PyStr s => int_of_text s
  end.

(** ** Inventory records

    One row of the vendor spreadsheet, a [dict].  The three fields hold
    what [watch.get(key)] returns for the keys the programs read,
    [PyNone] when the key is missing. *)
Record watch : Type := mk_watch {
  Kod : pyval;          (* watch.get("Код") *)
  Kolichestvo : pyval;  (* watch.get("Количество") *)
  Tsena : pyval         (* watch.get("Цена") *)
}.

(** The string-coerced code, [str(watch.get("Код"))]. *)
Definition code_of (w : watch) : string := py_str (Kod w).

(** ** The quantity normaliser

    The block of [create_stocks] that computes [stock] from a record, the
    same text in both modules (seller.py 175-181, market.py 183-189). *)
Definition stock_of_count (quantity : pyval) : result Z :=
  let count := py_str quantity in
  if (count =? ">10")%string then Ok 100
  else if (count =? "1")%string then Ok 0
  else py_int quantity.

(** ** The price normaliser *)

(** [s.split(sep)] for a one-character separator. *)
Fixpoint py_split (sep : ascii) (s : string) : list string :=
  match s with
  | EmptyString => [EmptyString]
  | String c s' =>
      if (c =? sep)%char then EmptyString :: py_split sep s'
      else match py_split sep s' with
           | p :: ps => String c p :: ps
           | [] => [String c EmptyString]
           end
  end.

(** [re.sub("[^0-9]", "", s)] *)
Fixpoint re_sub_non_digits (s : string) : string :=
  match s with
  | EmptyString => EmptyString
  | String c s' =>
      if is_digit c then String c (re_sub_non_digits s') else re_sub_non_digits s'
  end.

(** seller.py 214-233 *)
Definition price_conversion (price : string) : string :=
  re_sub_non_digits (hd EmptyString (py_split "." price)).

(** The call [price_conversion(watch.get("Цена"))]: the attribute lookup
    [price.split] exists only on a [str]. *)
Definition price_conversion_val (price : pyval) : result string :=
  match price with
  | PyStr s => Ok (price_conversion s)
  | _ => Raise AttributeError
  end.

(** The rule in the words of the specification: keep what stands before the
    first '.', then drop every character that is not a digit. *)
Fixpoint before_first_dot (s : string) : string :=
  match s with
  | EmptyString => EmptyString
  | String c s' => if (c =? ".")%char then EmptyString else String c (before_first_dot s')
  end.

Definition digits_only (s : string) : string :=
  string_of_list_ascii (filter is_digit (list_ascii_of_string s)).

Definition normalize_price_spec (s : string) : string :=
  digits_only (before_first_dot s).

Fixpoint has_digit (s : string) : bool :=
  match s with
  | EmptyString => false
  | String c s' => is_digit c || has_digit s'
  end.

(** ** The store of list objects

    [offer_ids] is one Python list shared between the caller and
    [create_stocks]; a reference names it, the store gives its current
    contents.  A computation takes the store and gives an outcome and the
    store it leaves; the store survives an exception. *)

Definition ref : Type := nat.
Definition store : Type := ref -> list string.

Definition store_set (h : store) (r : ref) (v : list string) : store :=
  fun r' => if Nat.eqb r' r then v else h r'.

Definition M (A : Type) : Type := store -> result A * store.

Definition ret {A} (a : A) : M A := fun h => (Ok a, h).

Definition bind {A B} (m : M A) (k : A -> M B) : M B :=
  fun h =>
    match m h with
    | (Ok a, h') => k a h'
    | (Raise e, h') => (Raise e, h')
    end.

Definition lift {A} (r : result A) : M A := fun h => (r, h).

Definition load (r : ref) : M (list string) := fun h => (Ok (h r), h).

Definition write (r : ref) (v : list string) : M unit :=
  fun h => (Ok tt, store_set h r v).

Notation "x <- m ;; k" := (bind m (fun x => k))
  (at level 61, m at next level, right associativity).
Notation "m ;;; k" := (bind m (fun _ => k))
  (at level 61, right associativity).

(** [offer_ids.remove(x)] on the shared list. *)
Definition remove_in_place (offer_ids : ref) (x : string) : M unit :=
  ids <- load offer_ids ;;
  ids' <- lift (list_remove x ids) ;;
  write offer_ids ids'.

(** ** Reconciliation

    [create_stocks] and [create_prices] have the same control flow in both
    modules and differ in the dictionary they append; the loops are written
    once over the constructor of that dictionary. *)
Section Reconcile.
Context {entry : Type}.

Section Stocks.
(** the dictionary appended for an identifier and a quantity *)
Variable mk_stock : string -> Z -> entry.

(** first loop: [for watch in watch_remnants] *)
Fixpoint stocks_matched (watch_remnants : list watch) (offer_ids : ref)
         (stocks : list entry) : M (list entry) :=
  match watch_remnants with
  | [] => ret stocks
  | watch :: rest =>
      ids <- load offer_ids ;;
      if py_in (py_str (Kod watch)) ids then
        stock <- lift (stock_of_count (Kolichestvo watch)) ;;
        remove_in_place offer_ids (py_str (Kod watch)) ;;;
        stocks_matched rest offer_ids
                       (stocks ++ [mk_stock (py_str (Kod watch)) stock])
      else stocks_matched rest offer_ids stocks
  end.

(** second loop: [for offer_id in offer_ids] *)
Definition stocks_missing (offer_ids : ref) (stocks : list entry)
  : M (list entry) :=
  ids <- load offer_ids ;;
  ret (stocks ++ map (fun offer_id => mk_stock offer_id 0) ids).

Definition create_stocks_with (watch_remnants : list watch) (offer_ids : ref)
  : M (list entry) :=
  stocks <- stocks_matched watch_remnants offer_ids [] ;;
  stocks_missing offer_ids stocks.
End Stocks.

Section Prices.
(** the dictionary built for a record; building it may raise *)
Variable mk_price : watch -> result entry.

Fixpoint prices_loop (watch_remnants : list watch) (offer_ids : ref)
         (prices : list entry) : M (list entry) :=
  match watch_remnants with
  | [] => ret prices
  | watch :: rest =>
      ids <- load offer_ids ;;
      if py_in (py_str (Kod watch)) ids then
        price <- lift (mk_price watch) ;;
        prices_loop rest offer_ids (prices ++ [price])
      else prices_loop rest offer_ids prices
  end.

Definition create_prices_with (watch_remnants : list watch) (offer_ids : ref)
  : M (list entry) :=
  prices_loop watch_remnants offer_ids [].
End Prices.
End Reconcile.

(** ** The batcher *)

(** The number of elements of [range(lo, hi, step)] for [step > 0]. *)
Definition range_len (lo hi step : Z) : Z :=
  if lo <? hi then (hi - lo - 1) / step + 1 else 0.

(** [range(start, stop, step)] *)
Definition py_range (start stop step : Z) : result (list Z) :=
  if step =? 0 then Raise ValueError
  else
    let n := if 0 <? step then range_len start stop step
             else range_len stop start (- step) in
    Ok (map (fun k => start + Z.of_nat k * step) (seq 0 (Z.to_nat n))).

(** A slice bound brought into [0, len]. *)
Definition slice_index (len i : Z) : Z :=
  if i <? 0 then Z.max (i + len) 0 else Z.min i len.

(** [lst[i:j]] *)
Definition py_slice {A} (lst : list A) (i j : Z) : list A :=
  let len := Z.of_nat (List.length lst) in
  let lo := slice_index len i in
  let hi := slice_index len j in
  firstn (Z.to_nat (hi - lo)) (skipn (Z.to_nat lo) lst).

(** seller.py 236-251.  The generator is read through [list(divide(lst, n))],
    as every caller does: the chunks in the order they are yielded. *)
Definition divide {A} (lst : list A) (n : Z) : result (list (list A)) :=
  rbind (py_range 0 (Z.of_nat (List.length lst)) n)
        (fun indices => Ok (map (fun i => py_slice lst i (i + n)) indices)).

(** the [k]-th run of [m] elements of [lst] *)
Definition chunk {A} (lst : list A) (m : nat) (k : nat) : list A :=
  firstn m (skipn (k * m) lst).

(** the number of chunks shorter than [n] *)
Definition short_chunks {A} (n : Z) (chunks : list (list A)) : nat :=
  List.length (filter (fun c => Z.of_nat (List.length c) <? n) chunks).

(** [v == n] for an [int] [n] *)
Definition py_eq_int (v : pyval) (n : Z) : bool :=
  match v with
  | PyInt z => z =? n
  | PyBool b => (if b then 1 else 0) =? n
  | _ => false
  end.

Definition result_map {A B} (f : A -> B) (r : result A) : result B :=
  rbind r (fun a => Ok (f a)).

(** ** The working directory of [download_stock]: file names and contents *)

Definition fs : Type := list (string * string).

Fixpoint fs_lookup (name : string) (f : fs) : option string :=
  match f with
  | [] => None
  | (n, c) :: f' => if (n =? name)%string then Some c else fs_lookup name f'
  end.

Definition fs_delete (name : string) (f : fs) : fs :=
  filter (fun nc => negb (fst nc =? name)%string) f.

Definition fs_write (name content : string) (f : fs) : fs :=
  (name, content) :: fs_delete name f.

(** [archive.extractall(".")]: every member is written, replacing a file of
    the same name. *)
Definition extractall (archive : list (string * string)) (f : fs) : fs :=
  fold_left (fun f nc => fs_write (fst nc) (snd nc) f) archive f.

(** [os.remove(name)] *)
Definition os_remove (name : string) (f : fs) : result unit * fs :=
  match fs_lookup name f with
  | Some _ => (Ok tt, fs_delete name f)
  | None => (Raise FileNotFoundError, f)
  end.

(** ** Paginated listings

    Both [get_offer_ids] loops ask for a page with the cursor of the page
    before, extend the list and decide whether to leave.  The conversation
    with the marketplace and the test for leaving are stated here once, over
    the reply type of either marketplace. *)
Section Pagination.
Context {server page item : Type}.
(** the reply to one request carrying a cursor: a page or an exception,
    and the state the marketplace is left in *)
Variable request : pyval -> server -> result page * server.
Variable page_items : page -> list item.
Variable page_cursor : page -> pyval.
(** the test in front of [break], on the reply and the extended list *)
Variable leave : page -> list item -> bool.

(** The loop, cut after [fuel] turns: [None] when it is still running. *)
Fixpoint paginate (fuel : nat) (cursor : pyval) (acc : list item) (s : server)
  : option (result (list item)) :=
  match fuel with
  | O => None
  | S fuel' =>
      match request cursor s with
      | (Raise e, _) => Some (Raise e)
      | (Ok p, s') =>
          let acc' := acc ++ page_items p in
          if leave p acc' then Some (Ok acc')
          else paginate fuel' (page_cursor p) acc' s'
      end
  end.

(** The replies to the first [k] requests of the conversation in which
    each request carries the cursor of the reply before it; the
    conversation is cut at a reply that raises. *)
Fixpoint conversation (k : nat) (cursor : pyval) (s : server) : list page :=
  match k with
  | O => []
  | S k' =>
      match request cursor s with
      | (Raise _, _) => []
      | (Ok p, s') => p :: conversation k' (page_cursor p) s'
      end
  end.

(** the items of a list of pages, flattened in page order *)
Definition gathered (pages : list page) : list item :=
  List.concat (map page_items pages).

(** the test for leaving, on the last of [pages] and everything gathered
    up to it, [acc] being what was gathered before [pages] *)
Definition leaves_at (acc : list item) (pages : list page) : bool :=
  match rev pages with
  | [] => false
  | p :: _ => leave p (acc ++ gathered pages)
  end.
End Pagination.

(** ** seller.py *)
Module Seller.

(** *** get_offer_ids (53-79) *)

(** an element of ["items"]; the field is [product.get("offer_id")], taken
    to be text *)
Record product : Type := { product_offer_id : string }.

(** what [get_product_list] returns: the ["result"] object of the reply *)
Record product_page : Type := {
  r_items : list product;   (* the key "items" *)
  r_total : pyval;          (* the key "total" *)
  r_last_id : pyval         (* the key "last_id" *)
}.

Section Lister.
(** The marketplace, seen from the client: a state and the reply to one
    [get_product_list(last_id, client_id, seller_token)] request, which
    either is a page or raises (a non-2xx status), and the state the
    marketplace is left in.  The credentials are fixed in a run and are
    part of the marketplace. *)
Variable server : Type.
Variable get_product_list : pyval -> server -> result product_page * server.

(** One turn of [while True]: the outcome is the loop state to continue
    with, or the accumulated list at [break], or the exception. *)
Inductive turn : Type :=
| Continue (last_id : pyval) (product_list : list product) (s : server)
| Break (product_list : list product)
| Failed (e : exn).

Definition loop_body (last_id : pyval) (product_list : list product)
           (s : server) : turn :=
  match get_product_list last_id s with
  | (Raise e, _) => Failed e
  | (Ok some_prod, s') =>
      let product_list := product_list ++ r_items some_prod in
      let total := r_total some_prod in
      let last_id := r_last_id some_prod in
      if py_eq_int total (Z.of_nat (List.length product_list))
      then Break product_list
      else Continue last_id product_list s'
  end.

(** The loop, cut after [fuel] turns: [None] when it is still running. *)
Fixpoint product_loop (fuel : nat) (last_id : pyval)
         (product_list : list product) (s : server)
  : option (result (list product)) :=
  match fuel with
  | O => None
  | S fuel' =>
      match loop_body last_id product_list s with
      | Failed e => Some (Raise e)
      | Break product_list' => Some (Ok product_list')
      | Continue last_id' product_list' s' =>
          product_loop fuel' last_id' product_list' s'
      end
  end.

Definition get_offer_ids (fuel : nat) (s : server)
  : option (result (list string)) :=
  option_map (result_map (map product_offer_id))
             (product_loop fuel (PyStr "") [] s).

(** the test of [if total == len(product_list)] *)
Definition total_is_length (some_prod : product_page)
           (product_list : list product) : bool :=
  py_eq_int (r_total some_prod) (Z.of_nat (List.length product_list)).

(** the first [k] replies of the marketplace *)
Definition replies (k : nat) (s : server) : list product_page :=
  conversation get_product_list r_last_id k (PyStr "") s.

(** the products of a list of pages, in page order *)
Definition all_items (pages : list product_page) : list product :=
  gathered r_items pages.

(** the total reported by the last page equals the number of products
    gathered, that page included *)
Definition total_reached (pages : list product_page) : bool :=
  leaves_at r_items total_is_length [] pages.
End Lister.

(** *** download_stock (136-158) *)
Section Loader.
(** [pd.read_excel(...).to_dict(orient="records")] on the bytes of the
    spreadsheet: the records, or the exception of a failed parse. *)
Variable read_excel : string -> result (list watch).

(** [response] is the archive served at the fixed address, as a list of
    member names and contents, or the exception of the download, of
    [raise_for_status] or of opening the archive; writing the members is
    taken to succeed.  ["./ostatki.xls"] and ["ostatki.xls"] name the same
    file of the working directory.  The outcome comes with the directory
    the call leaves behind. *)
Definition download_stock (response : result (list (string * string)))
           (f : fs) : result (list watch) * fs :=
  match response with
  | Raise e => (Raise e, f)
  | Ok archive =>
      let f := extractall archive f in
      let excel_file := "ostatki.xls" in
      match fs_lookup excel_file f with
      | None => (Raise FileNotFoundError, f)
      | Some content =>
          match read_excel content with
          | Raise e => (Raise e, f)
          | Ok watch_remnants =>
              match os_remove "ostatki.xls" f with
              | (Ok _, f') => (Ok watch_remnants, f')
              | (Raise e, f') => (Raise e, f')
              end
          end
      end
  end.
End Loader.

(** *** create_stocks (161-187) *)
Record stock_entry : Type := { offer_id : string; stock : Z }.

Definition create_stocks (watch_remnants : list watch) (offer_ids : ref)
  : M (list stock_entry) :=
  create_stocks_with
    (fun offer_id stock => {| offer_id := offer_id; stock := stock |})
    watch_remnants offer_ids.

(** *** create_prices (190-211) *)
Record price_entry : Type := {
  auto_action_enabled : string;
  currency_code : string;
  price_offer_id : string;   (* the key "offer_id" *)
  old_price : string;
  price : string
}.

Definition price_of (watch : watch) : result price_entry :=
  rbind (price_conversion_val (Tsena watch)) (fun p =>
    Ok {| auto_action_enabled := "UNKNOWN";
          currency_code := "RUB";
          price_offer_id := py_str (Kod watch);
          old_price := "0";
          price := p |}).

Definition create_prices (watch_remnants : list watch) (offer_ids : ref)
  : M (list price_entry) :=
  create_prices_with price_of watch_remnants offer_ids.

(** *** main (298-307)

    The two reconciliations of [main], on the one list object
    [offer_ids].  The pushes to the marketplace between them do not
    reach [offer_ids] and are left out. *)
Definition main_reconcile (watch_remnants : list watch) (offer_ids : ref)
  : M (list stock_entry * list price_entry) :=
  stocks <- create_stocks watch_remnants offer_ids ;;
  prices <- create_prices watch_remnants offer_ids ;;
  ret (stocks, prices).

End Seller.

(** ** market.py *)
Module Market.

(** *** get_offer_ids (123-154) *)

(** an element of ["offerMappingEntries"]; the field is
    [product.get("offer").get("shopSku")] *)
Record mapping_entry : Type := { shopSku : string }.

(** what [get_product_list] returns; [nextPageToken] is
    [some_prod.get("paging").get("nextPageToken")], [PyNone] when the
    reply has no such key *)
Record product_page : Type := {
  offerMappingEntries : list mapping_entry;
  nextPageToken : pyval
}.

Section Lister.
Variable server : Type.
Variable get_product_list : pyval -> server -> result product_page * server.

Inductive turn : Type :=
| Continue (page : pyval) (product_list : list mapping_entry) (s : server)
| Break (product_list : list mapping_entry)
| Failed (e : exn).

Definition loop_body (page : pyval) (product_list : list mapping_entry)
           (s : server) : turn :=
  match get_product_list page s with
  | (Raise e, _) => Failed e
  | (Ok some_prod, s') =>
      let product_list := product_list ++ offerMappingEntries some_prod in
      let page := nextPageToken some_prod in
      if negb (py_truthy page)
      then Break product_list
      else Continue page product_list s'
  end.

Fixpoint product_loop (fuel : nat) (page : pyval)
         (product_list : list mapping_entry) (s : server)
  : option (result (list mapping_entry)) :=
  match fuel with
  | O => None
  | S fuel' =>
      match loop_body page product_list s with
      | Failed e => Some (Raise e)
      | Break product_list' => Some (Ok product_list')
      | Continue page' product_list' s' =>
          product_loop fuel' page' product_list' s'
      end
  end.

Definition get_offer_ids (fuel : nat) (s : server)
  : option (result (list string)) :=
  option_map (result_map (map shopSku))
             (product_loop fuel (PyStr "") [] s).

(** the test of [if not page] *)
Definition cursor_is_empty (some_prod : product_page)
           (product_list : list mapping_entry) : bool :=
  negb (py_truthy (nextPageToken some_prod)).

(** the first [k] replies of the marketplace *)
Definition replies (k : nat) (s : server) : list product_page :=
  conversation get_product_list nextPageToken k (PyStr "") s.

Definition all_items (pages : list product_page) : list mapping_entry :=
  gathered offerMappingEntries pages.

(** the next-page cursor of the last page is empty *)
Definition cursor_empty (pages : list product_page) : bool :=
  leaves_at offerMappingEntries cursor_is_empty [] pages.
End Lister.

(** *** create_stocks (157-219) *)
Record stock_item : Type := {
  count : Z;
  type_ : string;      (* the key "type" *)
  updatedAt : string
}.

Record stock_entry : Type := {
  sku : string;
  warehouseId : string;
  stock_items : list stock_item   (* the key "items" *)
}.

(** [date] is the text computed from [datetime.datetime.utcnow()] at the
    start of the call. *)
Definition create_stocks (watch_remnants : list watch) (offer_ids : ref)
           (warehouse_id : string) (date : string) : M (list stock_entry) :=
  create_stocks_with
    (fun offer_id stock =>
       {| sku := offer_id;
          warehouseId := warehouse_id;
          stock_items :=
            [ {| count := stock; type_ := "FIT"; updatedAt := date |} ] |})
    watch_remnants offer_ids.

(** the quantity of an entry, [stock.get("items")[0].get("count")] *)
Definition entry_count (e : stock_entry) : Z :=
  match stock_items e with
  | it :: _ => count it
  | [] => 0
  end.

(** *** create_prices (222-258) *)
Record price_value : Type := { value : Z; currencyId : string }.
Record price_entry : Type := { id : string; price : price_value }.

Definition price_of (watch : watch) : result price_entry :=
  rbind (price_conversion_val (Tsena watch)) (fun text =>
  rbind (int_of_text text) (fun v =>
    Ok {| id := py_str (Kod watch);
          price := {| value := v; currencyId := "RUR" |} |})).

Definition create_prices (watch_remnants : list watch) (offer_ids : ref)
  : M (list price_entry) :=
  create_prices_with price_of watch_remnants offer_ids.

End Market.



(** ** Reconciliation, stated on values

    The number of times a text occurs in a list. *)
Definition occ (l : list string) (c : string) : nat := count_occ string_dec l c.

(** [l] without the first element equal to [x]; [l] itself when there is
    none. *)
Fixpoint remove_first (x : string) (l : list string) : list string :=
  match l with
  | [] => []
  | y :: l' => if (x =? y)%string then l' else y :: remove_first x l'
  end.

(** The records that consume a listed identifier and the identifiers left
    over, by the pass of [create_stocks] over the inventory. *)
Fixpoint consumed (watch_remnants : list watch) (ids : list string) : list watch :=
  match watch_remnants with
  | [] => []
  | w :: rest =>
      if py_in (code_of w) ids
      then w :: consumed rest (remove_first (code_of w) ids)
      else consumed rest ids
  end.

Fixpoint left_over (watch_remnants : list watch) (ids : list string) : list string :=
  match watch_remnants with
  | [] => ids
  | w :: rest =>
      if py_in (code_of w) ids
      then left_over rest (remove_first (code_of w) ids)
      else left_over rest ids
  end.

(** [filter_seen key keep seen l] keeps the elements [a] of [l], in order,
    for which [keep (key a) k] holds, [k] being the number of elements with
    the key of [a] that stand before [a] in [l] or are in [seen]. *)
Fixpoint filter_seen {A} (key : A -> string) (keep : string -> nat -> bool)
         (seen : list string) (l : list A) : list A :=
  match l with
  | [] => []
  | a :: l' =>
      let rest := filter_seen key keep (key a :: seen) l' in
      if keep (key a) (occ seen (key a)) then a :: rest else rest
  end.

(** [l] without the first [f c] occurrences of every [c], given that
    [seen] holds the identifiers that stood before [l]. *)
Definition drop (f : string -> nat) (seen l : list string) : list string :=
  filter_seen (fun i => i) (fun c k => (f c <=? k)%nat) seen l.

(** The inventory records matched with a listed identifier, in inventory
    order: a record is matched when fewer records before it carry its code
    than there are listed identifiers equal to that code.  With identifiers
    that are pairwise different these are the first records of every listed
    code. *)
Definition matched (watch_remnants : list watch) (ids : list string) : list watch :=
  filter_seen code_of (fun c k => (k <? occ ids c)%nat) [] watch_remnants.

(** The listed identifiers matched by no inventory record, in the order of
    the listing: an identifier is unmatched when at least as many equal
    identifiers stand before it as there are records with that code.  With
    identifiers that are pairwise different these are the identifiers that
    are the code of no record. *)
Definition unmatched (watch_remnants : list watch) (ids : list string) : list string :=
  drop (occ (map code_of watch_remnants)) [] ids.

(** the update of a matched record: its code and its normalised quantity *)
Definition stock_of (w : watch) : result (string * Z) :=
  rbind (stock_of_count (Kolichestvo w)) (fun stock => Ok (code_of w, stock)).

(** The stock updates in the words of the specification, as pairs of an
    identifier and a quantity: the matched records first, in inventory
    order, then a zero quantity for every unmatched identifier, in the order
    of the listing. *)
Definition stock_updates (watch_remnants : list watch) (ids : list string)
  : result (list (string * Z)) :=
  rbind (mapM stock_of (matched watch_remnants ids)) (fun found =>
    Ok (found ++ map (fun offer_id => (offer_id, 0)) (unmatched watch_remnants ids))).

(** the dictionary of an update, given the constructor of the module *)
Definition entry_of_pair {entry : Type} (mk_stock : string -> Z -> entry)
           (u : string * Z) : entry :=
  mk_stock (fst u) (snd u).

(** the inventory records whose code is listed *)
Definition listed (watch_remnants : list watch) (ids : list string) : list watch :=
  filter (fun w => py_in (code_of w) ids) watch_remnants.

Definition seller_stock (u : string * Z) : Seller.stock_entry :=
  {| Seller.offer_id := fst u; Seller.stock := snd u |}.

Definition market_stock (warehouse_id date : string) (u : string * Z)
  : Market.stock_entry :=
  {| Market.sku := fst u;
     Market.warehouseId := warehouse_id;
     Market.stock_items :=
       [ {| Market.count := snd u; Market.type_ := "FIT"; Market.updatedAt := date |} ] |}.


(** the price cell of every record is text *)
Definition prices_are_text (watch_remnants : list watch) : Prop :=
  forall w, In w watch_remnants -> exists t, Tsena w = PyStr t.

(** the entry [seller.create_prices] builds for a code and a price text *)
Definition seller_price (code price : string) : Seller.price_entry :=
  {| Seller.auto_action_enabled := "UNKNOWN";
     Seller.currency_code := "RUB";
     Seller.price_offer_id := code;
     Seller.old_price := "0";
     Seller.price := price |}.


(** ** Two small marketplaces, used to run the listings

    Each serves three offers on two pages and answers by the cursor it is
    sent; any other cursor is refused. *)
Definition ozon_shop (last_id : pyval) (s : unit)
  : result Seller.product_page * unit :=
  match last_id with
  | PyStr "" =>
      (Ok {| Seller.r_items := [ {| Seller.product_offer_id := "1001" |};
                                 {| Seller.product_offer_id := "1002" |} ];
             Seller.r_total := PyInt 3;
             Seller.r_last_id := PyStr "p2" |}, s)
  | PyStr "p2" =>
      (Ok {| Seller.r_items := [ {| Seller.product_offer_id := "1003" |} ];
             Seller.r_total := PyInt 3;
             Seller.r_last_id := PyStr "" |}, s)
  | _ => (Raise HTTPError, s)
  end.

Definition yandex_shop (page : pyval) (s : unit)
  : result Market.product_page * unit :=
  match page with
  | PyStr "" =>
      (Ok {| Market.offerMappingEntries := [ {| Market.shopSku := "1001" |};
                                             {| Market.shopSku := "1002" |} ];
             Market.nextPageToken := PyStr "p2" |}, s)
  | PyStr "p2" =>
      (Ok {| Market.offerMappingEntries := [ {| Market.shopSku := "1003" |} ];
             Market.nextPageToken := PyNone |}, s)
  | _ => (Raise HTTPError, s)
  end.


(** A run of the loader in an empty directory, on an archive that holds
    the spreadsheet, with a parse that raises. *)
Definition download_stock_ex : result (list watch) * fs :=
  Seller.download_stock (fun _ => Raise ValueError)
                        (Ok [("ostatki.xls", "not a spreadsheet")]) [].


(** every character of the text is a digit *)
Definition all_digits (s : string) : bool :=
  forallb is_digit (list_ascii_of_string s).


(** [create_stocks] stopped at a record of the inventory: the records before
    it were dealt with, its code was still listed, its quantity raised [e],
    and [ids'] is what those earlier records left of the listing [ids]. *)
Definition raised_at (watch_remnants : list watch) (ids : list string)
           (e : exn) (ids' : list string) : Prop :=
  exists pre w post,
    watch_remnants = pre ++ w :: post
    /\ (forall w', In w' (matched pre ids) ->
                   is_ok (stock_of_count (Kolichestvo w')) = true)
    /\ py_in (code_of w) (unmatched pre ids) = true
    /\ stock_of_count (Kolichestvo w) = Raise e
    /\ ids' = unmatched pre ids.

(** the zero entry of seller.py for an identifier *)
Definition seller_zero (offer_id : string) : Seller.stock_entry :=
  {| Seller.offer_id := offer_id; Seller.stock := 0 |}.

(** the identifier and the quantity of an entry *)
Definition seller_pair (e : Seller.stock_entry) : string * Z :=
  (Seller.offer_id e, Seller.stock e).

Definition market_pair (e : Market.stock_entry) : string * Z :=
  (Market.sku e, Market.entry_count e).


(** A marketplace that reports three products and serves two on every page,
    whatever the cursor. *)
Definition ozon_pairs (last_id : pyval) (s : unit)
  : result Seller.product_page * unit :=
  (Ok {| Seller.r_items := [ {| Seller.product_offer_id := "1001" |};
                             {| Seller.product_offer_id := "1002" |} ];
         Seller.r_total := PyInt 3;
         Seller.r_last_id := PyStr "p" |}, s).


(** ** Pushing batches

    [for some in list(divide(xs, n)): push(some)]: the chunks are pushed in
    order; an exception of [push] (a non-2xx status, a failed connection)
    ends the loop and is raised.  What [push] returns is not used. *)
Section Pushing.
Context {world A : Type}.
Variable push : list A -> world -> result unit * world.

Fixpoint push_each (chunks : list (list A)) (w : world) : result unit * world :=
  match chunks with
  | [] => (Ok tt, w)
  | some :: rest =>
      match push some w with
      | (Ok _, w') => push_each rest w'
      | (Raise e, w') => (Raise e, w')
      end
  end.

Definition push_divided (xs : list A) (n : Z) (w : world) : result unit * world :=
  match divide xs n with
  | Ok chunks => push_each chunks w
  | Raise e => (Raise e, w)
  end.
End Pushing.

(** The loop of [get_offer_ids] as in [paginate], handing back also the
    state the marketplace is left in, for the requests that follow. *)
Section PaginationState.
Context {server page item : Type}.
Variable request : pyval -> server -> result page * server.
Variable page_items : page -> list item.
Variable page_cursor : page -> pyval.
Variable leave : page -> list item -> bool.

Fixpoint paginate_st (fuel : nat) (cursor : pyval) (acc : list item) (s : server)
  : option (result (list item) * server) :=
  match fuel with
  | O => None
  | S fuel' =>
      match request cursor s with
      | (Raise e, s') => Some (Raise e, s')
      | (Ok p, s') =>
          let acc' := acc ++ page_items p in
          if leave p acc' then Some (Ok acc', s')
          else paginate_st fuel' (page_cursor p) acc' s'
      end
  end.
End PaginationState.

(** ** seller.py: the requests, [upload_stocks], [upload_prices], [main] *)
Module SellerUpload.

(** the requests seller.py sends to the marketplace *)
Inductive request : Type :=
| ProductList (last_id : pyval)                      (* get_product_list, 14-50 *)
| ImportStocks (stocks : list Seller.stock_entry)    (* update_stocks, 109-133 *)
| ImportPrices (prices : list Seller.price_entry).   (* update_price, 82-106 *)

Definition is_product_list (q : request) : bool :=
  match q with ProductList _ => true | _ => false end.

Definition is_import_prices (q : request) : bool :=
  match q with ImportPrices _ => true | _ => false end.

Section Shop.
(** The marketplace behind the three endpoints: its state and, for each
    request, the reply or the exception ([raise_for_status], a failed
    connection) with the state it is left in.  The reply of the two import
    endpoints is not used by any caller. *)
Variable server : Type.
Variable list_endpoint : pyval -> server -> result Seller.product_page * server.
Variable stocks_endpoint : list Seller.stock_entry -> server -> result unit * server.
Variable prices_endpoint : list Seller.price_entry -> server -> result unit * server.

(** the marketplace and the requests sent so far, oldest first *)
Definition world : Type := server * list request.

Definition get_product_list (last_id : pyval) (w : world)
  : result Seller.product_page * world :=
  let (r, s') := list_endpoint last_id (fst w) in
  (r, (s', snd w ++ [ProductList last_id])).

Definition update_stocks (stocks : list Seller.stock_entry) (w : world)
  : result unit * world :=
  let (r, s') := stocks_endpoint stocks (fst w) in
  (r, (s', snd w ++ [ImportStocks stocks])).

Definition update_price (prices : list Seller.price_entry) (w : world)
  : result unit * world :=
  let (r, s') := prices_endpoint prices (fst w) in
  (r, (s', snd w ++ [ImportPrices prices])).

(** [get_offer_ids] (53-79), with the world it leaves *)
Definition get_offer_ids (fuel : nat) (w : world)
  : option (result (list string) * world) :=
  option_map (fun rw => (result_map (map Seller.product_offer_id) (fst rw), snd rw))
             (paginate_st get_product_list Seller.r_items Seller.r_last_id
                          Seller.total_is_length fuel (PyStr "") [] w).

(** [filter(lambda stock: (stock.get("stock") != 0), stocks)] *)
Definition not_empty_of (stocks : list Seller.stock_entry) : list Seller.stock_entry :=
  filter (fun stock => negb (Seller.stock stock =? 0)) stocks.

(** the body of the coroutine [upload_stocks] (272-290), run to its end;
    [offer_ids] is a list of its own, at reference 0 of a store of its own *)
Definition upload_stocks (fuel : nat) (watch_remnants : list watch) (w : world)
  : option (result (list Seller.stock_entry * list Seller.stock_entry) * world) :=
  match get_offer_ids fuel w with
  | None => None
  | Some (Raise e, w1) => Some (Raise e, w1)
  | Some (Ok offer_ids, w1) =>
      match fst (Seller.create_stocks watch_remnants 0%nat (fun _ => offer_ids)) with
      | Raise e => Some (Raise e, w1)
      | Ok stocks =>
          match push_divided update_stocks stocks 100 w1 with
          | (Raise e, w2) => Some (Raise e, w2)
          | (Ok _, w2) => Some (Ok (not_empty_of stocks, stocks), w2)
          end
      end
  end.

(** the body of the coroutine [upload_prices] (254-269) *)
Definition upload_prices (fuel : nat) (watch_remnants : list watch) (w : world)
  : option (result (list Seller.price_entry) * world) :=
  match get_offer_ids fuel w with
  | None => None
  | Some (Raise e, w1) => Some (Raise e, w1)
  | Some (Ok offer_ids, w1) =>
      match fst (Seller.create_prices watch_remnants 0%nat (fun _ => offer_ids)) with
      | Raise e => Some (Raise e, w1)
      | Ok prices =>
          match push_divided update_price prices 1000 w1 with
          | (Raise e, w2) => Some (Raise e, w2)
          | (Ok _, w2) => Some (Ok prices, w2)
          end
      end
  end.

(** The [try] block of [main] (298-307); an exception that leaves it is
    caught and printed by [main].  [response] and [read_excel] are what
    [download_stock] meets, [f] is the working directory; the one list
    object [offer_ids] is at reference 0 of the store of the run. *)
Definition main_try (fuel : nat) (read_excel : string -> result (list watch))
           (response : result (list (string * string))) (f : fs) (w : world)
  : option (result unit * (fs * world)) :=
  match get_offer_ids fuel w with
  | None => None
  | Some (Raise e, w1) => Some (Raise e, (f, w1))
  | Some (Ok offer_ids, w1) =>
      match Seller.download_stock read_excel response f with
      | (Raise e, f1) => Some (Raise e, (f1, w1))
      | (Ok watch_remnants, f1) =>
          match Seller.create_stocks watch_remnants 0%nat (fun _ => offer_ids) with
          | (Raise e, _) => Some (Raise e, (f1, w1))
          | (Ok stocks, h1) =>
              match push_divided update_stocks stocks 100 w1 with
              | (Raise e, w2) => Some (Raise e, (f1, w2))
              | (Ok _, w2) =>
                  match fst (Seller.create_prices watch_remnants 0%nat h1) with
                  | Raise e => Some (Raise e, (f1, w2))
                  | Ok prices =>
                      match push_divided update_price prices 900 w2 with
                      | (Raise e, w3) => Some (Raise e, (f1, w3))
                      | (Ok _, w3) => Some (Ok tt, (f1, w3))
                      end
                  end
              end
          end
      end
  end.
End Shop.
End SellerUpload.

(** ** market.py: the requests, [upload_stocks], [upload_prices] *)
Module MarketUpload.

Inductive request : Type :=
| OfferMappingEntries (page : pyval)                 (* get_product_list, 13-52 *)
| PutStocks (stocks : list Market.stock_entry)       (* update_stocks, 55-84 *)
| PostPrices (prices : list Market.price_entry).     (* update_price, 87-120 *)

Section Shop.
Variable server : Type.
Variable list_endpoint : pyval -> server -> result Market.product_page * server.
Variable stocks_endpoint : list Market.stock_entry -> server -> result unit * server.
Variable prices_endpoint : list Market.price_entry -> server -> result unit * server.

Definition world : Type := server * list request.

Definition get_product_list (page : pyval) (w : world)
  : result Market.product_page * world :=
  let (r, s') := list_endpoint page (fst w) in
  (r, (s', snd w ++ [OfferMappingEntries page])).

Definition update_stocks (stocks : list Market.stock_entry) (w : world)
  : result unit * world :=
  let (r, s') := stocks_endpoint stocks (fst w) in
  (r, (s', snd w ++ [PutStocks stocks])).

Definition update_price (prices : list Market.price_entry) (w : world)
  : result unit * world :=
  let (r, s') := prices_endpoint prices (fst w) in
  (r, (s', snd w ++ [PostPrices prices])).

(** [get_offer_ids] (123-154), with the world it leaves *)
Definition get_offer_ids (fuel : nat) (w : world)
  : option (result (list string) * world) :=
  option_map (fun rw => (result_map (map Market.shopSku) (fst rw), snd rw))
             (paginate_st get_product_list Market.offerMappingEntries
                          Market.nextPageToken Market.cursor_is_empty
                          fuel (PyStr "") [] w).

(** [filter(lambda stock: (stock.get("items")[0].get("count") != 0), stocks)];
    every entry [create_stocks] builds has its one item *)
Definition not_empty_of (stocks : list Market.stock_entry) : list Market.stock_entry :=
  filter (fun stock => negb (Market.entry_count stock =? 0)) stocks.

(** the body of the coroutine [upload_stocks] (285-310) *)
Definition upload_stocks (fuel : nat) (watch_remnants : list watch)
           (warehouse_id date : string) (w : world)
  : option (result (list Market.stock_entry * list Market.stock_entry) * world) :=
  match get_offer_ids fuel w with
  | None => None
  | Some (Raise e, w1) => Some (Raise e, w1)
  | Some (Ok offer_ids, w1) =>
      match fst (Market.create_stocks watch_remnants 0%nat warehouse_id date
                                      (fun _ => offer_ids)) with
      | Raise e => Some (Raise e, w1)
      | Ok stocks =>
          match push_divided update_stocks stocks 2000 w1 with
          | (Raise e, w2) => Some (Raise e, w2)
          | (Ok _, w2) => Some (Ok (not_empty_of stocks, stocks), w2)
          end
      end
  end.

(** the body of the coroutine [upload_prices] (261-282) *)
Definition upload_prices (fuel : nat) (watch_remnants : list watch) (w : world)
  : option (result (list Market.price_entry) * world) :=
  match get_offer_ids fuel w with
  | None => None
  | Some (Raise e, w1) => Some (Raise e, w1)
  | Some (Ok offer_ids, w1) =>
      match fst (Market.create_prices watch_remnants 0%nat (fun _ => offer_ids)) with
      | Raise e => Some (Raise e, w1)
      | Ok prices =>
          match push_divided update_price prices 500 w1 with
          | (Raise e, w2) => Some (Raise e, w2)
          | (Ok _, w2) => Some (Ok prices, w2)
          end
      end
  end.
End Shop.
End MarketUpload.


(** ** Runs of the uploads against the two small marketplaces, whose import
    endpoints accept every batch *)
Definition seller_upload_stocks_ex :=
  SellerUpload.upload_stocks unit ozon_shop (fun _ s => (Ok tt, s)) 5
    [mk_watch (PyInt 1001) (PyStr ">10") (PyStr "1'500.00 р.");
     mk_watch (PyInt 1003) (PyStr "1") (PyStr "990.00 р.")]
    (tt, []).

Definition market_upload_stocks_ex :=
  MarketUpload.upload_stocks unit yandex_shop (fun _ s => (Ok tt, s)) 5
    [mk_watch (PyInt 1001) (PyStr ">10") (PyStr "1'500.00 р.");
     mk_watch (PyInt 1003) (PyStr "1") (PyStr "990.00 р.")]
    "7" "2025-01-01T12:00:00Z" (tt, []).

Definition seller_upload_prices_ex :=
  SellerUpload.upload_prices unit ozon_shop (fun _ s => (Ok tt, s)) 5
    [mk_watch (PyInt 1001) (PyStr ">10") (PyStr "1'500.00 р.")] (tt, []).

Definition market_upload_prices_ex :=
  MarketUpload.upload_prices unit yandex_shop (fun _ s => (Ok tt, s)) 5
    [mk_watch (PyInt 1001) (PyStr ">10") (PyStr "1'500.00 р.")] (tt, []).

Definition seller_main_ex :=
  SellerUpload.main_try unit ozon_shop (fun _ s => (Ok tt, s)) (fun _ s => (Ok tt, s)) 5
    (fun _ => Ok [mk_watch (PyInt 1001) (PyStr ">10") (PyStr "1'500.00 р.")])
    (Ok [("ostatki.xls", "sheet")]) [] (tt, []).


(** * Properties *)

(** ** Outcomes and strings *)

Lemma string_eqb_false (a b : string) : a <> b -> (a =? b)%string = false.
Proof. intro H. now apply String.eqb_neq. Qed.

Lemma is_digit_val_nonneg (c : ascii) : is_digit c = true -> 0 <= digit_val c <= 9.
Proof.
  unfold is_digit, digit_val. intro H. cbv zeta in H.
  apply andb_true_iff in H. destruct H as [H1 H2].
  apply Nat.leb_le in H1. apply Nat.leb_le in H2. lia.
Qed.

Lemma parse_digits_nonneg (s : string) :
  forall acc prev z, parse_digits s acc prev = Some z -> 0 <= acc -> 0 <= z.
Proof.
  induction s as [|c s IH]; cbn [parse_digits]; intros acc prev z H Hacc.
  - destruct prev; congruence.
  - destruct (is_digit c) eqn:Hd.
    + apply IH in H; [assumption|].
      pose proof (is_digit_val_nonneg c Hd). lia.
    + destruct (c =? "_")%char; [|discriminate].
      destruct prev; [|discriminate]. eauto.
Qed.


Lemma all_digits_cons (c : ascii) (s : string) :
  all_digits (String c s) = is_digit c && all_digits s.
Proof. reflexivity. Qed.

Lemma is_digit_not_space (c : ascii) : is_digit c = true -> is_space c = false.
Proof.
  unfold is_digit, is_space. intro H. cbv zeta in *.
  apply andb_true_iff in H. destruct H as [H1 H2].
  apply Nat.leb_le in H1. apply Nat.leb_le in H2.
  apply orb_false_iff. split.
  - apply andb_false_iff. right. apply Nat.leb_gt. lia.
  - apply Nat.eqb_neq. lia.
Qed.

Lemma lstrip_digits (s : string) : all_digits s = true -> lstrip s = s.
Proof.
  destruct s as [|c s]; [reflexivity|]. rewrite all_digits_cons.
  intro H. apply andb_true_iff in H. destruct H as [Hc _].
  cbn [lstrip]. now rewrite (is_digit_not_space c Hc).
Qed.

Lemma rstrip_digits (s : string) : all_digits s = true -> rstrip s = s.
Proof.
  induction s as [|c s IH]; [reflexivity|]. rewrite all_digits_cons.
  intro H. apply andb_true_iff in H. destruct H as [Hc Hs].
  cbn [rstrip]. rewrite (IH Hs).
  destruct s; [now rewrite (is_digit_not_space c Hc)|reflexivity].
Qed.

Lemma split_sign_digits (s : string) :
  all_digits s = true -> split_sign s = (false, s).
Proof.
  destruct s as [|c s]; [reflexivity|]. rewrite all_digits_cons.
  intro H. apply andb_true_iff in H. destruct H as [Hc _].
  unfold split_sign.
  destruct (Ascii.eqb_spec c "-") as [->|_]; [discriminate Hc|].
  destruct (Ascii.eqb_spec c "+") as [->|_]; [discriminate Hc|reflexivity].
Qed.

Lemma to_int_not_nil (z : Z) :
  Z.to_int z <> Decimal.Pos Decimal.Nil /\ Z.to_int z <> Decimal.Neg Decimal.Nil.
Proof.
  split; intro H; pose proof (DecimalZ.of_to z) as E; rewrite H in E;
    cbn in E; subst z; discriminate H.
Qed.

(** [str] of an [int] is read back by the decimal reader of the library. *)
Lemma py_str_int_read (z : Z) :
  NilZero.int_of_string (py_str (PyInt z)) = Some (Z.to_int z).
Proof.
  destruct (to_int_not_nil z). now apply NilZero.isi.
Qed.

Lemma py_str_int_inj (z1 z2 : Z) : py_str (PyInt z1) = py_str (PyInt z2) -> z1 = z2.
Proof.
  intro H. pose proof (py_str_int_read z1) as R1. rewrite H, py_str_int_read in R1.
  injection R1 as R1. rewrite <- (DecimalZ.of_to z1), <- (DecimalZ.of_to z2).
  now rewrite R1.
Qed.

(** On an integer cell the normaliser gives the integer itself, but [0] for
    the integer [1]. *)
Lemma stock_of_count_int (z : Z) :
  stock_of_count (PyInt z) = Ok (if z =? 1 then 0 else z).
Proof.
  unfold stock_of_count. cbv zeta.
  destruct (String.eqb_spec (py_str (PyInt z)) ">10") as [E|_].
  - pose proof (py_str_int_read z) as R. rewrite E in R. discriminate R.
  - destruct (String.eqb_spec (py_str (PyInt z)) "1") as [E|N].
    + change "1"%string with (py_str (PyInt 1)) in E.
      apply py_str_int_inj in E. now subst z.
    + destruct (Z.eqb_spec z 1) as [->|_]; [|reflexivity].
      exfalso. now apply N.
Qed.

(** ** The quantity normaliser *)

(** *** The decimal text of an integer is read back by [int] *)












(** ** The price normaliser *)

Lemma split_head (s : string) :
  hd EmptyString (py_split "." s) = before_first_dot s.
Proof.
  induction s as [|c s IH]; [reflexivity|].
  cbn [py_split before_first_dot].
  destruct (c =? ".")%char; [reflexivity|].
  destruct (py_split "." s) as [|p ps]; cbn [hd] in *; now rewrite <- IH.
Qed.

Lemma py_split_nonempty (sep : ascii) (s : string) : py_split sep s <> [].
Proof.
  destruct s as [|c s]; cbn [py_split]; [discriminate|].
  destruct (c =? sep)%char; [discriminate|].
  destruct (py_split sep s); discriminate.
Qed.

Lemma re_sub_is_filter (s : string) :
  re_sub_non_digits s = digits_only s.
Proof.
  unfold digits_only.
  induction s as [|c s IH]; [reflexivity|].
  cbn [re_sub_non_digits list_ascii_of_string filter].
  destruct (is_digit c); cbn [string_of_list_ascii]; now rewrite IH.
Qed.

Lemma digits_only_empty (s : string) :
  digits_only s = EmptyString <-> has_digit s = false.
Proof.
  rewrite <- re_sub_is_filter.
  induction s as [|c s IH]; cbn [re_sub_non_digits has_digit]; [tauto|].
  destruct (is_digit c); cbn [orb]; [|exact IH].
  split; discriminate.
Qed.

(** C9: the price normaliser keeps what stands before the first '.' and
    drops from it every character that is not a digit; "5'990.00 руб."
    gives "5990", and the result is empty exactly when no digit stands
    before the first '.'. *)
Theorem price_conversion_rule (price : string) :
  price_conversion price = normalize_price_spec price
  /\ price_conversion "5'990.00 руб." = "5990"
  /\ price_conversion "Ошибка" = ""
  /\ (has_digit (before_first_dot price) = false <-> price_conversion price = "").
Proof.
  assert (E : price_conversion price = normalize_price_spec price).
  { unfold price_conversion, normalize_price_spec.
    now rewrite split_head, re_sub_is_filter. }
  split; [exact E|]. split; [reflexivity|]. split; [reflexivity|].
  rewrite E. unfold normalize_price_spec. symmetry. apply digits_only_empty.
Qed.

Lemma price_conversion_rule_witness :
  has_digit (before_first_dot "руб.12") = false /\ price_conversion "руб.12" = "".
Proof.
  split; [reflexivity|].
  apply (proj1 (proj2 (proj2 (proj2 (price_conversion_rule "руб.12"))))).
  reflexivity.
Defined.

(** ** The batcher *)

Section Chunks.
Context {A : Type}.
Variable lst : list A.
Variable m : nat.
Hypothesis m_pos : (0 < m)%nat.

Lemma firstn_plus (a b : nat) (l : list A) :
  (a <= List.length l)%nat ->
  firstn (a + b) l = firstn a l ++ firstn b (skipn a l).
Proof.
  intro H. rewrite <- (firstn_skipn a l) at 1.
  rewrite <- (firstn_length_le l H) at 1. apply firstn_app_2.
Qed.

Lemma chunks_concat (K : nat) :
  (forall k, (k < K)%nat -> (k * m <= List.length lst)%nat) ->
  List.concat (map (chunk lst m) (seq 0 K)) = firstn (K * m) lst.
Proof.
  induction K as [|K IH]; intro Hk; [reflexivity|].
  rewrite seq_S, map_app, concat_app, IH by (intros; apply Hk; lia).
  cbn [map List.concat Nat.add]. rewrite app_nil_r. unfold chunk.
  replace (S K * m)%nat with (K * m + m)%nat by lia.
  symmetry. apply firstn_plus. apply Hk. lia.
Qed.

Lemma chunk_length (k : nat) :
  List.length (chunk lst m k) = Nat.min m (List.length lst - k * m).
Proof. unfold chunk. now rewrite length_firstn, length_skipn. Qed.

Lemma short_none (K : nat) :
  (K * m <= List.length lst)%nat ->
  filter (fun c => (List.length c <? m)%nat) (map (chunk lst m) (seq 0 K)) = [].
Proof.
  induction K as [|K IH]; intro Hk; [reflexivity|].
  rewrite seq_S, map_app, filter_app, IH by lia.
  cbn [map filter Nat.add app]. rewrite chunk_length.
  replace (Nat.min m (List.length lst - K * m)) with m by lia.
  now rewrite Nat.ltb_irrefl.
Qed.
End Chunks.

Lemma py_slice_chunk {A} (lst : list A) (n : Z) (k : nat) :
  0 < n -> (k * Z.to_nat n <= List.length lst)%nat ->
  py_slice lst (0 + Z.of_nat k * n) (0 + Z.of_nat k * n + n) = chunk lst (Z.to_nat n) k.
Proof.
  intros Hn Hk. unfold py_slice, chunk, slice_index. cbv zeta.
  set (L := List.length lst) in *.
  assert (Hk' : Z.of_nat k * n <= Z.of_nat L) by nia.
  destruct (Z.ltb_spec (0 + Z.of_nat k * n) 0) as [?|_]; [nia|].
  destruct (Z.ltb_spec (0 + Z.of_nat k * n + n) 0) as [?|_]; [nia|].
  rewrite (Z.min_l (0 + Z.of_nat k * n)) by lia.
  replace (Z.to_nat (0 + Z.of_nat k * n)) with (k * Z.to_nat n)%nat by nia.
  destruct (Z.le_ge_cases (0 + Z.of_nat k * n + n) (Z.of_nat L)) as [Hle|Hge].
  - rewrite Z.min_l by lia. f_equal. lia.
  - rewrite Z.min_r by lia.
    rewrite !firstn_all2; [reflexivity| |]; rewrite length_skipn; fold L; nia.
Qed.

(** C5: for a chunk size [n > 0], [divide] yields chunks whose
    concatenation is the list, each of them non-empty and of length at most
    [n]; exactly one chunk is shorter than [n] when the length of the list
    is not a multiple of [n], and none is when it is. *)
Theorem divide_chunks {A} (lst : list A) (n : Z) (Hn : 0 < n) :
  exists chunks,
    divide lst n = Ok chunks
    /\ List.concat chunks = lst
    /\ Forall (fun c => 1 <= Z.of_nat (List.length c) <= n) chunks
    /\ (Z.of_nat (List.length lst) mod n <> 0 -> short_chunks n chunks = 1%nat)
    /\ (Z.of_nat (List.length lst) mod n = 0 -> short_chunks n chunks = 0%nat).
Proof.
  set (L := List.length lst). set (m := Z.to_nat n).
  set (K := Z.to_nat (range_len 0 (Z.of_nat L) n)).
  assert (Hm : (0 < m)%nat) by (unfold m; lia).
  assert (HK : (L = 0 /\ K = 0)%nat \/
               (0 < K /\ (K - 1) * m < L /\ L <= K * m)%nat).
  { unfold K, range_len. destruct (Z.ltb_spec 0 (Z.of_nat L)) as [Hpos|Hz].
    - right.
      pose proof (Z.div_mod (Z.of_nat L - 0 - 1) n ltac:(lia)) as D.
      pose proof (Z.mod_pos_bound (Z.of_nat L - 0 - 1) n Hn) as B.
      assert (0 <= (Z.of_nat L - 0 - 1) / n) by (apply Z.div_pos; lia).
      unfold m. nia.
    - left. split; [lia | reflexivity]. }
  assert (Hbelow : forall k, (k < K)%nat -> (k * m <= L)%nat).
  { intros k Hk. destruct HK as [[_ HK]|(_ & HK & _)]; [lia|nia]. }
  assert (E : divide lst n = Ok (map (chunk lst m) (seq 0 K))).
  { unfold divide, py_range. fold L.
    destruct (Z.eqb_spec n 0) as [?|_]; [lia|].
    destruct (Z.ltb_spec 0 n) as [_|?]; [|lia].
    fold K. cbn [rbind]. f_equal. rewrite map_map.
    apply map_ext_in. intros k Hk. apply in_seq in Hk.
    apply py_slice_chunk; [assumption|]. apply Hbelow. lia. }
  exists (map (chunk lst m) (seq 0 K)).
  split; [exact E|]. split; [|split; [|split]].
  - rewrite chunks_concat by assumption.
    apply firstn_all2. fold L. destruct HK as [[-> ->]|(_ & _ & HK)]; lia.
  - apply Forall_forall. intros c Hc. apply in_map_iff in Hc.
    destruct Hc as (k & <- & Hk). apply in_seq in Hk.
    rewrite chunk_length. fold L.
    destruct HK as [[_ HK]|(_ & HK & _)]; [lia|]. unfold m in *. nia.
  - intro Hmod. destruct HK as [[HL _]|(HK0 & HK1 & HK2)].
    { rewrite HL in Hmod. now rewrite Z.mod_0_l in Hmod by lia. }
    unfold short_chunks.
    replace K with (S (K - 1)) by lia.
    rewrite seq_S, map_app, filter_app. cbn [map filter Nat.add].
    rewrite filter_ext with (g := fun c => (List.length c <? m)%nat).
    2:{ intro c. unfold m.
        destruct (Z.ltb_spec (Z.of_nat (List.length c)) n),
                 (Nat.ltb_spec (List.length c) (Z.to_nat n)); (reflexivity || lia). }
    rewrite short_none by (assumption || (fold L; lia)).
    rewrite chunk_length. fold L.
    assert (Hne : L <> (K * m)%nat).
    { intro Heq. apply Hmod. rewrite Heq. unfold m.
      rewrite Nat2Z.inj_mul, Z2Nat.id by lia. apply Z.mod_mul. lia. }
    destruct (Z.ltb_spec (Z.of_nat (Nat.min m (L - (K - 1) * m))) n) as [_|Hge];
      [reflexivity|]. unfold m in *. nia.
  - intro Hmod. unfold short_chunks.
    rewrite filter_ext with (g := fun c => (List.length c <? m)%nat).
    2:{ intro c. unfold m.
        destruct (Z.ltb_spec (Z.of_nat (List.length c)) n),
                 (Nat.ltb_spec (List.length c) (Z.to_nat n)); (reflexivity || lia). }
    rewrite short_none; [reflexivity|assumption|]. fold L.
    destruct HK as [[-> ->]|(HK0 & HK1 & HK2)]; [lia|].
    apply Z.mod_divide in Hmod; [|lia]. destruct Hmod as [q Hq].
    assert (H1 : (Z.of_nat K - 1) * n < q * n).
    { rewrite <- Hq. apply Nat2Z.inj_lt in HK1.
      rewrite Nat2Z.inj_mul, Nat2Z.inj_sub in HK1 by lia.
      unfold m in HK1. rewrite Z2Nat.id in HK1 by lia. exact HK1. }
    apply Z.mul_lt_mono_pos_r in H1; [|assumption].
    assert (H2 : Z.of_nat K * n <= q * n) by (apply Z.mul_le_mono_nonneg_r; lia).
    rewrite <- Hq in H2. apply Nat2Z.inj_le.
    rewrite Nat2Z.inj_mul. unfold m. now rewrite Z2Nat.id by lia.
Qed.

Lemma divide_chunks_witness :
  divide [1; 2; 3; 4; 5] 2 = Ok [[1; 2]; [3; 4]; [5]]
  /\ exists chunks,
    divide [1; 2; 3; 4; 5] 2 = Ok chunks
    /\ List.concat chunks = [1; 2; 3; 4; 5]
    /\ Forall (fun c => 1 <= Z.of_nat (List.length c) <= 2) chunks
    /\ (Z.of_nat (List.length [1; 2; 3; 4; 5]) mod 2 <> 0 -> short_chunks 2 chunks = 1%nat)
    /\ (Z.of_nat (List.length [1; 2; 3; 4; 5]) mod 2 = 0 -> short_chunks 2 chunks = 0%nat).
Proof.
  split; [reflexivity|].
  apply (divide_chunks [1; 2; 3; 4; 5] 2). lia.
Defined.

(** ** Lists of identifiers *)

Lemma py_in_In (x : string) (l : list string) : py_in x l = true <-> In x l.
Proof.
  induction l as [|y l IH]; cbn [py_in In]; [split; [discriminate|tauto]|].
  rewrite orb_true_iff, IH, String.eqb_eq. split; intros [H|H]; auto.
Qed.

Lemma py_in_occ (x : string) (l : list string) :
  py_in x l = true <-> (0 < occ l x)%nat.
Proof. rewrite py_in_In. apply count_occ_In. Qed.

Lemma py_in_false_occ (x : string) (l : list string) :
  py_in x l = false <-> occ l x = 0%nat.
Proof.
  pose proof (py_in_occ x l) as H. destruct (py_in x l).
  - split; [discriminate|]. intro E. destruct H as [H _].
    specialize (H eq_refl). lia.
  - split; [|reflexivity]. intros _.
    destruct (occ l x) eqn:E; [reflexivity|].
    destruct H as [_ H]. discriminate H. lia.
Qed.

Lemma occ_cons (y : string) (l : list string) (c : string) :
  occ (y :: l) c = ((if string_dec y c then 1 else 0) + occ l c)%nat.
Proof. unfold occ. cbn [count_occ]. now destruct (string_dec y c). Qed.

Lemma list_remove_ok (x : string) (l : list string) :
  py_in x l = true -> list_remove x l = Ok (remove_first x l).
Proof.
  induction l as [|y l IH]; cbn [py_in list_remove remove_first]; [discriminate|].
  destruct (x =? y)%string; [reflexivity|].
  cbn [orb]. intro H. now rewrite IH.
Qed.

Lemma occ_remove_first (x : string) (l : list string) (c : string) :
  occ (remove_first x l) c = (occ l c - (if string_dec x c then 1 else 0))%nat.
Proof.
  induction l as [|y l IH]; cbn [remove_first]; [reflexivity|].
  destruct (String.eqb_spec x y) as [->|N].
  - rewrite occ_cons. destruct (string_dec y c); lia.
  - rewrite !occ_cons, IH.
    destruct (string_dec y c), (string_dec x c); try lia; congruence.
Qed.

Lemma remove_first_perm (x : string) (l : list string) :
  In x l -> Permutation (x :: remove_first x l) l.
Proof.
  induction l as [|y l IH]; cbn [In remove_first]; [tauto|].
  destruct (String.eqb_spec x y) as [->|N]; [reflexivity|].
  intros [E|H]; [congruence|].
  rewrite perm_swap. now rewrite IH.
Qed.

(** ** Filtering by the number of earlier occurrences *)

Section FilterSeen.
Context {A : Type}.
Variable key : A -> string.

(** Only the decisions at the occurrence numbers that come up matter. *)
Lemma filter_seen_agree (keep1 keep2 : string -> nat -> bool) (l : list A) :
  forall seen,
    (forall c k, (occ seen c <= k < occ seen c + occ (map key l) c)%nat ->
                 keep1 c k = keep2 c k) ->
    filter_seen key keep1 seen l = filter_seen key keep2 seen l.
Proof.
  induction l as [|a l IH]; intros seen H; [reflexivity|].
  cbn [filter_seen]. cbv zeta.
  rewrite (H (key a) (occ seen (key a))).
  2:{ cbn [map]. rewrite occ_cons. destruct (string_dec (key a) (key a)); [lia|congruence]. }
  rewrite (IH (key a :: seen)); [reflexivity|].
  intros c k Hk. apply H. cbn [map]. rewrite occ_cons in *.
  destruct (string_dec (key a) c); lia.
Qed.

(** On keys that are pairwise different and new, the decision is taken at
    occurrence number 0. *)
Lemma filter_seen_nodup (keep : string -> nat -> bool) (l : list A) :
  forall seen,
    NoDup (map key l) ->
    (forall a, In a l -> occ seen (key a) = 0%nat) ->
    filter_seen key keep seen l = filter (fun a => keep (key a) 0%nat) l.
Proof.
  induction l as [|a l IH]; intros seen Hnd H0; [reflexivity|].
  cbn [filter_seen filter]. cbv zeta.
  cbn [map] in Hnd. apply NoDup_cons_iff in Hnd. destruct Hnd as [Hnot Hnd].
  rewrite (H0 a) by (left; reflexivity).
  rewrite (IH (key a :: seen)); [reflexivity|assumption|].
  intros b Hb. rewrite occ_cons, (H0 b) by (right; assumption).
  destruct (string_dec (key a) (key b)) as [E|_]; [|reflexivity].
  exfalso. apply Hnot. rewrite E. now apply in_map.
Qed.
End FilterSeen.

(** how many of each identifier are kept when the first [f c] of every [c]
    are dropped *)
Lemma occ_filter_seen_drop (f : string -> nat) (l : list string) :
  forall seen c,
    occ (drop f seen l) c = (occ l c - (f c - occ seen c))%nat.
Proof.
  unfold drop. induction l as [|a l IH]; intros seen c; [reflexivity|].
  cbn [filter_seen]. cbv zeta.
  destruct (Nat.leb_spec (f a) (occ seen a)) as [Hle|Hgt].
  - rewrite !occ_cons, IH, occ_cons. destruct (string_dec a c) as [->|_]; lia.
  - rewrite IH, !occ_cons. destruct (string_dec a c) as [->|_]; lia.
Qed.

Lemma filter_seen_all {A} (key : A -> string) (keep : string -> nat -> bool)
      (l : list A) :
  (forall c k, keep c k = true) ->
  forall seen, filter_seen key keep seen l = l.
Proof.
  intro H. induction l as [|a l IH]; intro seen; [reflexivity|].
  cbn [filter_seen]. cbv zeta. now rewrite H, IH.
Qed.

(** Removing the first [c0] that is left drops one more [c0] from the
    front. *)
Lemma remove_first_drop (c0 : string) (l : list string) :
  forall (f : string -> nat) (seen : list string),
    In c0 (drop f seen l) ->
    (occ seen c0 <= f c0)%nat ->
    remove_first c0 (drop f seen l)
    = drop (fun c => if string_dec c0 c then S (f c) else f c) seen l.
Proof.
  unfold drop.
  induction l as [|a l IH]; intros f seen Hin Hseen; [destruct Hin|].
  cbn [filter_seen] in *. cbv zeta in *.
  destruct (string_dec c0 a) as [<-|Hne].
  - destruct (Nat.leb_spec (f c0) (occ seen c0)) as [Hle|Hgt].
    + (* this [c0] is the first one kept: it is the one removed *)
      cbn [remove_first]. rewrite String.eqb_refl.
      destruct (Nat.leb_spec (S (f c0)) (occ seen c0)) as [?|_]; [lia|].
      apply filter_seen_agree. intros c k Hk. rewrite occ_cons in Hk.
      destruct (string_dec c0 c) as [<-|_]; [|reflexivity].
      destruct (Nat.leb_spec (f c0) k), (Nat.leb_spec (S (f c0)) k); (reflexivity || lia).
    + destruct (Nat.leb_spec (S (f c0)) (occ seen c0)) as [?|_]; [lia|].
      apply IH; [assumption|]. rewrite occ_cons.
      destruct (string_dec c0 c0); [lia|congruence].
  - assert (Hseen' : (occ (a :: seen) c0 <= f c0)%nat).
    { rewrite occ_cons. destruct (string_dec a c0); [congruence|lia]. }
    destruct (f a <=? occ seen a)%nat.
    + cbn [remove_first]. rewrite (string_eqb_false _ _ Hne).
      f_equal. apply IH; [|assumption].
      destruct Hin as [E|Hin]; [congruence|assumption].
    + now apply IH.
Qed.

Lemma left_over_drop (inv : list watch) (ids : list string) :
  forall f : string -> nat,
    left_over inv (drop f [] ids)
    = drop (fun c => (f c + occ (map code_of inv) c)%nat) [] ids.
Proof.
  induction inv as [|w inv IH]; intro f; cbn [left_over].
  - apply filter_seen_agree. intros c k _. cbn [map]. unfold occ.
    cbn [count_occ]. now rewrite Nat.add_0_r.
  - destruct (py_in (code_of w) (drop f [] ids)) eqn:E.
    + rewrite remove_first_drop; [|now apply py_in_In|unfold occ; cbn; lia].
      rewrite IH. apply filter_seen_agree. intros c k _.
      cbn [map]. rewrite occ_cons.
      destruct (string_dec (code_of w) c); f_equal; lia.
    + rewrite IH. apply py_in_false_occ in E.
      rewrite occ_filter_seen_drop in E.
      apply filter_seen_agree. intros c k Hk.
      rewrite map_id in Hk. cbn [map]. rewrite occ_cons.
      destruct (string_dec (code_of w) c) as [<-|_]; [|reflexivity].
      unfold occ at 1 in Hk. cbn [count_occ] in Hk.
      destruct (Nat.leb_spec (f (code_of w) + occ (map code_of inv) (code_of w)) k),
               (Nat.leb_spec (f (code_of w) + (1 + occ (map code_of inv) (code_of w))) k);
        (reflexivity || (unfold occ in *; cbn [count_occ] in *; lia)).
Qed.

(** The identifiers left over by the pass are the unmatched ones. *)
Lemma left_over_unmatched (inv : list watch) (ids : list string) :
  left_over inv ids = unmatched inv ids.
Proof.
  assert (E : drop (fun _ => 0%nat) [] ids = ids)
    by (apply filter_seen_all; reflexivity).
  rewrite <- E at 1. apply (left_over_drop inv ids (fun _ => 0%nat)).
Qed.

Lemma consumed_seen (inv : list watch) (ids0 : list string) :
  forall cur seen,
    (forall c, occ cur c = (occ ids0 c - occ seen c)%nat) ->
    consumed inv cur
    = filter_seen code_of (fun c k => (k <? occ ids0 c)%nat) seen inv.
Proof.
  induction inv as [|w inv IH]; intros cur seen H; [reflexivity|].
  cbn [consumed filter_seen]. cbv zeta.
  destruct (py_in (code_of w) cur) eqn:E.
  - apply py_in_occ in E. rewrite H in E.
    destruct (Nat.ltb_spec (occ seen (code_of w)) (occ ids0 (code_of w))) as [_|?]; [|lia].
    f_equal. apply IH. intro c. rewrite occ_remove_first, occ_cons, H.
    destruct (string_dec (code_of w) c); lia.
  - apply py_in_false_occ in E. rewrite H in E.
    destruct (Nat.ltb_spec (occ seen (code_of w)) (occ ids0 (code_of w))) as [?|_]; [lia|].
    apply IH. intro c. rewrite occ_cons, H.
    destruct (string_dec (code_of w) c) as [<-|_]; lia.
Qed.

(** The records that consume an identifier are the matched ones. *)
Lemma consumed_matched (inv : list watch) (ids : list string) :
  consumed inv ids = matched inv ids.
Proof.
  apply consumed_seen. intro c. unfold occ at 3. cbn [count_occ]. lia.
Qed.

Lemma consumed_left_over_perm (inv : list watch) :
  forall ids, Permutation (map code_of (consumed inv ids) ++ left_over inv ids) ids.
Proof.
  induction inv as [|w inv IH]; intro ids; cbn [consumed left_over]; [reflexivity|].
  destruct (py_in (code_of w) ids) eqn:E; [|apply IH].
  cbn [map app]. rewrite IH. apply remove_first_perm. now apply py_in_In.
Qed.

(** Every listed identifier is matched or unmatched, once. *)
Lemma matched_unmatched_perm (inv : list watch) (ids : list string) :
  Permutation (map code_of (matched inv ids) ++ unmatched inv ids) ids.
Proof.
  rewrite <- consumed_matched, <- left_over_unmatched.
  apply consumed_left_over_perm.
Qed.

(** With identifiers that are pairwise different, the unmatched ones are
    those that are the code of no record. *)
Lemma unmatched_nodup (inv : list watch) (ids : list string) :
  NoDup ids ->
  unmatched inv ids = filter (fun i => negb (py_in i (map code_of inv))) ids.
Proof.
  intro Hnd. unfold unmatched, drop.
  rewrite filter_seen_nodup; [|now rewrite map_id|reflexivity].
  apply filter_ext. intro i.
  destruct (py_in i (map code_of inv)) eqn:E.
  - apply py_in_occ in E. cbn [negb]. apply Nat.leb_gt. exact E.
  - apply py_in_false_occ in E. rewrite E. reflexivity.
Qed.

(** With identifiers that are pairwise different, the matched records are
    the first records of every listed code. *)
Lemma matched_nodup (inv : list watch) (ids : list string) :
  NoDup ids ->
  matched inv ids
  = filter_seen code_of (fun c k => (k =? 0)%nat && py_in c ids) [] inv.
Proof.
  intro Hnd. unfold matched. apply filter_seen_agree. intros c k _.
  pose proof (proj1 (NoDup_count_occ string_dec ids) Hnd c) as Hc.
  fold (occ ids c) in Hc.
  destruct (py_in c ids) eqn:E.
  - apply py_in_occ in E. replace (occ ids c) with 1%nat by lia.
    rewrite andb_true_r. now destruct k.
  - apply py_in_false_occ in E. rewrite E, andb_false_r. reflexivity.
Qed.

(** ** The reconciliation loops on the store *)

Lemma store_set_same (h : store) (r : ref) (v : list string) :
  store_set h r v r = v.
Proof. unfold store_set. now rewrite Nat.eqb_refl. Qed.

Lemma store_set_other (h : store) (r r' : ref) (v : list string) :
  r' <> r -> store_set h r v r' = h r'.
Proof.
  intro N. unfold store_set. apply Nat.eqb_neq in N. now rewrite N.
Qed.

Lemma remove_in_place_run (r : ref) (x : string) (h : store) :
  py_in x (h r) = true ->
  remove_in_place r x h = (Ok tt, store_set h r (remove_first x (h r))).
Proof.
  intro H. unfold remove_in_place, bind, load, lift, write.
  now rewrite (list_remove_ok _ _ H).
Qed.

Section StocksRun.
Context {entry : Type}.
Variable mk_stock : string -> Z -> entry.

Local Abbreviation of_pair := (entry_of_pair mk_stock).

(** one turn of the first loop *)
Lemma stocks_matched_cons (w : watch) (inv : list watch) (r : ref)
      (stocks : list entry) (h : store) :
  stocks_matched mk_stock (w :: inv) r stocks h
  = if py_in (code_of w) (h r) then
      match stock_of_count (Kolichestvo w) with
      | Ok q =>
          stocks_matched mk_stock inv r (stocks ++ [mk_stock (code_of w) q])
                         (store_set h r (remove_first (code_of w) (h r)))
      | Raise e => (Raise e, h)
      end
    else stocks_matched mk_stock inv r stocks h.
Proof.
  cbn [stocks_matched]. unfold bind at 1. unfold load at 1. fold (code_of w).
  destruct (py_in (code_of w) (h r)) eqn:E; [|reflexivity].
  unfold bind at 1. unfold lift at 1.
  destruct (stock_of_count (Kolichestvo w)) as [q|e]; [|reflexivity].
  unfold bind at 1. now rewrite (remove_in_place_run _ _ _ E).
Qed.

Lemma stocks_matched_run (inv : list watch) (r : ref) :
  forall (stocks : list entry) (h : store),
    fst (stocks_matched mk_stock inv r stocks h)
    = rbind (mapM stock_of (consumed inv (h r)))
            (fun found => Ok (stocks ++ map of_pair found))
    /\ (is_ok (fst (stocks_matched mk_stock inv r stocks h)) = true ->
        snd (stocks_matched mk_stock inv r stocks h) r = left_over inv (h r))
    /\ (forall r', r' <> r ->
        snd (stocks_matched mk_stock inv r stocks h) r' = h r').
Proof.
  induction inv as [|w inv IH]; intros stocks h.
  - cbn. rewrite app_nil_r. auto.
  - rewrite stocks_matched_cons. cbn [consumed left_over].
    destruct (py_in (code_of w) (h r)) eqn:E; [|apply IH].
    cbn [mapM]. unfold stock_of at 1.
    destruct (stock_of_count (Kolichestvo w)) as [q|e]; cbn [rbind fst snd].
    2:{ split; [reflexivity|]. split; [discriminate|reflexivity]. }
    set (h1 := store_set h r (remove_first (code_of w) (h r))).
    destruct (IH (stocks ++ [mk_stock (code_of w) q]) h1) as (I1 & I2 & I3).
    assert (Eh : h1 r = remove_first (code_of w) (h r)) by apply store_set_same.
    rewrite Eh in I1, I2.
    split; [|split].
    + rewrite I1.
      destruct (mapM stock_of (consumed inv (remove_first (code_of w) (h r))));
        cbn [rbind map]; [|reflexivity].
      now rewrite <- app_assoc.
    + exact I2.
    + intros r' N. rewrite (I3 r' N). unfold h1. now apply store_set_other.
Qed.

(** [create_stocks]: the updates of the specification, turned into
    dictionaries; on return the list object holds the unmatched
    identifiers, and no other object of the store is touched. *)
Lemma create_stocks_with_run (inv : list watch) (r : ref) (h : store) :
  fst (create_stocks_with mk_stock inv r h)
  = result_map (map of_pair) (stock_updates inv (h r))
  /\ (is_ok (fst (create_stocks_with mk_stock inv r h)) = true ->
      snd (create_stocks_with mk_stock inv r h) r = unmatched inv (h r))
  /\ (forall r', r' <> r -> snd (create_stocks_with mk_stock inv r h) r' = h r').
Proof.
  destruct (stocks_matched_run inv r [] h) as (I1 & I2 & I3).
  assert (Eq : create_stocks_with mk_stock inv r h
               = match stocks_matched mk_stock inv r [] h with
                 | (Ok stocks, h') =>
                     (Ok (stocks ++ map (fun i => mk_stock i 0) (h' r)), h')
                 | (Raise e, h') => (Raise e, h')
                 end) by reflexivity.
  rewrite Eq. clear Eq. unfold stock_updates, result_map.
  rewrite <- consumed_matched, <- left_over_unmatched.
  destruct (stocks_matched mk_stock inv r [] h) as [[stocks|e] h'];
    cbn [fst snd is_ok] in *.
  - specialize (I2 eq_refl).
    destruct (mapM stock_of (consumed inv (h r))) as [found|]; [|discriminate].
    cbn [rbind] in *. injection I1 as ->. rewrite I2.
    split; [|auto]. f_equal. rewrite map_app, map_map. reflexivity.
  - destruct (mapM stock_of (consumed inv (h r))); [discriminate|].
    cbn [rbind] in *. split; [congruence|]. split; [discriminate|exact I3].
Qed.
End StocksRun.

Section PricesRun.
Context {entry : Type}.
Variable mk_price : watch -> result entry.

Lemma prices_loop_run (inv : list watch) (r : ref) :
  forall (prices : list entry) (h : store),
    prices_loop mk_price inv r prices h
    = (rbind (mapM mk_price (listed inv (h r))) (fun ps => Ok (prices ++ ps)), h).
Proof.
  induction inv as [|w inv IH]; intros prices h.
  - cbn. now rewrite app_nil_r.
  - cbn [prices_loop listed filter]. unfold bind at 1. unfold load at 1.
    fold (code_of w). fold (listed inv (h r)).
    destruct (py_in (code_of w) (h r)); [|apply IH].
    unfold bind at 1. unfold lift at 1. cbn [mapM].
    destruct (mk_price w) as [p|e]; [|reflexivity].
    rewrite IH. cbn [rbind].
    destruct (mapM mk_price (listed inv (h r))); cbn [rbind]; [|reflexivity].
    now rewrite <- app_assoc.
Qed.

Lemma create_prices_with_run (inv : list watch) (r : ref) (h : store) :
  create_prices_with mk_price inv r h = (mapM mk_price (listed inv (h r)), h).
Proof.
  unfold create_prices_with. rewrite prices_loop_run.
  now destruct (mapM mk_price (listed inv (h r))).
Qed.
End PricesRun.

Lemma mapM_keys {A B} (f : A -> result B) (ka : A -> string) (kb : B -> string) :
  (forall a b, f a = Ok b -> kb b = ka a) ->
  forall l out, mapM f l = Ok out -> map kb out = map ka l.
Proof.
  intros Hk. induction l as [|a l IH]; intros out H; cbn [mapM] in H.
  - now injection H as <-.
  - destruct (f a) as [b|] eqn:Fa; [|discriminate]. cbn [rbind] in H.
    destruct (mapM f l) as [bs|]; [|discriminate]. cbn [rbind] in H.
    injection H as <-. cbn [map]. now rewrite (Hk _ _ Fa), (IH bs).
Qed.

Lemma stock_of_key (w : watch) (u : string * Z) :
  stock_of w = Ok u -> fst u = code_of w.
Proof.
  unfold stock_of. destruct (stock_of_count (Kolichestvo w)); [|discriminate].
  cbn [rbind]. now intros [= <-].
Qed.

(** The identifiers of the updates are the listed identifiers, each as often
    as it is listed. *)
Lemma stock_updates_perm (inv : list watch) (ids : list string)
      (updates : list (string * Z)) :
  stock_updates inv ids = Ok updates -> Permutation (map fst updates) ids.
Proof.
  unfold stock_updates. intro H.
  destruct (mapM stock_of (matched inv ids)) as [found|] eqn:F; [|discriminate].
  cbn [rbind] in H. injection H as <-.
  rewrite map_app, map_map. cbn [fst]. rewrite map_id.
  rewrite (mapM_keys _ code_of fst stock_of_key _ _ F).
  apply matched_unmatched_perm.
Qed.

Lemma result_map_ok {A B} (f : A -> B) (r : result A) (b : B) :
  result_map f r = Ok b -> exists a, r = Ok a /\ b = f a.
Proof.
  destruct r as [a|]; [|discriminate]. cbn. intros [= <-]. now exists a.
Qed.

(** ** Stock reconciliation *)



(** The scenario of the specification: one record with the quantity ">10"
    and two listed identifiers, in either module. *)
Example create_stocks_scenario :
  fst (Seller.create_stocks
         [mk_watch (PyInt 1001) (PyStr ">10") (PyStr "1'500.00 р.")] 0%nat
         (fun _ => ["1001"; "1002"]))
  = Ok [ {| Seller.offer_id := "1001"; Seller.stock := 100 |};
         {| Seller.offer_id := "1002"; Seller.stock := 0 |} ]
  /\ map Market.entry_count
         match fst (Market.create_stocks
                      [mk_watch (PyInt 1001) (PyStr ">10") (PyStr "1'500.00 р.")]
                      0%nat "7" "2025-01-01T12:00:00Z"
                      (fun _ => ["1001"; "1002"])) with
         | Ok stocks => stocks
         | Raise _ => []
         end
     = [100; 0].
Proof. split; reflexivity. Qed.

(** A quantity that does not parse stops the call when its record is
    matched, and is not looked at when it is not. *)
Example create_stocks_bad_quantity :
  fst (Seller.create_stocks [mk_watch (PyStr "A") (PyStr "abc") PyNone] 0%nat
                            (fun _ => ["A"; "B"]))
  = Raise ValueError
  /\ fst (Seller.create_stocks [mk_watch (PyStr "C") (PyStr "abc") PyNone] 0%nat
                               (fun _ => ["A"; "B"]))
     = Ok [ {| Seller.offer_id := "A"; Seller.stock := 0 |};
            {| Seller.offer_id := "B"; Seller.stock := 0 |} ].
Proof. split; reflexivity. Qed.

Lemma perm_occ (l1 l2 : list string) :
  Permutation l1 l2 -> forall c, occ l1 c = occ l2 c.
Proof. intros H c. unfold occ. now apply Permutation_count_occ. Qed.

Lemma updates_once (inv : list watch) (ids : list string) {entry : Type}
      (of_pair : string * Z -> entry) (key : entry -> string)
      (out : list entry) :
  (forall u, key (of_pair u) = fst u) ->
  result_map (map of_pair) (stock_updates inv ids) = Ok out ->
  Permutation (map key out) ids.
Proof.
  intros Hkey H. apply result_map_ok in H. destruct H as (ups & Hups & ->).
  rewrite map_map. rewrite (map_ext _ fst Hkey).
  now apply stock_updates_perm with (inv := inv).
Qed.

(** C10, as stated, fails: the listing is what the marketplace sent, and
    when it holds an identifier twice the list [create_stocks] returns, of
    either module, holds two entries for that identifier: one for the record
    that matched the first copy, one zero entry for the copy left over. *)
Lemma create_stocks_duplicate_listing :
  fst (Seller.create_stocks [mk_watch (PyStr "A") (PyStr "5") PyNone] 0%nat
                            (fun _ => ["A"; "A"]))
  = Ok [ seller_stock ("A", 5); seller_stock ("A", 0) ]
  /\ fst (Market.create_stocks [mk_watch (PyStr "A") (PyStr "5") PyNone] 0%nat
                               "7" "2025-01-01T12:00:00Z" (fun _ => ["A"; "A"]))
     = Ok [ market_stock "7" "2025-01-01T12:00:00Z" ("A", 5);
            market_stock "7" "2025-01-01T12:00:00Z" ("A", 0) ]
  /\ occ (map Seller.offer_id [ seller_stock ("A", 5); seller_stock ("A", 0) ]) "A"
     = 2%nat
  /\ ~ NoDup (map Seller.offer_id [ seller_stock ("A", 5); seller_stock ("A", 0) ]).
Proof.
  split; [reflexivity|]. split; [reflexivity|]. split; [reflexivity|].
  intro H. apply NoDup_cons_iff in H. destruct H as [H _]. apply H. now left.
Qed.

(** C10 (amended): in the list [create_stocks] returns, of either module,
    every identifier has as many entries as it has occurrences in the
    listing; so, when the listing has no duplicates, at most one entry for an
    identifier, whatever number of inventory records share a code. *)
Theorem create_stocks_once (watch_remnants : list watch) (offer_ids : ref)
        (h : store) (warehouse_id date : string) :
  (forall stocks,
      fst (Seller.create_stocks watch_remnants offer_ids h) = Ok stocks ->
      (forall c, occ (map Seller.offer_id stocks) c = occ (h offer_ids) c)
      /\ (NoDup (h offer_ids) -> NoDup (map Seller.offer_id stocks)))
  /\ (forall stocks,
      fst (Market.create_stocks watch_remnants offer_ids warehouse_id date h) = Ok stocks ->
      (forall c, occ (map Market.sku stocks) c = occ (h offer_ids) c)
      /\ (NoDup (h offer_ids) -> NoDup (map Market.sku stocks))).
Proof.
  destruct (create_stocks_with_run
              (fun offer_id stock => {| Seller.offer_id := offer_id; Seller.stock := stock |})
              watch_remnants offer_ids h) as (ES & _).
  destruct (create_stocks_with_run
              (fun offer_id stock =>
                 {| Market.sku := offer_id;
                    Market.warehouseId := warehouse_id;
                    Market.stock_items :=
                      [ {| Market.count := stock; Market.type_ := "FIT";
                           Market.updatedAt := date |} ] |})
              watch_remnants offer_ids h) as (EM & _).
  split; intros stocks H.
  - unfold Seller.create_stocks in H. rewrite ES in H.
    apply (updates_once _ _ _ Seller.offer_id) in H; [|reflexivity].
    split; [now apply perm_occ|].
    intro Hnd. apply Permutation_sym in H. now apply (Permutation_NoDup H).
  - unfold Market.create_stocks in H. rewrite EM in H.
    apply (updates_once _ _ _ Market.sku) in H; [|reflexivity].
    split; [now apply perm_occ|].
    intro Hnd. apply Permutation_sym in H. now apply (Permutation_NoDup H).
Qed.

Lemma create_stocks_once_witness :
  fst (Seller.create_stocks
         [mk_watch (PyStr "A") (PyStr "5") PyNone;
          mk_watch (PyInt 7) (PyInt 3) PyNone;
          mk_watch (PyStr "A") (PyStr "7") PyNone] 0%nat
         (fun _ => ["7"; "A"; "B"]))
  = Ok [ {| Seller.offer_id := "A"; Seller.stock := 5 |};
         {| Seller.offer_id := "7"; Seller.stock := 3 |};
         {| Seller.offer_id := "B"; Seller.stock := 0 |} ]
  /\ NoDup (map Seller.offer_id
              [ {| Seller.offer_id := "A"; Seller.stock := 5 |};
                {| Seller.offer_id := "7"; Seller.stock := 3 |};
                {| Seller.offer_id := "B"; Seller.stock := 0 |} ]).
Proof.
  split; [reflexivity|].
  apply (proj1 (create_stocks_once
                  [mk_watch (PyStr "A") (PyStr "5") PyNone;
                   mk_watch (PyInt 7) (PyInt 3) PyNone;
                   mk_watch (PyStr "A") (PyStr "7") PyNone] 0%nat
                  (fun _ => ["7"; "A"; "B"]) "" "")).
  - reflexivity.
  - repeat constructor; cbn; intuition discriminate.
Defined.

(** ** What [create_stocks] leaves of the listing *)

Lemma listed_unmatched_nil (inv : list watch) (ids : list string) :
  NoDup ids -> listed inv (unmatched inv ids) = [].
Proof.
  intro Hnd. rewrite (unmatched_nodup _ _ Hnd). unfold listed.
  set (codes := map code_of inv).
  assert (H : forall w, In w inv -> In (code_of w) codes)
    by (intros w Hw; now apply in_map).
  clearbody codes.
  induction inv as [|w inv IH]; [reflexivity|]. cbn [filter].
  destruct (py_in (code_of w) (filter _ ids)) eqn:E.
  - apply py_in_In, filter_In in E. destruct E as [_ E].
    apply negb_true_iff in E.
    assert (T : py_in (code_of w) codes = true)
      by (apply py_in_In, H; now left).
    congruence.
  - apply IH. intros w' Hw'. apply H. now right.
Qed.

(** With an identifier listed twice, one copy is left after [create_stocks]
    and the prices of [main] are not empty. *)
Example main_reconcile_duplicate :
  fst (Seller.main_reconcile
         [mk_watch (PyStr "A") (PyStr "5") (PyStr "100.00")] 0%nat
         (fun _ => ["A"; "A"]))
  = Ok ([ {| Seller.offer_id := "A"; Seller.stock := 5 |};
          {| Seller.offer_id := "A"; Seller.stock := 0 |} ],
        [ seller_price "A" "100" ]).
Proof. reflexivity. Qed.

(** ** Price reconciliation *)

Lemma seller_price_key (w : watch) (p : Seller.price_entry) :
  Seller.price_of w = Ok p -> Seller.price_offer_id p = code_of w.
Proof.
  unfold Seller.price_of. destruct (price_conversion_val (Tsena w)); [|discriminate].
  cbn [rbind]. now intros [= <-].
Qed.

Lemma market_price_key (w : watch) (p : Market.price_entry) :
  Market.price_of w = Ok p -> Market.id p = code_of w.
Proof.
  unfold Market.price_of. destruct (price_conversion_val (Tsena w)) as [t|]; [|discriminate].
  cbn [rbind]. destruct (int_of_text t); [|discriminate].
  cbn [rbind]. now intros [= <-].
Qed.

Lemma listed_codes (inv : list watch) (ids : list string) (i : string) :
  In i (map code_of (listed inv ids)) -> In i ids /\ In i (map code_of inv).
Proof.
  intro H. apply in_map_iff in H. destruct H as (w & <- & Hw).
  apply filter_In in Hw. destruct Hw as [Hw Hin].
  split; [now apply py_in_In | now apply in_map].
Qed.

(** C3: [create_prices], of either module, builds one entry for every
    inventory record whose string-coerced code is among the listed
    identifiers, in inventory order, and nothing else: a listed identifier
    that is the code of no record has no entry.  The list object is left as
    it was. *)
Theorem create_prices_listed (watch_remnants : list watch) (offer_ids : ref)
        (h : store) :
  Seller.create_prices watch_remnants offer_ids h
  = (mapM Seller.price_of (listed watch_remnants (h offer_ids)), h)
  /\ Market.create_prices watch_remnants offer_ids h
     = (mapM Market.price_of (listed watch_remnants (h offer_ids)), h)
  /\ (forall prices,
        fst (Seller.create_prices watch_remnants offer_ids h) = Ok prices ->
        map Seller.price_offer_id prices
        = map code_of (listed watch_remnants (h offer_ids))
        /\ forall i, In i (h offer_ids) -> ~ In i (map code_of watch_remnants) ->
                     ~ In i (map Seller.price_offer_id prices))
  /\ (forall prices,
        fst (Market.create_prices watch_remnants offer_ids h) = Ok prices ->
        map Market.id prices
        = map code_of (listed watch_remnants (h offer_ids))
        /\ forall i, In i (h offer_ids) -> ~ In i (map code_of watch_remnants) ->
                     ~ In i (map Market.id prices)).
Proof.
  assert (ES := create_prices_with_run Seller.price_of watch_remnants offer_ids h).
  assert (EM := create_prices_with_run Market.price_of watch_remnants offer_ids h).
  fold (Seller.create_prices watch_remnants offer_ids) in ES.
  fold (Market.create_prices watch_remnants offer_ids) in EM.
  split; [exact ES|]. split; [exact EM|].
  split; intros prices H.
  - rewrite ES in H. cbn [fst] in H.
    apply (mapM_keys _ code_of Seller.price_offer_id seller_price_key) in H.
    split; [exact H|]. intros i _ Hno Hin. rewrite H in Hin.
    now apply listed_codes in Hin.
  - rewrite EM in H. cbn [fst] in H.
    apply (mapM_keys _ code_of Market.id market_price_key) in H.
    split; [exact H|]. intros i _ Hno Hin. rewrite H in Hin.
    now apply listed_codes in Hin.
Qed.

Lemma create_prices_listed_witness :
  fst (Seller.create_prices
         [mk_watch (PyStr "A") (PyStr "5") (PyStr "1'500.00 р.")] 0%nat
         (fun _ => ["A"; "B"]))
  = Ok [ {| Seller.auto_action_enabled := "UNKNOWN";
            Seller.currency_code := "RUB";
            Seller.price_offer_id := "A";
            Seller.old_price := "0";
            Seller.price := "1500" |} ]
  /\ fst (Market.create_prices
            [mk_watch (PyStr "A") (PyStr "5") (PyStr "1'500.00 р.")] 0%nat
            (fun _ => ["A"; "B"]))
     = Ok [ {| Market.id := "A";
               Market.price := {| Market.value := 1500; Market.currencyId := "RUR" |} |} ]
  /\ ~ In "B" (map Market.id
                   [ {| Market.id := "A";
                        Market.price := {| Market.value := 1500;
                                           Market.currencyId := "RUR" |} |} ]).
Proof.
  split; [reflexivity|]. split; [reflexivity|].
  pose proof (create_prices_listed
                [mk_watch (PyStr "A") (PyStr "5") (PyStr "1'500.00 р.")] 0%nat
                (fun _ => ["A"; "B"])) as (_ & _ & _ & HM).
  apply (HM _ eq_refl).
  - right. left. reflexivity.
  - cbn. intuition discriminate.
Defined.

(** ** Prices without digits *)

Lemma mapM_raises {A B} (f : A -> result B) (l : list A) (a : A) (e0 : exn) :
  In a l -> f a = Raise e0 -> exists e, mapM f l = Raise e.
Proof.
  induction l as [|x l IH]; intros Hin Hf; [destruct Hin|].
  cbn [mapM]. destruct (f x) as [b|e] eqn:Fx; cbn [rbind]; [|now exists e].
  destruct Hin as [->|Hin]; [congruence|].
  destruct (IH Hin Hf) as [e ->]. now exists e.
Qed.

Lemma mapM_raise_kind {A B} (f : A -> result B) (l : list A) (e e0 : exn) :
  (forall a e', In a l -> f a = Raise e' -> e' = e0) ->
  mapM f l = Raise e -> e = e0.
Proof.
  induction l as [|x l IH]; intros H Hm; cbn [mapM] in Hm; [discriminate|].
  destruct (f x) as [b|e'] eqn:Fx; cbn [rbind] in Hm.
  - destruct (mapM f l) as [bs|e'']; cbn [rbind] in Hm; [discriminate|].
    injection Hm as <-. apply IH; [|reflexivity].
    intros a e' Ha. apply H. now right.
  - injection Hm as <-. apply (H x); [now left|assumption].
Qed.

Lemma mapM_In {A B} (f : A -> result B) (l : list A) (a : A) (b : B)
      (out : list B) :
  In a l -> f a = Ok b -> mapM f l = Ok out -> In b out.
Proof.
  revert out. induction l as [|x l IH]; intros out Hin Hf Hm; [destruct Hin|].
  cbn [mapM] in Hm. destruct (f x) as [bx|] eqn:Fx; [|discriminate].
  cbn [rbind] in Hm. destruct (mapM f l) as [bs|]; [|discriminate].
  cbn [rbind] in Hm. injection Hm as <-.
  destruct Hin as [->|Hin]; [left; congruence|].
  right. now apply IH.
Qed.

Lemma mapM_total {A B} (f : A -> result B) (l : list A) :
  (forall a, In a l -> is_ok (f a) = true) -> is_ok (mapM f l) = true.
Proof.
  induction l as [|x l IH]; intro H; [reflexivity|]. cbn [mapM].
  pose proof (H x (or_introl eq_refl)) as Hx.
  assert (Hl : is_ok (mapM f l) = true)
    by (apply IH; intros y Hy; apply H; now right).
  destruct (f x); [|discriminate]. cbn [rbind].
  destruct (mapM f l); [reflexivity|discriminate].
Qed.

Lemma price_conversion_no_digits (t : string) :
  has_digit (before_first_dot t) = false -> price_conversion t = "".
Proof.
  intro H. unfold price_conversion.
  rewrite split_head, re_sub_is_filter. now apply digits_only_empty.
Qed.

Lemma has_digit_prefix (t : string) :
  has_digit t = false -> has_digit (before_first_dot t) = false.
Proof.
  induction t as [|c t IH]; [reflexivity|]. cbn [has_digit before_first_dot].
  intro H. apply orb_false_iff in H. destruct H as [Hc Ht].
  destruct (c =? ".")%char; [reflexivity|].
  cbn [has_digit]. now rewrite Hc, IH.
Qed.

(** C7, as stated, fails for seller.py: the price text "Ошибка" has no
    digit, and [create_prices] returns an entry whose price is the empty
    text. *)
Lemma seller_price_empty_passed :
  has_digit "Ошибка" = false
  /\ fst (Seller.create_prices
            [mk_watch (PyStr "A") (PyStr "5") (PyStr "Ошибка")] 0%nat
            (fun _ => ["A"]))
     = Ok [seller_price "A" ""].
Proof. split; reflexivity. Qed.

(** C7 (amended): for a record with a listed code whose price text has no
    digit before the first '.' (so also for one with no digit at all),
    [create_prices] of market.py raises, by [int] of the empty text, a
    [ValueError] when all price cells are text; [create_prices] of seller.py
    does not look at what the normaliser returns: when all price cells are
    text it returns, and the entry of that record carries the empty text as
    its price. *)
Theorem create_prices_no_digits (watch_remnants : list watch) (offer_ids : ref)
        (h : store) (w : watch) (t : string) :
  In w watch_remnants ->
  py_in (code_of w) (h offer_ids) = true ->
  Tsena w = PyStr t ->
  has_digit (before_first_dot t) = false ->
  (exists e, fst (Market.create_prices watch_remnants offer_ids h) = Raise e
             /\ (prices_are_text watch_remnants -> e = ValueError))
  /\ (forall prices,
        fst (Seller.create_prices watch_remnants offer_ids h) = Ok prices ->
        In (seller_price (code_of w) "") prices)
  /\ (prices_are_text watch_remnants ->
      is_ok (fst (Seller.create_prices watch_remnants offer_ids h)) = true).
Proof.
  intros Hin Hlisted Hprice Hnd.
  assert (ES := create_prices_with_run Seller.price_of watch_remnants offer_ids h).
  assert (EM := create_prices_with_run Market.price_of watch_remnants offer_ids h).
  fold (Seller.create_prices watch_remnants offer_ids) in ES.
  fold (Market.create_prices watch_remnants offer_ids) in EM.
  rewrite ES, EM. cbn [fst].
  assert (Hl : In w (listed watch_remnants (h offer_ids)))
    by (apply filter_In; now split).
  assert (Hconv := price_conversion_no_digits t Hnd).
  split; [|split].
  - assert (Hw : Market.price_of w = Raise ValueError).
    { unfold Market.price_of. rewrite Hprice. cbn [price_conversion_val rbind].
      now rewrite Hconv. }
    destruct (mapM_raises _ _ _ _ Hl Hw) as [e He].
    exists e. split; [exact He|]. intro Htext.
    apply (mapM_raise_kind _ _ _ ValueError) in He; [exact He|].
    intros a e' Ha Hf. apply filter_In in Ha. destruct Ha as [Ha _].
    destruct (Htext a Ha) as [ta Hta].
    unfold Market.price_of in Hf. rewrite Hta in Hf.
    cbn [price_conversion_val rbind] in Hf. unfold int_of_text in Hf.
    destruct (split_sign _) as [neg digits].
    destruct (parse_digits digits 0 false); cbn [rbind] in Hf; congruence.
  - intros prices Hp.
    apply (mapM_In Seller.price_of _ w _ _ Hl); [|exact Hp].
    unfold Seller.price_of. rewrite Hprice. cbn [price_conversion_val rbind].
    now rewrite Hconv.
  - intro Htext. apply mapM_total. intros a Ha.
    apply filter_In in Ha. destruct Ha as [Ha _].
    destruct (Htext a Ha) as [ta Hta].
    unfold Seller.price_of. now rewrite Hta.
Qed.

Lemma create_prices_no_digits_witness :
  fst (Market.create_prices
         [mk_watch (PyStr "A") (PyStr "5") (PyStr "Ошибка")] 0%nat
         (fun _ => ["A"]))
  = Raise ValueError
  /\ In (seller_price "A" "")
        [seller_price "A" ""].
Proof.
  split; [reflexivity|].
  refine (proj1 (proj2 (create_prices_no_digits
            [mk_watch (PyStr "A") (PyStr "5") (PyStr "Ошибка")] 0%nat
            (fun _ => ["A"])
            (mk_watch (PyStr "A") (PyStr "5") (PyStr "Ошибка")) "Ошибка"
            _ _ _ _)) _ _); try reflexivity.
  left. reflexivity.
Defined.

(** ** Pagination *)

Section PaginationFacts.
Context {server page item : Type}.
Variable request : pyval -> server -> result page * server.
Variable page_items : page -> list item.
Variable page_cursor : page -> pyval.
Variable leave : page -> list item -> bool.

Local Abbreviation run := (paginate request page_items page_cursor leave).
Local Abbreviation talk := (conversation request page_cursor).
Local Abbreviation stop := (leaves_at page_items leave).

Lemma conversation_S (k : nat) (cursor : pyval) (s : server) :
  talk (S k) cursor s
  = match request cursor s with
    | (Raise _, _) => []
    | (Ok p, s') => p :: talk k (page_cursor p) s'
    end.
Proof. reflexivity. Qed.

Lemma leaves_at_one (acc : list item) (p : page) :
  stop acc [p] = leave p (acc ++ page_items p).
Proof. unfold leaves_at, gathered. cbn. now rewrite app_nil_r. Qed.

Lemma leaves_at_cons (acc : list item) (p q : page) (ps : list page) :
  stop acc (p :: q :: ps) = stop (acc ++ page_items p) (q :: ps).
Proof.
  unfold leaves_at, gathered.
  change (rev (p :: q :: ps)) with (rev (q :: ps) ++ [p]).
  destruct (rev (q :: ps)) as [|x xs] eqn:E.
  - apply (f_equal (@List.length page)) in E. rewrite length_rev in E.
    discriminate E.
  - cbn [app map List.concat]. now rewrite app_assoc.
Qed.

(** what the tests on the pages after the first say, once the first page
    is in the list *)
Lemma no_stop_tail (k : nat) (cursor : pyval) (acc : list item) (s s' : server)
      (p : page) :
  request cursor s = (Ok p, s') ->
  (forall j, (1 <= j <= S k)%nat -> stop acc (talk j cursor s) = false) ->
  forall j, (1 <= j <= k)%nat ->
            stop (acc ++ page_items p) (talk j (page_cursor p) s') = false.
Proof.
  intros R H j Hj. specialize (H (S j) ltac:(lia)).
  rewrite conversation_S, R in H.
  destruct (talk j (page_cursor p) s') as [|q ps]; [reflexivity|].
  now rewrite leaves_at_cons in H.
Qed.

Lemma first_test (k : nat) (cursor : pyval) (acc : list item) (s s' : server)
      (p : page) :
  request cursor s = (Ok p, s') ->
  (forall j, (1 <= j <= S k)%nat -> stop acc (talk j cursor s) = false) ->
  leave p (acc ++ page_items p) = false.
Proof.
  intros R H. specialize (H 1%nat ltac:(lia)).
  rewrite conversation_S, R in H. cbn [conversation] in H.
  now rewrite leaves_at_one in H.
Qed.

(** The loop is left at the first page on which the test holds. *)
Lemma paginate_leaves (k : nat) :
  forall cursor acc s fuel,
    List.length (talk (S k) cursor s) = S k ->
    (forall j, (1 <= j <= k)%nat -> stop acc (talk j cursor s) = false) ->
    stop acc (talk (S k) cursor s) = true ->
    (S k <= fuel)%nat ->
    run fuel cursor acc s
    = Some (Ok (acc ++ gathered page_items (talk (S k) cursor s))).
Proof.
  induction k as [|k IH]; intros cursor acc s fuel Hlen Hno Hstop Hfuel;
    (destruct fuel as [|fuel]; [lia|]);
    cbn [paginate]; rewrite conversation_S in Hlen, Hstop |- *;
    destruct (request cursor s) as [[p|e] s'] eqn:R; try discriminate Hlen;
    cbv zeta.
  - cbn [conversation] in *. rewrite leaves_at_one in Hstop.
    rewrite Hstop. unfold gathered. cbn. now rewrite app_nil_r.
  - rewrite (first_test k cursor acc s s' p R Hno).
    cbn [List.length] in Hlen. apply Nat.succ_inj in Hlen.
    destruct (talk (S k) (page_cursor p) s') as [|q ps] eqn:T;
      [cbn in Hlen; lia|].
    rewrite leaves_at_cons in Hstop. rewrite <- T in *.
    rewrite (IH (page_cursor p) (acc ++ page_items p) s' fuel Hlen);
      [| now apply (no_stop_tail k cursor acc s s' p R) | exact Hstop | lia].
    unfold gathered. cbn [map List.concat]. now rewrite app_assoc.
Qed.

(** As long as the pages come and the test fails on each, the loop runs. *)
Lemma paginate_running (k : nat) :
  forall cursor acc s,
    List.length (talk k cursor s) = k ->
    (forall j, (1 <= j <= k)%nat -> stop acc (talk j cursor s) = false) ->
    run k cursor acc s = None.
Proof.
  induction k as [|k IH]; intros cursor acc s Hlen Hno; [reflexivity|].
  cbn [paginate]. rewrite conversation_S in Hlen.
  destruct (request cursor s) as [[p|e] s'] eqn:R; [|discriminate Hlen].
  cbv zeta. rewrite (first_test k cursor acc s s' p R Hno).
  cbn [List.length] in Hlen. apply Nat.succ_inj in Hlen.
  apply IH; [exact Hlen|]. now apply (no_stop_tail k cursor acc s s' p R).
Qed.

(** A request that raises ends the loop with its exception. *)
Lemma paginate_raises (k : nat) :
  forall cursor acc s fuel,
    List.length (talk k cursor s) = k ->
    (forall j, (1 <= j <= k)%nat -> stop acc (talk j cursor s) = false) ->
    List.length (talk (S k) cursor s) = k ->
    (k < fuel)%nat ->
    exists e, run fuel cursor acc s = Some (Raise e).
Proof.
  induction k as [|k IH]; intros cursor acc s fuel Hlen Hno Hcut Hfuel;
    (destruct fuel as [|fuel]; [lia|]);
    cbn [paginate]; rewrite conversation_S in Hcut.
  - destruct (request cursor s) as [[p|e] s'] eqn:R; [discriminate Hcut|].
    now exists e.
  - rewrite conversation_S in Hlen.
    destruct (request cursor s) as [[p|e] s'] eqn:R; [|discriminate Hlen].
    cbv zeta. rewrite (first_test k cursor acc s s' p R Hno).
    cbn [List.length] in Hlen, Hcut. apply Nat.succ_inj in Hlen.
    apply Nat.succ_inj in Hcut.
    apply IH; [exact Hlen| |exact Hcut|lia].
    now apply (no_stop_tail k cursor acc s s' p R).
Qed.
End PaginationFacts.

Lemma seller_loop_paginate {server : Type}
      (get_product_list : pyval -> server -> result Seller.product_page * server)
      (fuel : nat) :
  forall last_id product_list s,
    Seller.product_loop server get_product_list fuel last_id product_list s
    = paginate get_product_list Seller.r_items Seller.r_last_id
               Seller.total_is_length fuel last_id product_list s.
Proof.
  induction fuel as [|fuel IH]; intros last_id product_list s; [reflexivity|].
  cbn [Seller.product_loop paginate]. unfold Seller.loop_body.
  destruct (get_product_list last_id s) as [[some_prod|e] s']; [|reflexivity].
  cbv zeta. fold (Seller.total_is_length some_prod (product_list ++ Seller.r_items some_prod)).
  destruct (Seller.total_is_length some_prod _); [reflexivity|apply IH].
Qed.

Lemma market_loop_paginate {server : Type}
      (get_product_list : pyval -> server -> result Market.product_page * server)
      (fuel : nat) :
  forall page product_list s,
    Market.product_loop server get_product_list fuel page product_list s
    = paginate get_product_list Market.offerMappingEntries Market.nextPageToken
               Market.cursor_is_empty fuel page product_list s.
Proof.
  induction fuel as [|fuel IH]; intros page product_list s; [reflexivity|].
  cbn [Market.product_loop paginate]. unfold Market.loop_body.
  destruct (get_product_list page s) as [[some_prod|e] s']; [|reflexivity].
  cbv zeta. unfold Market.cursor_is_empty.
  destruct (negb (py_truthy (Market.nextPageToken some_prod))); [reflexivity|apply IH].
Qed.

(** C6: let the first [k] pages have come, with the test for leaving
    failed on each of them.  Then the loop is still running after [k] turns.
    It ends with the next turn, and [get_offer_ids] returns the offer
    identifiers of all [k + 1] pages in page order, when that page comes and
    on it the reported total equals the number of products gathered
    (seller.py), respectively the next-page cursor is empty (market.py); it
    ends with an exception when the next request raises.  A page that
    comes and fails the test leaves the loop running, by the first
    statement at [k + 1]. *)
Theorem get_offer_ids_terminates
        {ozon yandex : Type}
        (ozon_list : pyval -> ozon -> result Seller.product_page * ozon)
        (yandex_list : pyval -> yandex -> result Market.product_page * yandex)
        (so : ozon) (sy : yandex) (k : nat) :
  (List.length (Seller.replies _ ozon_list k so) = k ->
   (forall j, (1 <= j <= k)%nat ->
              Seller.total_reached (Seller.replies _ ozon_list j so) = false) ->
   Seller.get_offer_ids _ ozon_list k so = None
   /\ (List.length (Seller.replies _ ozon_list (S k) so) = S k ->
       Seller.total_reached (Seller.replies _ ozon_list (S k) so) = true ->
       forall fuel, (S k <= fuel)%nat ->
         Seller.get_offer_ids _ ozon_list fuel so
         = Some (Ok (map Seller.product_offer_id
                         (Seller.all_items (Seller.replies _ ozon_list (S k) so)))))
   /\ (List.length (Seller.replies _ ozon_list (S k) so) = k ->
       forall fuel, (k < fuel)%nat ->
         exists e, Seller.get_offer_ids _ ozon_list fuel so = Some (Raise e)))
  /\
  (List.length (Market.replies _ yandex_list k sy) = k ->
   (forall j, (1 <= j <= k)%nat ->
              Market.cursor_empty (Market.replies _ yandex_list j sy) = false) ->
   Market.get_offer_ids _ yandex_list k sy = None
   /\ (List.length (Market.replies _ yandex_list (S k) sy) = S k ->
       Market.cursor_empty (Market.replies _ yandex_list (S k) sy) = true ->
       forall fuel, (S k <= fuel)%nat ->
         Market.get_offer_ids _ yandex_list fuel sy
         = Some (Ok (map Market.shopSku
                         (Market.all_items (Market.replies _ yandex_list (S k) sy)))))
   /\ (List.length (Market.replies _ yandex_list (S k) sy) = k ->
       forall fuel, (k < fuel)%nat ->
         exists e, Market.get_offer_ids _ yandex_list fuel sy = Some (Raise e))).
Proof.
  split; intros Hlen Hno.
  - unfold Seller.get_offer_ids, Seller.replies, Seller.total_reached,
      Seller.all_items in *.
    split; [|split].
    + rewrite seller_loop_paginate, paginate_running; auto.
    + intros HlenS Hstop fuel Hfuel.
      rewrite seller_loop_paginate.
      rewrite (paginate_leaves _ _ _ _ k); auto.
    + intros Hcut fuel Hfuel. rewrite seller_loop_paginate.
      destruct (paginate_raises _ _ _ _ k _ _ _ fuel Hlen Hno Hcut Hfuel) as [e ->].
      now exists e.
  - unfold Market.get_offer_ids, Market.replies, Market.cursor_empty,
      Market.all_items in *.
    split; [|split].
    + rewrite market_loop_paginate, paginate_running; auto.
    + intros HlenS Hstop fuel Hfuel.
      rewrite market_loop_paginate.
      rewrite (paginate_leaves _ _ _ _ k); auto.
    + intros Hcut fuel Hfuel. rewrite market_loop_paginate.
      destruct (paginate_raises _ _ _ _ k _ _ _ fuel Hlen Hno Hcut Hfuel) as [e ->].
      now exists e.
Qed.

Lemma get_offer_ids_terminates_witness :
  (Seller.get_offer_ids _ ozon_shop 1 tt = None
   /\ Seller.get_offer_ids _ ozon_shop 5 tt = Some (Ok ["1001"; "1002"; "1003"]))
  /\ (Market.get_offer_ids _ yandex_shop 1 tt = None
      /\ Market.get_offer_ids _ yandex_shop 5 tt = Some (Ok ["1001"; "1002"; "1003"])).
Proof.
  destruct (get_offer_ids_terminates ozon_shop yandex_shop tt tt 1) as [HO HM].
  split.
  - destruct HO as (Hrun & Hret & _).
    + reflexivity.
    + intros j Hj. assert (E : j = 1%nat) by lia. subst j. reflexivity.
    + split; [exact Hrun|].
      apply (Hret eq_refl eq_refl 5%nat). lia.
  - destruct HM as (Hrun & Hret & _).
    + reflexivity.
    + intros j Hj. assert (E : j = 1%nat) by lia. subst j. reflexivity.
    + split; [exact Hrun|].
      apply (Hret eq_refl eq_refl 5%nat). lia.
Defined.

(** ** The inventory loader *)

Lemma fs_lookup_delete (name : string) (f : fs) :
  fs_lookup name (fs_delete name f) = None.
Proof.
  induction f as [|[n c] f IH]; [reflexivity|].
  unfold fs_delete in *. cbn [filter fst].
  destruct (String.eqb_spec n name) as [E|N]; cbn [negb]; [exact IH|].
  cbn [fs_lookup]. now rewrite (string_eqb_false _ _ N).
Qed.

(** C8, as stated, fails: with an archive that holds the spreadsheet and a
    parse that raises, [download_stock] raises and the extracted file is
    still in the directory. *)
Lemma download_stock_leaves_file :
  download_stock_ex = (Raise ValueError, [("ostatki.xls", "not a spreadsheet")])
  /\ fs_lookup "ostatki.xls" (snd download_stock_ex) = Some "not a spreadsheet".
Proof. split; reflexivity. Qed.

(** C8 (amended): once the archive is extracted and holds the spreadsheet,
    [download_stock] removes the extracted file after a parse that succeeds
    and returns the records; when the parse raises, the exception leaves
    [download_stock] before the removal and the file stays where it was
    extracted. *)
Theorem download_stock_cleanup (read_excel : string -> result (list watch))
        (archive : list (string * string)) (f : fs) (content : string) :
  fs_lookup "ostatki.xls" (extractall archive f) = Some content ->
  (forall watch_remnants,
      read_excel content = Ok watch_remnants ->
      Seller.download_stock read_excel (Ok archive) f
      = (Ok watch_remnants, fs_delete "ostatki.xls" (extractall archive f))
      /\ fs_lookup "ostatki.xls"
                   (snd (Seller.download_stock read_excel (Ok archive) f)) = None)
  /\ (forall e,
      read_excel content = Raise e ->
      Seller.download_stock read_excel (Ok archive) f
      = (Raise e, extractall archive f)
      /\ fs_lookup "ostatki.xls"
                   (snd (Seller.download_stock read_excel (Ok archive) f))
         = Some content).
Proof.
  intro Hfile. split.
  - intros watch_remnants Hparse.
    assert (E : Seller.download_stock read_excel (Ok archive) f
                = (Ok watch_remnants, fs_delete "ostatki.xls" (extractall archive f))).
    { unfold Seller.download_stock, os_remove. cbv zeta.
      now rewrite Hfile, Hparse. }
    split; [exact E|]. rewrite E. apply fs_lookup_delete.
  - intros e Hparse.
    assert (E : Seller.download_stock read_excel (Ok archive) f
                = (Raise e, extractall archive f)).
    { unfold Seller.download_stock. cbv zeta. now rewrite Hfile, Hparse. }
    split; [exact E|]. now rewrite E.
Qed.

Lemma download_stock_cleanup_witness :
  fs_lookup "ostatki.xls"
            (snd (Seller.download_stock
                    (fun _ => Ok [mk_watch (PyInt 1001) (PyStr ">10") (PyStr "1'500.00 р.")])
                    (Ok [("ostatki.xls", "sheet")]) []))
  = None.
Proof.
  apply (proj1 (download_stock_cleanup
                  (fun _ => Ok [mk_watch (PyInt 1001) (PyStr ">10") (PyStr "1'500.00 р.")])
                  [("ostatki.xls", "sheet")] [] "sheet" eq_refl)
               [mk_watch (PyInt 1001) (PyStr ">10") (PyStr "1'500.00 р.")] eq_refl).
Defined.

(** * Further properties of the code *)

(** ** The batcher: shape, look-up and bad chunk sizes *)

(** the number of chunks: the length divided by the chunk size, rounded up *)
Lemma range_len_ceil (L n : Z) :
  0 <= L -> 0 < n -> range_len 0 L n = (L + n - 1) / n.
Proof.
  intros HL Hn. unfold range_len.
  destruct (Z.ltb_spec 0 L) as [Hpos|Hz].
  - replace (L + n - 1) with ((L - 0 - 1) + 1 * n) by lia.
    now rewrite Z.div_add by lia.
  - assert (L = 0) by lia. subst L. symmetry. apply Z.div_small. lia.
Qed.

(** For a positive chunk size, [divide] yields the runs of [n] elements
    number 0, 1, ... up to the rounded-up quotient. *)
Lemma divide_positive {A} (lst : list A) (n : Z) :
  0 < n ->
  let m := Z.to_nat n in
  let K := Z.to_nat ((Z.of_nat (List.length lst) + n - 1) / n) in
  divide lst n = Ok (map (chunk lst m) (seq 0 K))
  /\ ((List.length lst = 0 /\ K = 0)%nat
      \/ (0 < K /\ (K - 1) * m < List.length lst /\ List.length lst <= K * m)%nat).
Proof.
  intros Hn m K. set (L := List.length lst) in *.
  assert (HK : K = Z.to_nat (range_len 0 (Z.of_nat L) n))
    by (unfold K; now rewrite range_len_ceil by lia).
  assert (Hm : (0 < m)%nat) by (unfold m; lia).
  assert (Hb : (L = 0 /\ K = 0)%nat \/
               (0 < K /\ (K - 1) * m < L /\ L <= K * m)%nat).
  { rewrite HK. unfold range_len.
    destruct (Z.ltb_spec 0 (Z.of_nat L)) as [Hpos|Hz].
    - right.
      pose proof (Z.div_mod (Z.of_nat L - 0 - 1) n ltac:(lia)) as D.
      pose proof (Z.mod_pos_bound (Z.of_nat L - 0 - 1) n Hn) as B.
      assert (0 <= (Z.of_nat L - 0 - 1) / n) by (apply Z.div_pos; lia).
      unfold m. nia.
    - left. split; [lia | reflexivity]. }
  split; [|exact Hb].
  unfold divide, py_range. fold L.
  destruct (Z.eqb_spec n 0) as [?|_]; [lia|].
  destruct (Z.ltb_spec 0 n) as [_|?]; [|lia].
  rewrite <- HK. cbn [rbind]. f_equal. rewrite map_map.
  apply map_ext_in. intros k Hk. apply in_seq in Hk.
  apply py_slice_chunk; [assumption|]. fold m. fold L.
  destruct Hb as [[_ Hb]|(_ & Hb & _)]; [lia|nia].
Qed.

(** X1: a chunk size of zero makes [divide] raise [ValueError] (the step
    of [range]); a negative chunk size yields no chunk at all, whatever the
    list holds. *)
Theorem divide_bad_step {A} (lst : list A) (n : Z) :
  (n = 0 -> divide lst n = Raise ValueError)
  /\ (n < 0 -> divide lst n = Ok []).
Proof.
  split; intro Hn.
  - subst n. reflexivity.
  - unfold divide, py_range, range_len.
    destruct (Z.eqb_spec n 0) as [?|_]; [lia|].
    destruct (Z.ltb_spec 0 n) as [?|_]; [lia|].
    destruct (Z.ltb_spec (Z.of_nat (List.length lst)) 0) as [?|_]; [lia|].
    reflexivity.
Qed.

Lemma divide_bad_step_witness :
  divide [1; 2; 3] 0 = Raise ValueError /\ divide [1; 2; 3] (-2) = Ok [].
Proof.
  split.
  - apply (proj1 (divide_bad_step [1; 2; 3] 0)). reflexivity.
  - apply (proj2 (divide_bad_step [1; 2; 3] (-2))). lia.
Defined.

(** X2: for a positive chunk size, the element at position [i] of the
    list is the element at position [i mod n] of chunk number [i / n], and
    positions outside the list are outside the chunks. *)
Theorem divide_lookup {A} (lst : list A) (n : Z) (i : nat) :
  0 < n ->
  exists chunks,
    divide lst n = Ok chunks
    /\ nth_error lst i
       = match nth_error chunks (i / Z.to_nat n) with
         | Some c => nth_error c (i mod Z.to_nat n)
         | None => None
         end.
Proof.
  intro Hn. destruct (divide_positive lst n Hn) as [E Hb].
  set (m := Z.to_nat n) in *.
  set (K := Z.to_nat ((Z.of_nat (List.length lst) + n - 1) / n)) in *.
  assert (Hm : (0 < m)%nat) by (unfold m; lia).
  exists (map (chunk lst m) (seq 0 K)). split; [exact E|].
  rewrite nth_error_map, nth_error_seq.
  pose proof (Nat.div_mod_eq i m) as D.
  pose proof (Nat.mod_upper_bound i m ltac:(lia)) as B.
  destruct (Nat.ltb_spec (i / m) K) as [Hlt|Hge]; cbn [option_map Nat.add].
  - unfold chunk. rewrite nth_error_firstn, nth_error_skipn.
    destruct (Nat.ltb_spec (i mod m) m) as [_|?]; [|lia].
    f_equal. lia.
  - apply nth_error_None.
    destruct Hb as [[-> _]|(_ & _ & Hb)]; [lia|]. nia.
Qed.

Lemma divide_lookup_witness :
  exists chunks,
    divide ["a"; "b"; "c"; "d"; "e"] 2 = Ok chunks
    /\ nth_error ["a"; "b"; "c"; "d"; "e"] 3
       = match nth_error chunks (3 / Z.to_nat 2) with
         | Some c => nth_error c (3 mod Z.to_nat 2)
         | None => None
         end.
Proof. apply (divide_lookup ["a"; "b"; "c"; "d"; "e"] 2 3). lia. Defined.

(** X3: for a positive chunk size, the number of chunks is the length of
    the list divided by the chunk size, rounded up, and every chunk but the
    last has exactly [n] elements; the empty list gives no chunk, and a list
    of at most [n] elements that is not empty gives the list as its only
    chunk. *)
Theorem divide_count {A} (lst : list A) (n : Z) :
  0 < n ->
  exists chunks,
    divide lst n = Ok chunks
    /\ Z.of_nat (List.length chunks) = (Z.of_nat (List.length lst) + n - 1) / n
    /\ (forall k c, nth_error chunks k = Some c ->
                    (S k < List.length chunks)%nat ->
                    Z.of_nat (List.length c) = n)
    /\ (lst = [] -> chunks = [])
    /\ (lst <> [] -> Z.of_nat (List.length lst) <= n -> chunks = [lst]).
Proof.
  intro Hn. destruct (divide_positive lst n Hn) as [E Hb].
  set (m := Z.to_nat n) in *.
  set (K := Z.to_nat ((Z.of_nat (List.length lst) + n - 1) / n)) in *.
  assert (Hm : (0 < m)%nat) by (unfold m; lia).
  exists (map (chunk lst m) (seq 0 K)). split; [exact E|].
  rewrite length_map, length_seq.
  split; [|split; [|split]].
  - unfold K. rewrite Z2Nat.id; [reflexivity|]. apply Z.div_pos; lia.
  - intros k c Hk Hlast. rewrite nth_error_map, nth_error_seq in Hk.
    destruct (Nat.ltb_spec k K) as [_|?]; [|lia].
    cbn [option_map Nat.add] in Hk. injection Hk as <-.
    rewrite chunk_length.
    destruct Hb as [[_ Hb]|(_ & Hb & _)]; [lia|]. unfold m in *. nia.
  - intros ->. destruct Hb as [[_ ->]|(_ & Hb & _)]; [reflexivity|].
    cbn [List.length] in Hb. now apply Nat.nlt_0_r in Hb.
  - intros Hne Hle. destruct Hb as [[Hb _]|(HK0 & HK1 & HK2)].
    { destruct lst; [congruence|discriminate Hb]. }
    assert (HK : K = 1%nat).
    { destruct K as [|[|K']]; [lia|reflexivity|]. exfalso. unfold m in *. nia. }
    rewrite HK. cbn [seq map]. unfold chunk. cbn [Nat.mul skipn].
    f_equal. apply firstn_all2. unfold m. lia.
Qed.

Lemma divide_count_witness :
  exists chunks,
    divide [1; 2; 3; 4; 5] 2 = Ok chunks
    /\ Z.of_nat (List.length chunks) = (Z.of_nat (List.length [1; 2; 3; 4; 5]) + 2 - 1) / 2
    /\ (forall k c, nth_error chunks k = Some c ->
                    (S k < List.length chunks)%nat ->
                    Z.of_nat (List.length c) = 2)
    /\ ([1; 2; 3; 4; 5] = [] -> chunks = [])
    /\ ([1; 2; 3; 4; 5] <> [] -> Z.of_nat (List.length [1; 2; 3; 4; 5]) <= 2 ->
        chunks = [[1; 2; 3; 4; 5]]).
Proof. apply (divide_count [1; 2; 3; 4; 5] 2). lia. Defined.

(** ** The normalisers on other cells and on their own output *)

(** X4: on a quantity cell that holds an integer (of fewer than 4300
    digits, the longest [str] writes by default) the normaliser returns the
    integer, but 0 for the integer 1, whose text is the exact text "1"; a
    truth value gives 1 or 0; a missing quantity raises [TypeError]. *)
Theorem stock_of_count_cells :
  (forall z, Z.abs z < 10 ^ 4300 ->
             stock_of_count (PyInt z) = Ok (if z =? 1 then 0 else z))
  /\ (forall b, stock_of_count (PyBool b) = Ok (if b then 1 else 0))
  /\ stock_of_count PyNone = Raise TypeError.
Proof.
  split; [intros z _; apply stock_of_count_int|]. split; [|reflexivity].
  intros []; reflexivity.
Qed.

Lemma stock_of_count_cells_witness :
  stock_of_count (PyInt 1) = Ok 0 /\ stock_of_count (PyInt 12) = Ok 12.
Proof.
  split.
  - apply (proj1 stock_of_count_cells 1). apply Z.pow_gt_1; lia.
  - apply (proj1 stock_of_count_cells 12).
    apply Z.lt_trans with (10 ^ 2); [reflexivity|].
    apply Z.pow_lt_mono_r; lia.
Defined.

Lemma re_sub_all_digits (s : string) : all_digits (re_sub_non_digits s) = true.
Proof.
  induction s as [|c s IH]; [reflexivity|]. cbn [re_sub_non_digits].
  destruct (is_digit c) eqn:E; [|exact IH].
  now rewrite all_digits_cons, E, IH.
Qed.

Lemma re_sub_fixed (s : string) : all_digits s = true -> re_sub_non_digits s = s.
Proof.
  induction s as [|c s IH]; [reflexivity|].
  rewrite all_digits_cons. intro H. apply andb_true_iff in H. destruct H as [Hc Hs].
  cbn [re_sub_non_digits]. now rewrite Hc, IH.
Qed.

Lemma is_digit_not_dot (c : ascii) : is_digit c = true -> (c =? ".")%char = false.
Proof.
  intro H. destruct (Ascii.eqb_spec c ".") as [->|_]; [discriminate H|reflexivity].
Qed.

Lemma before_first_dot_digits (s : string) :
  all_digits s = true -> before_first_dot s = s.
Proof.
  induction s as [|c s IH]; [reflexivity|].
  rewrite all_digits_cons. intro H. apply andb_true_iff in H. destruct H as [Hc Hs].
  cbn [before_first_dot]. now rewrite (is_digit_not_dot c Hc), IH.
Qed.

Lemma re_sub_length (s : string) :
  (String.length (re_sub_non_digits s) <= String.length s)%nat.
Proof.
  induction s as [|c s IH]; [reflexivity|]. cbn [re_sub_non_digits].
  destruct (is_digit c); cbn [String.length]; lia.
Qed.

Lemma before_first_dot_length (s : string) :
  (String.length (before_first_dot s) <= String.length s)%nat.
Proof.
  induction s as [|c s IH]; [reflexivity|]. cbn [before_first_dot].
  destruct (c =? ".")%char; cbn [String.length]; lia.
Qed.

Lemma price_conversion_unfold (s : string) :
  price_conversion s = re_sub_non_digits (before_first_dot s).
Proof. unfold price_conversion. now rewrite split_head. Qed.

(** X5: what [price_conversion] returns consists of digits only and is
    never longer than its argument; a text of digits is returned as it is,
    so that normalising twice is normalising once. *)
Theorem price_conversion_digits (price : string) :
  all_digits (price_conversion price) = true
  /\ (String.length (price_conversion price) <= String.length price)%nat
  /\ (all_digits price = true -> price_conversion price = price)
  /\ price_conversion (price_conversion price) = price_conversion price.
Proof.
  assert (Hfix : forall d, all_digits d = true -> price_conversion d = d).
  { intros d Hd. rewrite price_conversion_unfold, (before_first_dot_digits d Hd).
    now apply re_sub_fixed. }
  rewrite (price_conversion_unfold price) at 1 2.
  split; [apply re_sub_all_digits|]. split; [|split].
  - etransitivity; [apply re_sub_length | apply before_first_dot_length].
  - apply Hfix.
  - apply Hfix. rewrite price_conversion_unfold. apply re_sub_all_digits.
Qed.

Lemma price_conversion_digits_witness :
  all_digits "1500" = true /\ price_conversion "1500" = "1500".
Proof.
  split; [reflexivity|].
  apply (proj1 (proj2 (proj2 (price_conversion_digits "1500")))). reflexivity.
Defined.

(** ** Prices: when [create_prices] returns, and what it returns *)

Lemma mapM_ok_iff {A B} (f : A -> result B) (l : list A) :
  is_ok (mapM f l) = true <-> forall a, In a l -> is_ok (f a) = true.
Proof.
  split; [|apply mapM_total].
  induction l as [|x l IH]; intros H a Ha; [destruct Ha|].
  cbn [mapM] in H. destruct (f x) as [b|] eqn:Fx; [|discriminate H].
  cbn [rbind] in H. destruct (mapM f l) as [bs|]; [|discriminate H].
  destruct Ha as [<-|Ha]; [now rewrite Fx|]. now apply IH.
Qed.

Lemma mapM_Forall {A B} (f : A -> result B) (P : B -> Prop) (l : list A) :
  (forall a b, In a l -> f a = Ok b -> P b) ->
  forall out, mapM f l = Ok out -> Forall P out.
Proof.
  induction l as [|x l IH]; intros H out Hm; cbn [mapM] in Hm.
  - injection Hm as <-. constructor.
  - destruct (f x) as [b|] eqn:Fx; [|discriminate Hm]. cbn [rbind] in Hm.
    destruct (mapM f l) as [bs|]; [|discriminate Hm]. cbn [rbind] in Hm.
    injection Hm as <-. constructor.
    + apply (H x); [now left|assumption].
    + apply IH; [|reflexivity]. intros a b' Ha. apply H. now right.
Qed.

Lemma mapM_raise_pred {A B} (f : A -> result B) (P : exn -> Prop) (l : list A) :
  (forall a e, In a l -> f a = Raise e -> P e) ->
  forall e, mapM f l = Raise e -> P e.
Proof.
  induction l as [|x l IH]; intros H e Hm; cbn [mapM] in Hm; [discriminate|].
  destruct (f x) as [b|e'] eqn:Fx; cbn [rbind] in Hm.
  - destruct (mapM f l) as [bs|e'']; cbn [rbind] in Hm; [discriminate|].
    injection Hm as <-. apply IH; [|reflexivity].
    intros a e0 Ha. apply H. now right.
  - injection Hm as <-. apply (H x); [now left|assumption].
Qed.

Lemma parse_digits_digits (s : string) :
  all_digits s = true ->
  forall acc, exists z, parse_digits s acc true = Some z.
Proof.
  induction s as [|c s IH]; intros H acc; [now exists acc|].
  rewrite all_digits_cons in H. apply andb_true_iff in H. destruct H as [Hc Hs].
  cbn [parse_digits]. rewrite Hc. apply (IH Hs).
Qed.

(** [int] reads a text of digits that is not empty, and what it reads is
    not negative. *)
Lemma int_of_text_digits (d : string) :
  all_digits d = true -> d <> EmptyString ->
  exists v, int_of_text d = Ok v /\ 0 <= v.
Proof.
  intros Hd Hne. unfold int_of_text.
  rewrite (lstrip_digits d Hd), (rstrip_digits d Hd), (split_sign_digits d Hd).
  destruct d as [|c d]; [congruence|].
  rewrite all_digits_cons in Hd. apply andb_true_iff in Hd. destruct Hd as [Hc Hd].
  cbn [parse_digits]. rewrite Hc.
  destruct (parse_digits_digits d Hd (10 * 0 + digit_val c)) as [z Hz].
  rewrite Hz. exists z. split; [reflexivity|].
  apply parse_digits_nonneg in Hz; [exact Hz|].
  pose proof (is_digit_val_nonneg c Hc). lia.
Qed.

Lemma price_conversion_empty_iff (t : string) :
  price_conversion t = EmptyString <-> has_digit (before_first_dot t) = false.
Proof.
  rewrite price_conversion_unfold, re_sub_is_filter. apply digits_only_empty.
Qed.

(** the entry of market.py for a record whose price cell is text *)
Lemma market_price_of_text (w : watch) (t : string) :
  Tsena w = PyStr t ->
  (has_digit (before_first_dot t) = false -> Market.price_of w = Raise ValueError)
  /\ (has_digit (before_first_dot t) = true ->
      exists v, Market.price_of w
                = Ok {| Market.id := py_str (Kod w);
                        Market.price := {| Market.value := v;
                                           Market.currencyId := "RUR" |} |}
                /\ 0 <= v).
Proof.
  intro Ht. unfold Market.price_of. rewrite Ht. cbn [price_conversion_val rbind].
  split; intro Hd.
  - apply price_conversion_empty_iff in Hd. now rewrite Hd.
  - destruct (int_of_text_digits (price_conversion t)) as (v & Hv & Hpos).
    + rewrite price_conversion_unfold. apply re_sub_all_digits.
    + intro E. apply price_conversion_empty_iff in E. congruence.
    + rewrite Hv. cbn [rbind]. now exists v.
Qed.

Lemma market_price_of_ok (w : watch) :
  is_ok (Market.price_of w) = true
  <-> exists t, Tsena w = PyStr t /\ has_digit (before_first_dot t) = true.
Proof.
  split.
  - intro H. destruct (Tsena w) as [| | |t] eqn:Ht;
      try (unfold Market.price_of in H; rewrite Ht in H; discriminate H).
    exists t. split; [reflexivity|].
    destruct (has_digit (before_first_dot t)) eqn:Hd; [reflexivity|].
    rewrite (proj1 (market_price_of_text w t Ht) Hd) in H. discriminate H.
  - intros (t & Ht & Hd).
    destruct (proj2 (market_price_of_text w t Ht) Hd) as (v & -> & _). reflexivity.
Qed.

(** X6: when [create_prices] of market.py returns, the price cell of every
    record with a listed code is a text with a digit before its first '.';
    it does return when that holds and these texts have at most 4300
    characters (the longest text of digits [int] reads by default).  The
    values it returns are never negative and their currency is "RUR"; the
    exception it raises is [AttributeError] (a price cell that is not text)
    or [ValueError] (nothing for [int] to read). *)
Theorem market_create_prices_returns (watch_remnants : list watch)
        (offer_ids : ref) (h : store) :
  (is_ok (fst (Market.create_prices watch_remnants offer_ids h)) = true ->
   forall w, In w (listed watch_remnants (h offer_ids)) ->
             exists t, Tsena w = PyStr t
                       /\ has_digit (before_first_dot t) = true)
  /\ ((forall w, In w (listed watch_remnants (h offer_ids)) ->
                 exists t, Tsena w = PyStr t
                           /\ has_digit (before_first_dot t) = true
                           /\ (String.length t <= 4300)%nat) ->
      is_ok (fst (Market.create_prices watch_remnants offer_ids h)) = true)
  /\ (forall prices,
         fst (Market.create_prices watch_remnants offer_ids h) = Ok prices ->
         Forall (fun p => 0 <= Market.value (Market.price p)
                          /\ Market.currencyId (Market.price p) = "RUR") prices)
  /\ (forall e,
         fst (Market.create_prices watch_remnants offer_ids h) = Raise e ->
         e = AttributeError \/ e = ValueError).
Proof.
  assert (EM := create_prices_with_run Market.price_of watch_remnants offer_ids h).
  fold (Market.create_prices watch_remnants offer_ids) in EM.
  rewrite EM. cbn [fst]. split; [|split; [|split]].
  - rewrite mapM_ok_iff. intros H w Hw.
    apply market_price_of_ok. now apply H.
  - rewrite mapM_ok_iff. intros H w Hw.
    apply market_price_of_ok. destruct (H w Hw) as (t & Ht & Hd & _).
    now exists t.
  - apply mapM_Forall. intros w p _ Hp.
    destruct (Tsena w) as [| | |t] eqn:Ht;
      try (unfold Market.price_of in Hp; rewrite Ht in Hp; discriminate Hp).
    destruct (has_digit (before_first_dot t)) eqn:Hd.
    + destruct (proj2 (market_price_of_text w t Ht) Hd) as (v & Hv & Hpos).
      rewrite Hv in Hp. injection Hp as <-. cbn. auto.
    + rewrite (proj1 (market_price_of_text w t Ht) Hd) in Hp. discriminate Hp.
  - apply mapM_raise_pred. intros w e _ He.
    destruct (Tsena w) as [| | |t] eqn:Ht;
      try (unfold Market.price_of in He; rewrite Ht in He;
           cbn in He; injection He as <-; now left).
    destruct (has_digit (before_first_dot t)) eqn:Hd.
    + destruct (proj2 (market_price_of_text w t Ht) Hd) as (v & Hv & _).
      rewrite Hv in He. discriminate He.
    + rewrite (proj1 (market_price_of_text w t Ht) Hd) in He.
      injection He as <-. now right.
Qed.

Lemma market_create_prices_returns_witness :
  Forall (fun p => 0 <= Market.value (Market.price p)
                   /\ Market.currencyId (Market.price p) = "RUR")
         [ {| Market.id := "A";
              Market.price := {| Market.value := 1500; Market.currencyId := "RUR" |} |} ].
Proof.
  apply (proj1 (proj2 (proj2 (market_create_prices_returns
                         [mk_watch (PyStr "A") (PyStr "5") (PyStr "-1'500.00 р.")]
                         0%nat (fun _ => ["A"; "B"]))))).
  reflexivity.
Defined.

(** X7: [create_prices] of seller.py returns exactly when the price cell
    of every record with a listed code is text, and raises [AttributeError]
    otherwise; in the entries it returns the price is a text of digits
    (possibly empty) and the other fields are the constants "UNKNOWN", "RUB"
    and "0". *)
Theorem seller_create_prices_returns (watch_remnants : list watch)
        (offer_ids : ref) (h : store) :
  (is_ok (fst (Seller.create_prices watch_remnants offer_ids h)) = true
   <-> forall w, In w (listed watch_remnants (h offer_ids)) ->
                 exists t, Tsena w = PyStr t)
  /\ (forall prices,
         fst (Seller.create_prices watch_remnants offer_ids h) = Ok prices ->
         Forall (fun p => all_digits (Seller.price p) = true
                          /\ Seller.auto_action_enabled p = "UNKNOWN"
                          /\ Seller.currency_code p = "RUB"
                          /\ Seller.old_price p = "0") prices)
  /\ (forall e,
         fst (Seller.create_prices watch_remnants offer_ids h) = Raise e ->
         e = AttributeError).
Proof.
  assert (ES := create_prices_with_run Seller.price_of watch_remnants offer_ids h).
  fold (Seller.create_prices watch_remnants offer_ids) in ES.
  rewrite ES. cbn [fst]. split; [|split].
  - rewrite mapM_ok_iff. split; intros H w Hw.
    + specialize (H w Hw). unfold Seller.price_of in H.
      destruct (Tsena w) as [| | |t]; try discriminate H. now exists t.
    + destruct (H w Hw) as [t Ht]. unfold Seller.price_of. now rewrite Ht.
  - apply mapM_Forall. intros w p _ Hp. unfold Seller.price_of in Hp.
    destruct (Tsena w) as [| | |t]; try discriminate Hp.
    cbn [price_conversion_val rbind] in Hp. injection Hp as <-. cbn.
    split; [|auto]. rewrite price_conversion_unfold. apply re_sub_all_digits.
  - apply mapM_raise_pred. intros w e _ He. unfold Seller.price_of in He.
    destruct (Tsena w); cbn in He; congruence.
Qed.

Lemma seller_create_prices_returns_witness :
  fst (Seller.create_prices [mk_watch (PyStr "A") (PyStr "5") (PyInt 1500)]
                            0%nat (fun _ => ["A"]))
  = Raise AttributeError.
Proof.
  destruct (fst (Seller.create_prices [mk_watch (PyStr "A") (PyStr "5") (PyInt 1500)]
                                      0%nat (fun _ => ["A"]))) as [prices|e] eqn:E.
  - discriminate E.
  - f_equal.
    apply (proj2 (proj2 (seller_create_prices_returns
                           [mk_watch (PyStr "A") (PyStr "5") (PyInt 1500)]
                           0%nat (fun _ => ["A"]))) e).
    exact E.
Defined.

(** ** Stocks: when [create_stocks] returns, and what it leaves behind *)

Lemma filter_seen_In {A} (key : A -> string) (keep : string -> nat -> bool)
      (l : list A) (a : A) :
  forall seen, In a (filter_seen key keep seen l) ->
               In a l /\ exists k, keep (key a) k = true.
Proof.
  induction l as [|x l IH]; intros seen H; [destruct H|].
  cbn [filter_seen] in H. cbv zeta in H.
  destruct (keep (key x) (occ seen (key x))) eqn:E.
  - destruct H as [<-|H].
    + split; [now left|]. now exists (occ seen (key x)).
    + destruct (IH _ H) as [H1 H2]. split; [now right|exact H2].
  - destruct (IH _ H) as [H1 H2]. split; [now right|exact H2].
Qed.

(** a matched record is a record of the inventory whose code is listed *)
Lemma matched_listed (inv : list watch) (ids : list string) (w : watch) :
  In w (matched inv ids) -> In w (listed inv ids).
Proof.
  intro H. apply filter_seen_In in H. destruct H as [Hin [k Hk]].
  apply filter_In. split; [exact Hin|].
  apply py_in_occ. apply Nat.ltb_lt in Hk. lia.
Qed.

Lemma stock_of_count_raises (v : pyval) (e : exn) :
  stock_of_count v = Raise e -> e = ValueError \/ e = TypeError.
Proof.
  unfold stock_of_count. cbv zeta.
  destruct (py_str v =? ">10")%string; [discriminate|].
  destruct (py_str v =? "1")%string; [discriminate|].
  destruct v as [|b|z|t]; cbn [py_int]; try discriminate.
  - intros [= <-]. now right.
  - unfold int_of_text. destruct (split_sign _) as [neg digits].
    destruct (parse_digits digits 0 false); [discriminate|].
    intros [= <-]. now left.
Qed.

Lemma stock_of_ok (w : watch) :
  is_ok (stock_of w) = is_ok (stock_of_count (Kolichestvo w)).
Proof. unfold stock_of. now destruct (stock_of_count (Kolichestvo w)). Qed.

Lemma stock_updates_ok (inv : list watch) (ids : list string) :
  is_ok (stock_updates inv ids) = true
  <-> forall w, In w (matched inv ids) ->
                is_ok (stock_of_count (Kolichestvo w)) = true.
Proof.
  unfold stock_updates.
  assert (E : is_ok (rbind (mapM stock_of (matched inv ids))
                (fun found => Ok (found ++ map (fun offer_id => (offer_id, 0))
                                                (unmatched inv ids))))
              = is_ok (mapM stock_of (matched inv ids)))
    by now destruct (mapM stock_of (matched inv ids)).
  rewrite E, mapM_ok_iff.
  split; intros H w Hw; [rewrite <- stock_of_ok | rewrite stock_of_ok]; now apply H.
Qed.

Lemma stock_updates_raises (inv : list watch) (ids : list string) (e : exn) :
  stock_updates inv ids = Raise e -> e = ValueError \/ e = TypeError.
Proof.
  unfold stock_updates.
  destruct (mapM stock_of (matched inv ids)) as [found|e'] eqn:F; [discriminate|].
  cbn [rbind]. intros [= <-].
  apply (mapM_raise_pred stock_of (fun e => e = ValueError \/ e = TypeError)
                         (matched inv ids)); [|exact F].
  intros w e0 _ Hw. unfold stock_of in Hw.
  destruct (stock_of_count (Kolichestvo w)) as [q|e1] eqn:Q; [discriminate|].
  injection Hw as <-. now apply stock_of_count_raises in Q.
Qed.

Lemma result_map_is_ok {A B} (f : A -> B) (r : result A) :
  is_ok (result_map f r) = is_ok r.
Proof. now destruct r. Qed.

Lemma result_map_raise {A B} (f : A -> B) (r : result A) (e : exn) :
  result_map f r = Raise e -> r = Raise e.
Proof. destruct r; [discriminate|]. cbn. congruence. Qed.

(** X8: [create_stocks], of either module, returns exactly when the
    quantity of every matched record normalises; so it returns when the
    quantity of every record with a listed code does, whatever the other
    records hold.  The exception it raises otherwise is [ValueError] (a text
    that is no integer) or [TypeError] (no quantity). *)
Theorem create_stocks_returns (watch_remnants : list watch) (offer_ids : ref)
        (h : store) (warehouse_id date : string) :
  (is_ok (fst (Seller.create_stocks watch_remnants offer_ids h)) = true
   <-> forall w, In w (matched watch_remnants (h offer_ids)) ->
                 is_ok (stock_of_count (Kolichestvo w)) = true)
  /\ is_ok (fst (Market.create_stocks watch_remnants offer_ids warehouse_id date h))
     = is_ok (fst (Seller.create_stocks watch_remnants offer_ids h))
  /\ ((forall w, In w (listed watch_remnants (h offer_ids)) ->
                 is_ok (stock_of_count (Kolichestvo w)) = true) ->
      is_ok (fst (Seller.create_stocks watch_remnants offer_ids h)) = true)
  /\ (forall e,
         fst (Seller.create_stocks watch_remnants offer_ids h) = Raise e
         \/ fst (Market.create_stocks watch_remnants offer_ids warehouse_id date h)
            = Raise e ->
         e = ValueError \/ e = TypeError).
Proof.
  destruct (create_stocks_with_run
              (fun offer_id stock => {| Seller.offer_id := offer_id; Seller.stock := stock |})
              watch_remnants offer_ids h) as (ES & _).
  destruct (create_stocks_with_run
              (fun offer_id stock =>
                 {| Market.sku := offer_id;
                    Market.warehouseId := warehouse_id;
                    Market.stock_items :=
                      [ {| Market.count := stock; Market.type_ := "FIT";
                           Market.updatedAt := date |} ] |})
              watch_remnants offer_ids h) as (EM & _).
  unfold Seller.create_stocks, Market.create_stocks. rewrite ES, EM.
  rewrite !result_map_is_ok. split; [apply stock_updates_ok|].
  split; [reflexivity|]. split.
  - intro H. apply stock_updates_ok. intros w Hw. apply H.
    now apply matched_listed.
  - intros e [He|He]; apply result_map_raise in He;
      now apply stock_updates_raises in He.
Qed.

Lemma create_stocks_returns_witness :
  is_ok (fst (Seller.create_stocks
                [mk_watch (PyStr "A") (PyStr " 12 ") PyNone;
                 mk_watch (PyStr "C") (PyStr "abc") PyNone] 0%nat
                (fun _ => ["A"; "B"]))) = true.
Proof.
  apply (proj1 (proj2 (proj2 (create_stocks_returns
           [mk_watch (PyStr "A") (PyStr " 12 ") PyNone;
            mk_watch (PyStr "C") (PyStr "abc") PyNone] 0%nat
           (fun _ => ["A"; "B"]) "" "")))).
  intros w Hw. cbn in Hw. destruct Hw as [<-|[]]. reflexivity.
Defined.

Section StocksMore.
Context {entry : Type}.
Variable mk_stock : string -> Z -> entry.

(** No record with a listed code: nothing is normalised, nothing removed. *)
Lemma stocks_matched_no_match (inv : list watch) (r : ref) (h : store) :
  (forall w, In w inv -> py_in (code_of w) (h r) = false) ->
  forall stocks, stocks_matched mk_stock inv r stocks h = (Ok stocks, h).
Proof.
  induction inv as [|w inv IH]; intros H stocks; [reflexivity|].
  rewrite stocks_matched_cons, (H w (or_introl eq_refl)).
  apply IH. intros w' Hw'. apply H. now right.
Qed.

Lemma create_stocks_with_no_match (inv : list watch) (r : ref) (h : store) :
  (forall w, In w inv -> py_in (code_of w) (h r) = false) ->
  create_stocks_with mk_stock inv r h
  = (Ok (map (fun offer_id => mk_stock offer_id 0) (h r)), h).
Proof.
  intro H. unfold create_stocks_with, bind.
  now rewrite (stocks_matched_no_match inv r h H).
Qed.

Lemma create_stocks_with_unfold (inv : list watch) (r : ref) (h : store) :
  create_stocks_with mk_stock inv r h
  = match stocks_matched mk_stock inv r [] h with
    | (Ok stocks, h') =>
        (Ok (stocks ++ map (fun i => mk_stock i 0) (h' r)), h')
    | (Raise e, h') => (Raise e, h')
    end.
Proof. reflexivity. Qed.

(** Where the first loop stops when it raises, in terms of the pass. *)
Lemma stocks_matched_raise (inv : list watch) (r : ref) :
  forall stocks h e,
    fst (stocks_matched mk_stock inv r stocks h) = Raise e ->
    exists pre w post,
      inv = pre ++ w :: post
      /\ is_ok (mapM stock_of (consumed pre (h r))) = true
      /\ py_in (code_of w) (left_over pre (h r)) = true
      /\ stock_of_count (Kolichestvo w) = Raise e
      /\ snd (stocks_matched mk_stock inv r stocks h) r = left_over pre (h r).
Proof.
  induction inv as [|w0 inv IH]; intros stocks h e H; [discriminate H|].
  rewrite stocks_matched_cons in H |- *.
  destruct (py_in (code_of w0) (h r)) eqn:E.
  - destruct (stock_of_count (Kolichestvo w0)) as [q|e0] eqn:Q.
    + destruct (IH _ _ _ H) as (pre & w & post & -> & Hok & Hin & Hq & Hs).
      rewrite store_set_same in Hok, Hin, Hs.
      exists (w0 :: pre), w, post. cbn [consumed left_over app]. rewrite E.
      repeat split; try assumption.
      cbn [mapM]. unfold stock_of at 1. rewrite Q. cbn [rbind].
      now destruct (mapM stock_of (consumed pre (remove_first (code_of w0) (h r)))).
    + cbn [fst] in H. injection H as <-.
      exists [], w0, inv. cbn [consumed left_over app mapM is_ok snd].
      repeat split; assumption.
  - destruct (IH _ _ _ H) as (pre & w & post & -> & Hok & Hin & Hq & Hs).
    exists (w0 :: pre), w, post. cbn [consumed left_over app]. rewrite E.
    repeat split; assumption.
Qed.

(** The list object after the call does not depend on the dictionary that
    is appended. *)
Lemma stocks_matched_store {entry' : Type} (mk' : string -> Z -> entry')
      (inv : list watch) (r : ref) :
  forall stocks stocks' h,
    snd (stocks_matched mk_stock inv r stocks h)
    = snd (stocks_matched mk' inv r stocks' h).
Proof.
  induction inv as [|w inv IH]; intros stocks stocks' h; [reflexivity|].
  rewrite !stocks_matched_cons.
  destruct (py_in (code_of w) (h r)); [|apply IH].
  destruct (stock_of_count (Kolichestvo w)); [apply IH|reflexivity].
Qed.
End StocksMore.

Lemma filter_nil_all {A} (f : A -> bool) (l : list A) :
  filter f l = [] -> forall a, In a l -> f a = false.
Proof.
  induction l as [|x l IH]; intros H a Ha; [destruct Ha|].
  cbn [filter] in H. destruct (f x) eqn:E; [discriminate H|].
  destruct Ha as [<-|Ha]; [exact E|now apply IH].
Qed.

(** ** The list object after [create_stocks] *)

(** C4: [create_stocks], of either module, changes the list object it is
    given: when it returns, the object holds the listed identifiers that no
    inventory record matched, and no other object is changed.  The call
    returns when the quantity of every matched record normalises; the two
    modules return on the same inputs and leave the same store, whatever the
    outcome; and when a record matched and the call returned, the object is
    shorter than it was.  When the listing has no duplicates,
    [create_prices] run next on the same object, as [main] of seller.py
    does, returns the empty list. *)
Theorem create_stocks_mutates (watch_remnants : list watch) (offer_ids : ref)
        (h : store) (warehouse_id date : string) :
  (is_ok (fst (Seller.create_stocks watch_remnants offer_ids h)) = true ->
   snd (Seller.create_stocks watch_remnants offer_ids h) offer_ids
   = unmatched watch_remnants (h offer_ids))
  /\ (is_ok (fst (Market.create_stocks watch_remnants offer_ids warehouse_id date h)) = true ->
      snd (Market.create_stocks watch_remnants offer_ids warehouse_id date h) offer_ids
      = unmatched watch_remnants (h offer_ids))
  /\ (forall r, r <> offer_ids ->
        snd (Seller.create_stocks watch_remnants offer_ids h) r = h r
        /\ snd (Market.create_stocks watch_remnants offer_ids warehouse_id date h) r = h r)
  /\ (NoDup (h offer_ids) ->
      unmatched watch_remnants (h offer_ids)
      = filter (fun i => negb (py_in i (map code_of watch_remnants))) (h offer_ids))
  /\ (NoDup (h offer_ids) ->
      fst (Seller.main_reconcile watch_remnants offer_ids h)
      = result_map (fun stocks => (stocks, []))
                   (fst (Seller.create_stocks watch_remnants offer_ids h)))
  /\ ((forall w, In w (matched watch_remnants (h offer_ids)) ->
                 is_ok (stock_of_count (Kolichestvo w)) = true) ->
      is_ok (fst (Seller.create_stocks watch_remnants offer_ids h)) = true
      /\ is_ok (fst (Market.create_stocks watch_remnants offer_ids warehouse_id date h))
         = true
      /\ snd (Seller.create_stocks watch_remnants offer_ids h) offer_ids
         = unmatched watch_remnants (h offer_ids)
      /\ snd (Market.create_stocks watch_remnants offer_ids warehouse_id date h) offer_ids
         = unmatched watch_remnants (h offer_ids))
  /\ is_ok (fst (Market.create_stocks watch_remnants offer_ids warehouse_id date h))
     = is_ok (fst (Seller.create_stocks watch_remnants offer_ids h))
  /\ (forall r,
        snd (Market.create_stocks watch_remnants offer_ids warehouse_id date h) r
        = snd (Seller.create_stocks watch_remnants offer_ids h) r)
  /\ (List.length (h offer_ids)
      = (List.length (matched watch_remnants (h offer_ids))
         + List.length (unmatched watch_remnants (h offer_ids)))%nat).
Proof.
  destruct (create_stocks_with_run
              (fun offer_id stock => {| Seller.offer_id := offer_id; Seller.stock := stock |})
              watch_remnants offer_ids h) as (ES & MS & FS).
  destruct (create_stocks_with_run
              (fun offer_id stock =>
                 {| Market.sku := offer_id;
                    Market.warehouseId := warehouse_id;
                    Market.stock_items :=
                      [ {| Market.count := stock; Market.type_ := "FIT";
                           Market.updatedAt := date |} ] |})
              watch_remnants offer_ids h) as (EM & MM & FM).
  fold (Seller.create_stocks watch_remnants offer_ids) in ES, MS, FS.
  fold (Market.create_stocks watch_remnants offer_ids warehouse_id date) in EM, MM, FM.
  assert (OKS : is_ok (fst (Seller.create_stocks watch_remnants offer_ids h))
                = is_ok (stock_updates watch_remnants (h offer_ids)))
    by (rewrite ES; apply result_map_is_ok).
  assert (OKM : is_ok (fst (Market.create_stocks watch_remnants offer_ids
                                                 warehouse_id date h))
                = is_ok (stock_updates watch_remnants (h offer_ids)))
    by (rewrite EM; apply result_map_is_ok).
  split; [exact MS|]. split; [exact MM|]. split; [|split; [|split; [|split; [|split; [|split]]]]].
  - intros r N. split; [now apply FS | now apply FM].
  - apply unmatched_nodup.
  - intro Hnd. unfold Seller.main_reconcile, bind at 1.
    destruct (Seller.create_stocks watch_remnants offer_ids h) as [[stocks|e] h'];
      cbn [fst snd is_ok] in *; [|reflexivity].
    unfold bind, Seller.create_prices. rewrite create_prices_with_run.
    rewrite (MS eq_refl), (listed_unmatched_nil _ _ Hnd). reflexivity.
  - intro H. apply stock_updates_ok in H.
    assert (HS : is_ok (fst (Seller.create_stocks watch_remnants offer_ids h)) = true)
      by now rewrite OKS.
    assert (HM : is_ok (fst (Market.create_stocks watch_remnants offer_ids
                                                  warehouse_id date h)) = true)
      by now rewrite OKM.
    split; [exact HS|]. split; [exact HM|]. split; [now apply MS | now apply MM].
  - now rewrite OKS, OKM.
  - intro r. unfold Seller.create_stocks, Market.create_stocks.
    rewrite !create_stocks_with_unfold.
    match goal with
    | |- snd (match ?a with _ => _ end) r = snd (match ?b with _ => _ end) r =>
        assert (Hs : snd a = snd b) by apply stocks_matched_store;
        destruct a as [[?|?] ha]; destruct b as [[?|?] hb];
        cbn [snd] in Hs |- *; now rewrite Hs
    end.
  - pose proof (Permutation_length
                  (matched_unmatched_perm watch_remnants (h offer_ids))) as L.
    rewrite length_app, length_map in L. now rewrite L.
Qed.

Lemma create_stocks_mutates_witness :
  snd (Seller.create_stocks
         [mk_watch (PyStr "A") (PyStr "5") (PyStr "100.00")] 0%nat
         (fun _ => ["A"; "B"])) 0%nat = ["B"]
  /\ fst (Seller.main_reconcile
            [mk_watch (PyStr "A") (PyStr "5") (PyStr "100.00")] 0%nat
            (fun _ => ["A"; "B"]))
     = Ok ([ {| Seller.offer_id := "A"; Seller.stock := 5 |};
             {| Seller.offer_id := "B"; Seller.stock := 0 |} ], [])
  /\ fst (Market.create_stocks
            [mk_watch (PyStr "A") (PyStr "5") (PyStr "100.00")] 0%nat
            "7" "2025-01-01T12:00:00Z" (fun _ => ["A"; "B"]))
     = Ok [ market_stock "7" "2025-01-01T12:00:00Z" ("A", 5);
            market_stock "7" "2025-01-01T12:00:00Z" ("B", 0) ]
  /\ snd (Market.create_stocks
            [mk_watch (PyStr "A") (PyStr "5") (PyStr "100.00")] 0%nat
            "7" "2025-01-01T12:00:00Z" (fun _ => ["A"; "B"])) 0%nat = ["B"]
  /\ is_ok (fst (Market.create_stocks
                   [mk_watch (PyStr "A") (PyStr "5") (PyStr "100.00")] 0%nat
                   "7" "2025-01-01T12:00:00Z" (fun _ => ["A"; "B"]))) = true.
Proof.
  pose proof (create_stocks_mutates
                [mk_watch (PyStr "A") (PyStr "5") (PyStr "100.00")] 0%nat
                (fun _ => ["A"; "B"]) "7" "2025-01-01T12:00:00Z")
    as (HS & HM & _ & _ & Hmain & Hin & _).
  split; [rewrite HS; reflexivity|].
  split; [rewrite Hmain; [reflexivity|]; repeat constructor; cbn; intuition discriminate|].
  split; [reflexivity|].
  split; [rewrite HM; reflexivity|].
  apply Hin. intros w Hw. cbn in Hw. destruct Hw as [<-|[]]. reflexivity.
Defined.

(** X9: when no record of the inventory carries a listed code (an empty
    inventory, for one), [create_stocks] returns a zero entry for every
    listed identifier, in the order of the listing, looks at no quantity and
    leaves the store as it was. *)
Theorem create_stocks_no_match (watch_remnants : list watch) (offer_ids : ref)
        (h : store) (warehouse_id date : string) :
  (forall w, In w watch_remnants -> py_in (code_of w) (h offer_ids) = false) ->
  Seller.create_stocks watch_remnants offer_ids h
  = (Ok (map seller_zero (h offer_ids)), h)
  /\ Market.create_stocks watch_remnants offer_ids warehouse_id date h
     = (Ok (map (fun offer_id => market_stock warehouse_id date (offer_id, 0))
                (h offer_ids)), h).
Proof.
  intro H. split.
  - apply (create_stocks_with_no_match
             (fun offer_id stock => {| Seller.offer_id := offer_id; Seller.stock := stock |})
             _ _ _ H).
  - apply (create_stocks_with_no_match
             (fun offer_id stock =>
                {| Market.sku := offer_id;
                   Market.warehouseId := warehouse_id;
                   Market.stock_items :=
                     [ {| Market.count := stock; Market.type_ := "FIT";
                          Market.updatedAt := date |} ] |})
             _ _ _ H).
Qed.

Lemma create_stocks_no_match_witness :
  fst (Seller.create_stocks [mk_watch (PyStr "C") (PyStr "abc") PyNone] 0%nat
                            (fun _ => ["A"; "B"]))
  = Ok [seller_zero "A"; seller_zero "B"].
Proof.
  destruct (create_stocks_no_match
              [mk_watch (PyStr "C") (PyStr "abc") PyNone] 0%nat
              (fun _ => ["A"; "B"]) "" "") as [HS _].
  - intros w Hw. cbn in Hw. destruct Hw as [<-|[]]. reflexivity.
  - rewrite HS. reflexivity.
Defined.

(** X10: with a listing without duplicates, [create_stocks] of seller.py
    called a second time on the list object the first call has returned from
    gives nothing but zero entries, one for every identifier the first call
    left, and changes the store no more: the matched identifiers are gone
    and their quantities are not reported again. *)
Theorem create_stocks_twice (watch_remnants : list watch) (offer_ids : ref)
        (h : store) :
  NoDup (h offer_ids) ->
  is_ok (fst (Seller.create_stocks watch_remnants offer_ids h)) = true ->
  let h1 := snd (Seller.create_stocks watch_remnants offer_ids h) in
  Seller.create_stocks watch_remnants offer_ids h1
  = (Ok (map seller_zero (unmatched watch_remnants (h offer_ids))), h1).
Proof.
  intros Hnd Hok h1.
  destruct (create_stocks_with_run
              (fun offer_id stock => {| Seller.offer_id := offer_id; Seller.stock := stock |})
              watch_remnants offer_ids h) as (_ & MS & _).
  fold (Seller.create_stocks watch_remnants offer_ids) in MS.
  specialize (MS Hok). fold h1 in MS.
  rewrite <- MS.
  apply (create_stocks_with_no_match
           (fun offer_id stock => {| Seller.offer_id := offer_id; Seller.stock := stock |})).
  rewrite MS. intros w Hw.
  apply (filter_nil_all _ _ (listed_unmatched_nil watch_remnants (h offer_ids) Hnd) w Hw).
Qed.

Lemma create_stocks_twice_witness :
  fst (Seller.create_stocks
         [mk_watch (PyStr "A") (PyStr "5") PyNone] 0%nat
         (snd (Seller.create_stocks
                 [mk_watch (PyStr "A") (PyStr "5") PyNone] 0%nat
                 (fun _ => ["A"; "B"]))))
  = Ok [seller_zero "B"].
Proof.
  rewrite (create_stocks_twice
             [mk_watch (PyStr "A") (PyStr "5") PyNone] 0%nat (fun _ => ["A"; "B"])).
  - reflexivity.
  - repeat constructor; cbn; intuition discriminate.
  - reflexivity.
Defined.

(** X11: when [create_stocks] of seller.py raises, it does so at a record
    whose code was still listed and whose quantity does not normalise, with
    the exception of the normaliser; the list object then holds what the
    records before that one left of the listing, so the identifiers they
    matched are removed although no update is returned. *)
Theorem create_stocks_raise_partial (watch_remnants : list watch)
        (offer_ids : ref) (h : store) (e : exn) :
  fst (Seller.create_stocks watch_remnants offer_ids h) = Raise e ->
  raised_at watch_remnants (h offer_ids) e
            (snd (Seller.create_stocks watch_remnants offer_ids h) offer_ids).
Proof.
  unfold Seller.create_stocks. rewrite create_stocks_with_unfold.
  intro H.
  destruct (stocks_matched _ watch_remnants offer_ids [] h) as [[stocks|e'] h'] eqn:R;
    [discriminate H|].
  cbn [fst snd] in *. injection H as ->.
  destruct (stocks_matched_raise
              (fun offer_id stock => {| Seller.offer_id := offer_id; Seller.stock := stock |})
              watch_remnants offer_ids [] h e) as
    (pre & w & post & Hinv & Hok & Hin & Hq & Hs); [now rewrite R|].
  rewrite R in Hs. cbn [snd] in Hs.
  rewrite consumed_matched in Hok. rewrite left_over_unmatched in Hin, Hs.
  exists pre, w, post. repeat split; try assumption.
  intros w' Hw'. rewrite <- stock_of_ok.
  now apply (proj1 (mapM_ok_iff stock_of (matched pre (h offer_ids))) Hok).
Qed.

Lemma create_stocks_raise_partial_witness :
  raised_at [mk_watch (PyStr "A") (PyStr "5") PyNone;
             mk_watch (PyStr "B") (PyStr "abc") PyNone]
            ["A"; "B"; "C"] ValueError ["B"; "C"].
Proof.
  apply (create_stocks_raise_partial
           [mk_watch (PyStr "A") (PyStr "5") PyNone;
            mk_watch (PyStr "B") (PyStr "abc") PyNone] 0%nat
           (fun _ => ["A"; "B"; "C"]) ValueError).
  reflexivity.
Defined.

Lemma result_map_map {A B C} (f : A -> B) (g : B -> C) (r : result (list A)) :
  result_map (map g) (result_map (map f) r) = result_map (map (fun a => g (f a))) r.
Proof. destruct r; [|reflexivity]. cbn. now rewrite map_map. Qed.

(** X12: on the same inventory and list object, [create_stocks] of
    seller.py and of market.py report the same identifiers with the same
    quantities, in the same order, raise the same exception when they raise,
    and leave the same store; every entry of market.py carries the warehouse
    identifier and the date of the call in a single item of type "FIT". *)
Theorem create_stocks_modules_agree (watch_remnants : list watch)
        (offer_ids : ref) (h : store) (warehouse_id date : string) :
  result_map (map seller_pair) (fst (Seller.create_stocks watch_remnants offer_ids h))
  = result_map (map market_pair)
               (fst (Market.create_stocks watch_remnants offer_ids warehouse_id date h))
  /\ snd (Seller.create_stocks watch_remnants offer_ids h)
     = snd (Market.create_stocks watch_remnants offer_ids warehouse_id date h)
  /\ (forall stocks,
         fst (Market.create_stocks watch_remnants offer_ids warehouse_id date h)
         = Ok stocks ->
         Forall (fun e =>
                   Market.warehouseId e = warehouse_id
                   /\ Market.stock_items e
                      = [ {| Market.count := Market.entry_count e;
                             Market.type_ := "FIT";
                             Market.updatedAt := date |} ]) stocks).
Proof.
  destruct (create_stocks_with_run
              (fun offer_id stock => {| Seller.offer_id := offer_id; Seller.stock := stock |})
              watch_remnants offer_ids h) as (ES & _).
  destruct (create_stocks_with_run
              (fun offer_id stock =>
                 {| Market.sku := offer_id;
                    Market.warehouseId := warehouse_id;
                    Market.stock_items :=
                      [ {| Market.count := stock; Market.type_ := "FIT";
                           Market.updatedAt := date |} ] |})
              watch_remnants offer_ids h) as (EM & _).
  fold (Seller.create_stocks watch_remnants offer_ids) in ES.
  fold (Market.create_stocks watch_remnants offer_ids warehouse_id date) in EM.
  split; [|split].
  - rewrite ES, EM, !result_map_map. reflexivity.
  - unfold Seller.create_stocks, Market.create_stocks.
    rewrite !create_stocks_with_unfold.
    match goal with
    | |- snd (match ?a with _ => _ end) = snd (match ?b with _ => _ end) =>
        assert (Hs : snd a = snd b) by apply stocks_matched_store;
        destruct a as [[?|?] ha]; destruct b as [[?|?] hb]; exact Hs
    end.
  - intros stocks H. rewrite EM in H. apply result_map_ok in H.
    destruct H as (ups & _ & ->). apply Forall_forall.
    intros e He. apply in_map_iff in He. destruct He as (u & <- & _).
    split; reflexivity.
Qed.

Lemma occ_listed (inv : list watch) (ids : list string) (c : string) :
  occ (map code_of (listed inv ids)) c
  = if py_in c ids then occ (map code_of inv) c else 0%nat.
Proof.
  unfold listed. induction inv as [|w inv IH]; cbn [filter map].
  - unfold occ. cbn. now destruct (py_in c ids).
  - destruct (py_in (code_of w) ids) eqn:E; cbn [map]; rewrite ?occ_cons, IH.
    + destruct (string_dec (code_of w) c) as [<-|_]; [now rewrite E|].
      now destruct (py_in c ids).
    + destruct (string_dec (code_of w) c) as [<-|_]; [now rewrite E|].
      now destruct (py_in c ids).
Qed.

(** X13: in what [create_prices] returns, of either module, a listed code
    has as many entries as the inventory has records with that code, and a
    code that is not listed has none: records that share a listed code all
    get a price entry, where [create_stocks] reports only as many as the
    code is listed. *)
Theorem create_prices_per_record (watch_remnants : list watch) (offer_ids : ref)
        (h : store) :
  (forall prices,
      fst (Seller.create_prices watch_remnants offer_ids h) = Ok prices ->
      forall c, occ (map Seller.price_offer_id prices) c
                = if py_in c (h offer_ids)
                  then occ (map code_of watch_remnants) c else 0%nat)
  /\ (forall prices,
      fst (Market.create_prices watch_remnants offer_ids h) = Ok prices ->
      forall c, occ (map Market.id prices) c
                = if py_in c (h offer_ids)
                  then occ (map code_of watch_remnants) c else 0%nat).
Proof.
  assert (ES := create_prices_with_run Seller.price_of watch_remnants offer_ids h).
  assert (EM := create_prices_with_run Market.price_of watch_remnants offer_ids h).
  fold (Seller.create_prices watch_remnants offer_ids) in ES.
  fold (Market.create_prices watch_remnants offer_ids) in EM.
  split; intros prices H c.
  - rewrite ES in H. cbn [fst] in H.
    apply (mapM_keys _ code_of Seller.price_offer_id seller_price_key) in H.
    rewrite H. apply occ_listed.
  - rewrite EM in H. cbn [fst] in H.
    apply (mapM_keys _ code_of Market.id market_price_key) in H.
    rewrite H. apply occ_listed.
Qed.

Lemma create_prices_per_record_witness :
  occ (map Seller.price_offer_id
           [seller_price "A" "100"; seller_price "A" "120"]) "A" = 2%nat
  /\ fst (Market.create_prices
            [mk_watch (PyStr "A") (PyStr "5") (PyStr "100.00");
             mk_watch (PyStr "A") (PyStr "7") (PyStr "120.00")] 0%nat
            (fun _ => ["A"]))
     = Ok [ {| Market.id := "A";
               Market.price := {| Market.value := 100; Market.currencyId := "RUR" |} |};
            {| Market.id := "A";
               Market.price := {| Market.value := 120; Market.currencyId := "RUR" |} |} ]
  /\ occ (map Market.id
              [ {| Market.id := "A";
                   Market.price := {| Market.value := 100; Market.currencyId := "RUR" |} |};
                {| Market.id := "A";
                   Market.price := {| Market.value := 120; Market.currencyId := "RUR" |} |} ])
         "A" = 2%nat.
Proof.
  split; [|split; [reflexivity|]].
  - rewrite (proj1 (create_prices_per_record
                      [mk_watch (PyStr "A") (PyStr "5") (PyStr "100.00");
                       mk_watch (PyStr "A") (PyStr "7") (PyStr "120.00")] 0%nat
                      (fun _ => ["A"]))
                   [seller_price "A" "100"; seller_price "A" "120"] eq_refl "A").
    reflexivity.
  - rewrite (proj2 (create_prices_per_record
                      [mk_watch (PyStr "A") (PyStr "5") (PyStr "100.00");
                       mk_watch (PyStr "A") (PyStr "7") (PyStr "120.00")] 0%nat
                      (fun _ => ["A"]))
                   [ {| Market.id := "A";
                        Market.price := {| Market.value := 100;
                                           Market.currencyId := "RUR" |} |};
                     {| Market.id := "A";
                        Market.price := {| Market.value := 120;
                                           Market.currencyId := "RUR" |} |} ]
                   eq_refl "A").
    reflexivity.
Defined.

Lemma py_in_same (ids1 ids2 : list string) :
  (forall x, In x ids1 <-> In x ids2) -> forall c, py_in c ids1 = py_in c ids2.
Proof.
  intros H c. destruct (py_in c ids1) eqn:E1, (py_in c ids2) eqn:E2; try reflexivity.
  - apply py_in_In, H, py_in_In in E1. congruence.
  - apply py_in_In, H, py_in_In in E2. congruence.
Qed.

(** X14: what [create_prices] returns, of either module, depends on the
    listing only through which identifiers it holds: two listings with the
    same members, in whatever order and number, give the same outcome. *)
Theorem create_prices_by_membership (watch_remnants : list watch)
        (offer_ids : ref) (h1 h2 : store) :
  (forall x, In x (h1 offer_ids) <-> In x (h2 offer_ids)) ->
  fst (Seller.create_prices watch_remnants offer_ids h1)
  = fst (Seller.create_prices watch_remnants offer_ids h2)
  /\ fst (Market.create_prices watch_remnants offer_ids h1)
     = fst (Market.create_prices watch_remnants offer_ids h2).
Proof.
  intro H.
  assert (E : listed watch_remnants (h1 offer_ids) = listed watch_remnants (h2 offer_ids)).
  { unfold listed. apply filter_ext. intro w. now apply py_in_same. }
  unfold Seller.create_prices, Market.create_prices.
  rewrite !create_prices_with_run. cbn [fst]. now rewrite E.
Qed.

Lemma create_prices_by_membership_witness :
  fst (Seller.create_prices [mk_watch (PyStr "A") (PyStr "5") (PyStr "100.00")]
                            0%nat (fun _ => ["A"; "B"]))
  = fst (Seller.create_prices [mk_watch (PyStr "A") (PyStr "5") (PyStr "100.00")]
                              0%nat (fun _ => ["B"; "A"; "A"])).
Proof.
  apply (create_prices_by_membership
           [mk_watch (PyStr "A") (PyStr "5") (PyStr "100.00")] 0%nat
           (fun _ => ["A"; "B"]) (fun _ => ["B"; "A"; "A"])).
  intro x. cbn. tauto.
Defined.

(** ** Pagination: what a returned listing is, and a loop that cannot end *)

Section PaginationMore.
Context {server page item : Type}.
Variable request : pyval -> server -> result page * server.
Variable page_items : page -> list item.
Variable page_cursor : page -> pyval.
Variable leave : page -> list item -> bool.

Local Abbreviation run := (paginate request page_items page_cursor leave).
Local Abbreviation talk := (conversation request page_cursor).
Local Abbreviation stop := (leaves_at page_items leave).

Lemma conversation_step (k : nat) (cursor : pyval) (s : server) :
  talk (S k) cursor s
  = match request cursor s with
    | (Raise _, _) => []
    | (Ok p, s') => p :: talk k (page_cursor p) s'
    end.
Proof. reflexivity. Qed.

Lemma paginate_step (fuel : nat) (cursor : pyval) (acc : list item) (s : server) :
  run (S fuel) cursor acc s
  = match request cursor s with
    | (Raise e, _) => Some (Raise e)
    | (Ok p, s') =>
        if leave p (acc ++ page_items p) then Some (Ok (acc ++ page_items p))
        else run fuel (page_cursor p) (acc ++ page_items p) s'
    end.
Proof. reflexivity. Qed.

(** a conversation of full length has prefixes of full length *)
Lemma conversation_prefix (k : nat) :
  forall cursor s j,
    List.length (talk k cursor s) = k -> (j <= k)%nat ->
    List.length (talk j cursor s) = j.
Proof.
  induction k as [|k IH]; intros cursor s j Hlen Hj.
  - assert (j = 0%nat) by lia. now subst j.
  - destruct j as [|j]; [reflexivity|].
    rewrite conversation_step in Hlen |- *.
    destruct (request cursor s) as [[p|e] s']; [|discriminate Hlen].
    cbn [List.length] in *. f_equal. apply IH; lia.
Qed.

(** A returned list is the list of the pages up to the first page on which
    the test holds. *)
Lemma paginate_returned (fuel : nat) :
  forall cursor acc s out,
    run fuel cursor acc s = Some (Ok out) ->
    exists k,
      (k < fuel)%nat
      /\ List.length (talk (S k) cursor s) = S k
      /\ stop acc (talk (S k) cursor s) = true
      /\ (forall j, (1 <= j <= k)%nat -> stop acc (talk j cursor s) = false)
      /\ out = acc ++ gathered page_items (talk (S k) cursor s).
Proof.
  induction fuel as [|fuel IH]; intros cursor acc s out H; [discriminate H|].
  rewrite paginate_step in H.
  destruct (request cursor s) as [[p|e] s'] eqn:R; [|discriminate H].
  destruct (leave p (acc ++ page_items p)) eqn:L.
  - injection H as <-. exists 0%nat.
    rewrite conversation_step, R. cbn [conversation].
    rewrite (leaves_at_one page_items leave).
    split; [lia|]. split; [reflexivity|]. split; [exact L|].
    split; [intros j Hj; lia|]. unfold gathered. cbn. now rewrite app_nil_r.
  - destruct (IH _ _ _ _ H) as (k & Hk & Hlen & Hstop & Hno & ->).
    exists (S k). rewrite (conversation_step (S k)), R.
    destruct (talk (S k) (page_cursor p) s') as [|q ps] eqn:T;
      [discriminate Hlen|].
    split; [lia|]. split; [cbn [List.length] in *; lia|].
    split; [now rewrite (leaves_at_cons page_items leave)|].
    split.
    + intros j Hj. destruct j as [|j]; [lia|].
      rewrite conversation_step, R.
      destruct j as [|j].
      * cbn [conversation]. now rewrite (leaves_at_one page_items leave).
      * assert (Hpre : List.length (talk (S j) (page_cursor p) s') = S j).
        { apply (conversation_prefix (S k)); [now rewrite T|lia]. }
        destruct (talk (S j) (page_cursor p) s') as [|q' ps'] eqn:T';
          [discriminate Hpre|].
        rewrite (leaves_at_cons page_items leave). rewrite <- T'.
        apply Hno. lia.
    + unfold gathered. cbn [map List.concat]. now rewrite <- app_assoc.
Qed.

(** the test cannot hold on a list longer than [T] *)
Variable T : Z.
Hypothesis leave_bound :
  forall cursor s p s' acc,
    request cursor s = (Ok p, s') ->
    leave p acc = true -> Z.of_nat (List.length acc) <= T.

Lemma paginate_past (fuel : nat) :
  forall cursor acc s out,
    T < Z.of_nat (List.length acc) ->
    run fuel cursor acc s <> Some (Ok out).
Proof.
  induction fuel as [|fuel IH]; intros cursor acc s out Hlen; [discriminate|].
  rewrite paginate_step.
  destruct (request cursor s) as [[p|e] s'] eqn:R; [|discriminate].
  assert (Hlen' : T < Z.of_nat (List.length (acc ++ page_items p)))
    by (rewrite length_app; lia).
  destruct (leave p (acc ++ page_items p)) eqn:L.
  - apply (leave_bound _ _ _ _ _ R) in L. lia.
  - now apply IH.
Qed.

Lemma paginate_overshoot (k : nat) :
  forall cursor acc s fuel out,
    List.length (talk k cursor s) = k ->
    (forall j, (1 <= j <= k)%nat -> stop acc (talk j cursor s) = false) ->
    T < Z.of_nat (List.length (acc ++ gathered page_items (talk k cursor s))) ->
    run fuel cursor acc s <> Some (Ok out).
Proof.
  induction k as [|k IH]; intros cursor acc s fuel out Hlen Hno Hover.
  - apply paginate_past. cbn in Hover. now rewrite app_nil_r in Hover.
  - destruct fuel as [|fuel]; [discriminate|].
    rewrite paginate_step. rewrite conversation_step in Hlen, Hover.
    destruct (request cursor s) as [[p|e] s'] eqn:R; [|discriminate].
    rewrite (first_test request page_items page_cursor leave k cursor acc s s' p R Hno).
    cbn [List.length] in Hlen. apply Nat.succ_inj in Hlen.
    apply IH; [exact Hlen| |].
    + now apply (no_stop_tail request page_items page_cursor leave k cursor acc s s' p R).
    + unfold gathered in *. cbn [map List.concat] in Hover.
      now rewrite <- app_assoc.
Qed.
End PaginationMore.

Lemma conversation_grows {server page : Type}
      (request : pyval -> server -> result page * server)
      (page_cursor : page -> pyval) (j : nat) :
  forall k cursor s p,
    (j <= k)%nat ->
    In p (conversation request page_cursor j cursor s) ->
    In p (conversation request page_cursor k cursor s).
Proof.
  induction j as [|j IH]; intros k cursor s p Hjk Hin; [destruct Hin|].
  destruct k as [|k]; [lia|].
  rewrite (conversation_step request page_cursor) in Hin |- *.
  destruct (request cursor s) as [[q|e] s']; [|destruct Hin].
  destruct Hin as [<-|Hin]; [now left|]. right. apply (IH k); [lia|exact Hin].
Qed.

Lemma seller_get_offer_ids_ok {server : Type}
      (get_product_list : pyval -> server -> result Seller.product_page * server)
      (fuel : nat) (s : server) (ids : list string) :
  Seller.get_offer_ids _ get_product_list fuel s = Some (Ok ids) ->
  exists products,
    paginate get_product_list Seller.r_items Seller.r_last_id
             Seller.total_is_length fuel (PyStr "") [] s = Some (Ok products)
    /\ ids = map Seller.product_offer_id products.
Proof.
  unfold Seller.get_offer_ids. rewrite seller_loop_paginate.
  destruct (paginate _ _ _ _ fuel (PyStr "") [] s) as [[products|e]|];
    try discriminate.
  cbn. intros [= <-]. now exists products.
Qed.

Lemma market_get_offer_ids_ok {server : Type}
      (get_product_list : pyval -> server -> result Market.product_page * server)
      (fuel : nat) (s : server) (ids : list string) :
  Market.get_offer_ids _ get_product_list fuel s = Some (Ok ids) ->
  exists products,
    paginate get_product_list Market.offerMappingEntries Market.nextPageToken
             Market.cursor_is_empty fuel (PyStr "") [] s = Some (Ok products)
    /\ ids = map Market.shopSku products.
Proof.
  unfold Market.get_offer_ids. rewrite market_loop_paginate.
  destruct (paginate _ _ _ _ fuel (PyStr "") [] s) as [[products|e]|];
    try discriminate.
  cbn. intros [= <-]. now exists products.
Qed.

(** X15: a list that [get_offer_ids] returns, of either module, is the
    list of the identifiers of the first pages of the marketplace, up to and
    including the first page on which the reported total equals the number
    of products gathered (seller.py), respectively the next-page cursor is
    empty (market.py); no page before it passed that test, and none after it
    was asked for. *)
Theorem get_offer_ids_returned
        {ozon yandex : Type}
        (ozon_list : pyval -> ozon -> result Seller.product_page * ozon)
        (yandex_list : pyval -> yandex -> result Market.product_page * yandex)
        (so : ozon) (sy : yandex) (fuel : nat) :
  (forall ids,
      Seller.get_offer_ids _ ozon_list fuel so = Some (Ok ids) ->
      exists k,
        (k < fuel)%nat
        /\ List.length (Seller.replies _ ozon_list (S k) so) = S k
        /\ Seller.total_reached (Seller.replies _ ozon_list (S k) so) = true
        /\ (forall j, (1 <= j <= k)%nat ->
                      Seller.total_reached (Seller.replies _ ozon_list j so) = false)
        /\ ids = map Seller.product_offer_id
                     (Seller.all_items (Seller.replies _ ozon_list (S k) so)))
  /\ (forall ids,
      Market.get_offer_ids _ yandex_list fuel sy = Some (Ok ids) ->
      exists k,
        (k < fuel)%nat
        /\ List.length (Market.replies _ yandex_list (S k) sy) = S k
        /\ Market.cursor_empty (Market.replies _ yandex_list (S k) sy) = true
        /\ (forall j, (1 <= j <= k)%nat ->
                      Market.cursor_empty (Market.replies _ yandex_list j sy) = false)
        /\ ids = map Market.shopSku
                     (Market.all_items (Market.replies _ yandex_list (S k) sy))).
Proof.
  split; intros ids H.
  - apply seller_get_offer_ids_ok in H. destruct H as (products & H & ->).
    apply paginate_returned in H. destruct H as (k & Hk & Hlen & Hstop & Hno & ->).
    exists k. repeat split; assumption.
  - apply market_get_offer_ids_ok in H. destruct H as (products & H & ->).
    apply paginate_returned in H. destruct H as (k & Hk & Hlen & Hstop & Hno & ->).
    exists k. repeat split; assumption.
Qed.

Lemma get_offer_ids_returned_witness :
  exists k,
    (k < 5)%nat
    /\ List.length (Market.replies _ yandex_shop (S k) tt) = S k
    /\ Market.cursor_empty (Market.replies _ yandex_shop (S k) tt) = true
    /\ (forall j, (1 <= j <= k)%nat ->
                  Market.cursor_empty (Market.replies _ yandex_shop j tt) = false)
    /\ ["1001"; "1002"; "1003"]
       = map Market.shopSku (Market.all_items (Market.replies _ yandex_shop (S k) tt)).
Proof.
  apply (proj2 (get_offer_ids_returned ozon_shop yandex_shop tt tt 5)).
  reflexivity.
Defined.

(** X16: the number of identifiers [get_offer_ids] of seller.py returns
    equals the total reported by one of the pages it received (the last
    one). *)
Theorem seller_get_offer_ids_count
        {ozon : Type}
        (ozon_list : pyval -> ozon -> result Seller.product_page * ozon)
        (so : ozon) (fuel : nat) (ids : list string) :
  Seller.get_offer_ids _ ozon_list fuel so = Some (Ok ids) ->
  exists page,
    In page (Seller.replies _ ozon_list fuel so)
    /\ py_eq_int (Seller.r_total page) (Z.of_nat (List.length ids)) = true.
Proof.
  intro H. apply seller_get_offer_ids_ok in H. destruct H as (products & H & ->).
  apply paginate_returned in H. destruct H as (k & Hk & Hlen & Hstop & _ & ->).
  unfold leaves_at in Hstop.
  destruct (rev (conversation ozon_list Seller.r_last_id (S k) (PyStr "") so))
    as [|page rest] eqn:R; [discriminate Hstop|].
  exists page. split.
  - apply (conversation_grows ozon_list Seller.r_last_id (S k)); [lia|].
    apply in_rev. rewrite R. now left.
  - rewrite length_map. exact Hstop.
Qed.

Lemma seller_get_offer_ids_count_witness :
  exists page,
    In page (Seller.replies _ ozon_shop 5 tt)
    /\ py_eq_int (Seller.r_total page)
                 (Z.of_nat (List.length ["1001"; "1002"; "1003"])) = true.
Proof.
  apply (seller_get_offer_ids_count ozon_shop tt 5 ["1001"; "1002"; "1003"]).
  reflexivity.
Defined.

(** X17: [get_offer_ids] of seller.py leaves its loop only on equality.
    If no reply reports a total above [T], and the first [k] pages came,
    did not end the loop and together hold more than [T] products, then the
    call returns no list however long it runs: every further turn is another
    request, until one raises. *)
Theorem seller_get_offer_ids_overshoot
        {ozon : Type}
        (ozon_list : pyval -> ozon -> result Seller.product_page * ozon)
        (so : ozon) (T : Z) (k : nat) :
  (forall cursor s p s' n,
      ozon_list cursor s = (Ok p, s') ->
      py_eq_int (Seller.r_total p) n = true -> n <= T) ->
  List.length (Seller.replies _ ozon_list k so) = k ->
  (forall j, (1 <= j <= k)%nat ->
             Seller.total_reached (Seller.replies _ ozon_list j so) = false) ->
  T < Z.of_nat (List.length (Seller.all_items (Seller.replies _ ozon_list k so))) ->
  forall fuel ids, Seller.get_offer_ids _ ozon_list fuel so <> Some (Ok ids).
Proof.
  intros Hbound Hlen Hno Hover fuel ids H.
  apply seller_get_offer_ids_ok in H. destruct H as (products & H & _).
  revert H.
  apply (paginate_overshoot ozon_list Seller.r_items Seller.r_last_id
                            Seller.total_is_length T) with (k := k);
    try assumption.
  intros cursor s p s' acc R L. apply (Hbound cursor s p s' _ R L).
Qed.

Lemma seller_get_offer_ids_overshoot_witness :
  Seller.get_offer_ids _ ozon_pairs 50 tt = None.
Proof.
  destruct (Seller.get_offer_ids _ ozon_pairs 50 tt) as [[ids|e]|] eqn:E.
  - exfalso.
    apply (seller_get_offer_ids_overshoot ozon_pairs tt 3 2) with (fuel := 50%nat) (ids := ids).
    + intros cursor s p s' n R. unfold ozon_pairs in R. injection R as <- _.
      cbn [Seller.r_total py_eq_int]. intro Hn. apply Z.eqb_eq in Hn. lia.
    + reflexivity.
    + intros j Hj. assert (Hc : j = 1%nat \/ j = 2%nat) by lia.
      destruct Hc as [->| ->]; reflexivity.
    + cbn. lia.
    + exact E.
  - discriminate E.
  - reflexivity.
Defined.

(** ** The inventory loader: which file is read, which files are touched *)

Lemma fs_lookup_delete_other (n name : string) (f : fs) :
  n <> name -> fs_lookup name (fs_delete n f) = fs_lookup name f.
Proof.
  intro N. unfold fs_delete. induction f as [|[m c] f IH]; [reflexivity|].
  cbn [filter fst]. destruct (String.eqb_spec m n) as [->|Hmn]; cbn [negb fs_lookup].
  - now rewrite (string_eqb_false _ _ N).
  - now rewrite IH.
Qed.

Lemma fs_lookup_write (n c name : string) (f : fs) :
  fs_lookup name (fs_write n c f)
  = if (n =? name)%string then Some c else fs_lookup name f.
Proof.
  unfold fs_write. cbn [fs_lookup].
  destruct (String.eqb_spec n name) as [_|N]; [reflexivity|].
  now apply fs_lookup_delete_other.
Qed.

Lemma extractall_other (name : string) (archive : list (string * string)) :
  (forall nc, In nc archive -> fst nc <> name) ->
  forall f, fs_lookup name (extractall archive f) = fs_lookup name f.
Proof.
  unfold extractall. induction archive as [|[n c] archive IH]; intros H f;
    [reflexivity|].
  cbn [fold_left fst snd]. rewrite IH by (intros nc Hnc; apply H; now right).
  rewrite fs_lookup_write.
  now rewrite (string_eqb_false n name (H (n, c) (or_introl eq_refl))).
Qed.

Lemma extractall_member (name c : string) (pre post : list (string * string)) :
  (forall nc, In nc post -> fst nc <> name) ->
  forall f, fs_lookup name (extractall (pre ++ (name, c) :: post) f) = Some c.
Proof.
  intros H f. unfold extractall. rewrite fold_left_app. cbn [fold_left fst snd].
  fold (extractall post (fs_write name c (fold_left
          (fun f nc => fs_write (fst nc) (snd nc) f) pre f))).
  rewrite (extractall_other name post H), fs_lookup_write.
  now rewrite String.eqb_refl.
Qed.

(** what [download_stock] returns once the spreadsheet is in the directory *)
Lemma download_stock_parses (read_excel : string -> result (list watch))
      (archive : list (string * string)) (f : fs) (c : string) :
  fs_lookup "ostatki.xls" (extractall archive f) = Some c ->
  fst (Seller.download_stock read_excel (Ok archive) f) = read_excel c.
Proof.
  intro H. unfold Seller.download_stock, os_remove. cbv zeta. rewrite H.
  now destruct (read_excel c).
Qed.

(** X18: [download_stock] parses the spreadsheet of the archive it has
    downloaded (its last member of that name), whatever file of that name
    was in the directory before.  When the archive has no such member, a
    file of that name left in the directory is parsed in its place, and the
    call raises [FileNotFoundError] only when there is none. *)
Theorem download_stock_source (read_excel : string -> result (list watch))
        (archive : list (string * string)) (f : fs) :
  (forall pre c post,
      archive = pre ++ ("ostatki.xls", c) :: post ->
      (forall nc, In nc post -> fst nc <> "ostatki.xls") ->
      fst (Seller.download_stock read_excel (Ok archive) f) = read_excel c)
  /\ ((forall nc, In nc archive -> fst nc <> "ostatki.xls") ->
      fst (Seller.download_stock read_excel (Ok archive) f)
      = match fs_lookup "ostatki.xls" f with
        | Some stale => read_excel stale
        | None => Raise FileNotFoundError
        end).
Proof.
  split.
  - intros pre c post -> Hpost. apply download_stock_parses.
    now apply extractall_member.
  - intro Hno. pose proof (extractall_other "ostatki.xls" archive Hno f) as E.
    destruct (fs_lookup "ostatki.xls" f) as [stale|] eqn:L.
    + now apply download_stock_parses.
    + unfold Seller.download_stock. cbv zeta. now rewrite E.
Qed.

Lemma download_stock_source_witness :
  fst (Seller.download_stock
         (fun content => if (content =? "old")%string
                         then Ok [mk_watch (PyInt 1) (PyStr "5") (PyStr "10")]
                         else Raise ValueError)
         (Ok [("readme.txt", "hello")]) [("ostatki.xls", "old")])
  = Ok [mk_watch (PyInt 1) (PyStr "5") (PyStr "10")].
Proof.
  rewrite (proj2 (download_stock_source
                    (fun content => if (content =? "old")%string
                                    then Ok [mk_watch (PyInt 1) (PyStr "5") (PyStr "10")]
                                    else Raise ValueError)
                    [("readme.txt", "hello")] [("ostatki.xls", "old")])).
  - reflexivity.
  - intros nc [<-|[]]. discriminate.
Defined.

(** X19: [download_stock] removes no file but the spreadsheet: in every
    outcome, a file of another name is in the directory afterwards as the
    extraction left it, so the other members of the archive stay behind, and
    a file that is no member of the archive is as it was before the call. *)
Theorem download_stock_other_files (read_excel : string -> result (list watch))
        (response : result (list (string * string))) (f : fs) (name : string) :
  name <> "ostatki.xls" ->
  fs_lookup name (snd (Seller.download_stock read_excel response f))
  = match response with
    | Ok archive => fs_lookup name (extractall archive f)
    | Raise _ => fs_lookup name f
    end
  /\ (forall archive,
         response = Ok archive ->
         (forall nc, In nc archive -> fst nc <> name) ->
         fs_lookup name (snd (Seller.download_stock read_excel response f))
         = fs_lookup name f).
Proof.
  intro N.
  assert (E : fs_lookup name (snd (Seller.download_stock read_excel response f))
              = match response with
                | Ok archive => fs_lookup name (extractall archive f)
                | Raise _ => fs_lookup name f
                end).
  { unfold Seller.download_stock, os_remove. cbv zeta.
    destruct response as [archive|e]; [|reflexivity].
    destruct (fs_lookup "ostatki.xls" (extractall archive f)) as [c|]; [|reflexivity].
    destruct (read_excel c); [|reflexivity].
    cbn [snd]. apply fs_lookup_delete_other. congruence. }
  split; [exact E|].
  intros archive -> Hno. rewrite E. now apply extractall_other.
Qed.

Lemma download_stock_other_files_witness :
  fs_lookup "readme.txt"
            (snd (Seller.download_stock
                    (fun _ => Ok [])
                    (Ok [("ostatki.xls", "sheet"); ("readme.txt", "hello")]) []))
  = Some "hello".
Proof.
  rewrite (proj1 (download_stock_other_files
                    (fun _ => Ok [])
                    (Ok [("ostatki.xls", "sheet"); ("readme.txt", "hello")]) []
                    "readme.txt" ltac:(discriminate))).
  reflexivity.
Defined.

(** ** Uploads: the requests that are sent *)

(** For a positive chunk size the chunks are not empty, hold at most [n]
    elements and concatenate to the list. *)
Lemma divide_batches {A} (lst : list A) (n : Z) :
  0 < n ->
  exists chunks,
    divide lst n = Ok chunks
    /\ List.concat chunks = lst
    /\ Forall (fun c => 1 <= Z.of_nat (List.length c) <= n) chunks
    /\ (lst = [] -> chunks = []).
Proof.
  intro Hn. destruct (divide_positive lst n Hn) as [E Hb].
  set (m := Z.to_nat n) in *.
  set (K := Z.to_nat ((Z.of_nat (List.length lst) + n - 1) / n)) in *.
  assert (Hm : (0 < m)%nat) by (unfold m; lia).
  assert (Hbelow : forall k, (k < K)%nat -> (k * m <= List.length lst)%nat).
  { intros k Hk. destruct Hb as [[_ Hb]|(_ & Hb & _)]; [lia|nia]. }
  exists (map (chunk lst m) (seq 0 K)). split; [exact E|]. split; [|split].
  - rewrite chunks_concat by assumption.
    apply firstn_all2. destruct Hb as [[-> _]|(_ & _ & Hb)]; lia.
  - apply Forall_forall. intros c Hc. apply in_map_iff in Hc.
    destruct Hc as (k & <- & Hk). apply in_seq in Hk.
    rewrite chunk_length.
    destruct Hb as [[_ Hb]|(_ & Hb & _)]; [lia|]. unfold m in *. nia.
  - intros ->. destruct Hb as [[_ ->]|(_ & Hb & _)]; [reflexivity|].
    cbn [List.length] in Hb. now apply Nat.nlt_0_r in Hb.
Qed.

Section Logged.
Context {server Q A : Type}.
(** a push that adds the request [tag some] to the requests sent *)
Variable push : list A -> server * list Q -> result unit * (server * list Q).
Variable tag : list A -> Q.
Hypothesis push_logs :
  forall some w, snd (snd (push some w)) = snd w ++ [tag some].

(** The chunks are sent in order up to the first one whose push raises;
    the chunks after it are not sent. *)
Lemma push_each_log (chunks : list (list A)) :
  forall w,
    exists sent rest,
      chunks = sent ++ rest
      /\ snd (snd (push_each push chunks w)) = snd w ++ map tag sent
      /\ (fst (push_each push chunks w) = Ok tt -> rest = [])
      /\ (forall e, fst (push_each push chunks w) = Raise e -> sent <> []).
Proof.
  induction chunks as [|some chunks IH]; intro w.
  - exists [], []. cbn. rewrite app_nil_r. repeat split; congruence.
  - cbn [push_each]. pose proof (push_logs some w) as L.
    destruct (push some w) as [[u|e] w'] eqn:P; cbn [snd] in L.
    + destruct (IH w') as (sent & rest & -> & Hlog & Hok & Hraise).
      exists (some :: sent), rest. cbn [map app].
      rewrite Hlog, L, <- app_assoc. repeat split; try assumption.
      intros e _. discriminate.
    + exists [some], chunks. cbn [map app fst snd]. rewrite L.
      repeat split; discriminate.
Qed.

Lemma push_divided_log (xs : list A) (n : Z) (w : server * list Q) :
  0 < n ->
  exists sent rest,
    divide xs n = Ok (sent ++ rest)
    /\ snd (snd (push_divided push xs n w)) = snd w ++ map tag sent
    /\ Forall (fun c => 1 <= Z.of_nat (List.length c) <= n) sent
    /\ (fst (push_divided push xs n w) = Ok tt ->
        rest = [] /\ List.concat sent = xs)
    /\ (xs = [] -> sent = []).
Proof.
  intro Hn. destruct (divide_batches xs n Hn) as (chunks & E & Hcat & Hall & Hnil).
  unfold push_divided. rewrite E.
  destruct (push_each_log chunks w) as (sent & rest & -> & Hlog & Hok & _).
  exists sent, rest. split; [reflexivity|]. split; [exact Hlog|].
  split; [apply Forall_app in Hall; tauto|]. split.
  - intro H. specialize (Hok H). subst rest. rewrite app_nil_r in Hcat. auto.
  - intro Hx. specialize (Hnil Hx). now destruct sent.
Qed.
End Logged.

Section ListingLogged.
Context {server page item Q : Type}.
Variable endpoint : pyval -> server -> result page * server.
Variable page_items : page -> list item.
Variable page_cursor : page -> pyval.
Variable leave : page -> list item -> bool.
Variable tag : pyval -> Q.

(** the endpoint, with the request added to the requests sent *)
Variable logged : pyval -> server * list Q -> result page * (server * list Q).
Hypothesis logged_eq :
  forall cursor w,
    logged cursor w
    = let (r, s') := endpoint cursor (fst w) in (r, (s', snd w ++ [tag cursor])).

(** The listing loop on the world that records the requests returns what
    the loop on the marketplace alone returns, and sends nothing but listing
    requests. *)
Lemma paginate_st_logged (fuel : nat) :
  forall cursor acc s log,
    match paginate_st logged page_items page_cursor leave fuel cursor acc (s, log) with
    | Some (r, (s', log')) =>
        paginate endpoint page_items page_cursor leave fuel cursor acc s = Some r
        /\ exists cursors, log' = log ++ map tag cursors
    | None => paginate endpoint page_items page_cursor leave fuel cursor acc s = None
    end.
Proof.
  induction fuel as [|fuel IH]; intros cursor acc s log; [reflexivity|].
  cbn [paginate_st paginate]. rewrite logged_eq. cbn [fst snd].
  destruct (endpoint cursor s) as [[p|e] s'].
  - cbv zeta. destruct (leave p (acc ++ page_items p)).
    + split; [reflexivity|]. now exists [cursor].
    + specialize (IH (page_cursor p) (acc ++ page_items p) s' (log ++ [tag cursor])).
      destruct (paginate_st logged page_items page_cursor leave fuel (page_cursor p)
                            (acc ++ page_items p) (s', log ++ [tag cursor]))
        as [[r [s'' log']]|]; [|exact IH].
      destruct IH as [IH1 [cursors ->]]. split; [exact IH1|].
      exists (cursor :: cursors). cbn [map]. now rewrite <- app_assoc.
  - split; [reflexivity|]. now exists [cursor].
Qed.

Lemma paginate_st_logged_some (fuel : nat) (cursor : pyval) (acc : list item)
      (s s' : server) (log log' : list Q) (r : result (list item)) :
  paginate_st logged page_items page_cursor leave fuel cursor acc (s, log)
  = Some (r, (s', log')) ->
  paginate endpoint page_items page_cursor leave fuel cursor acc s = Some r
  /\ exists cursors, log' = log ++ map tag cursors.
Proof.
  intro E. pose proof (paginate_st_logged fuel cursor acc s log) as H.
  now rewrite E in H.
Qed.
End ListingLogged.

Lemma seller_upload_listing {server : Type}
      (list_endpoint : pyval -> server -> result Seller.product_page * server)
      (fuel : nat) (s s' : server) (log log' : list SellerUpload.request)
      (r : result (list string)) :
  SellerUpload.get_offer_ids server list_endpoint fuel (s, log) = Some (r, (s', log')) ->
  Seller.get_offer_ids server list_endpoint fuel s = Some r
  /\ exists cursors, log' = log ++ map SellerUpload.ProductList cursors.
Proof.
  unfold SellerUpload.get_offer_ids, Seller.get_offer_ids.
  rewrite seller_loop_paginate. intro G.
  match type of G with
  | option_map _ ?t = _ => destruct t as [[r0 [s0 log0]]|] eqn:E
  end; [|discriminate G].
  cbn [option_map fst snd] in G. injection G as <- <- <-.
  apply (paginate_st_logged_some list_endpoint Seller.r_items Seller.r_last_id Seller.total_is_length SellerUpload.ProductList
           (SellerUpload.get_product_list server list_endpoint)
           (fun _ _ => eq_refl)) in E.
  destruct E as [-> Hlog]. split; [reflexivity|exact Hlog].
Qed.

Lemma market_upload_listing {server : Type}
      (list_endpoint : pyval -> server -> result Market.product_page * server)
      (fuel : nat) (s s' : server) (log log' : list MarketUpload.request)
      (r : result (list string)) :
  MarketUpload.get_offer_ids server list_endpoint fuel (s, log) = Some (r, (s', log')) ->
  Market.get_offer_ids server list_endpoint fuel s = Some r
  /\ exists cursors, log' = log ++ map MarketUpload.OfferMappingEntries cursors.
Proof.
  unfold MarketUpload.get_offer_ids, Market.get_offer_ids.
  rewrite market_loop_paginate. intro G.
  match type of G with
  | option_map _ ?t = _ => destruct t as [[r0 [s0 log0]]|] eqn:E
  end; [|discriminate G].
  cbn [option_map fst snd] in G. injection G as <- <- <-.
  apply (paginate_st_logged_some list_endpoint Market.offerMappingEntries Market.nextPageToken Market.cursor_is_empty MarketUpload.OfferMappingEntries
           (MarketUpload.get_product_list server list_endpoint)
           (fun _ _ => eq_refl)) in E.
  destruct E as [-> Hlog]. split; [reflexivity|exact Hlog].
Qed.

Lemma seller_update_stocks_logs {server : Type}
      (stocks_endpoint : list Seller.stock_entry -> server -> result unit * server)
      (some : list Seller.stock_entry) (w : SellerUpload.world server) :
  snd (snd (SellerUpload.update_stocks server stocks_endpoint some w))
  = snd w ++ [SellerUpload.ImportStocks some].
Proof.
  unfold SellerUpload.update_stocks. now destruct (stocks_endpoint some (fst w)).
Qed.

Lemma seller_update_price_logs {server : Type}
      (prices_endpoint : list Seller.price_entry -> server -> result unit * server)
      (some : list Seller.price_entry) (w : SellerUpload.world server) :
  snd (snd (SellerUpload.update_price server prices_endpoint some w))
  = snd w ++ [SellerUpload.ImportPrices some].
Proof.
  unfold SellerUpload.update_price. now destruct (prices_endpoint some (fst w)).
Qed.

Lemma market_update_stocks_logs {server : Type}
      (stocks_endpoint : list Market.stock_entry -> server -> result unit * server)
      (some : list Market.stock_entry) (w : MarketUpload.world server) :
  snd (snd (MarketUpload.update_stocks server stocks_endpoint some w))
  = snd w ++ [MarketUpload.PutStocks some].
Proof.
  unfold MarketUpload.update_stocks. now destruct (stocks_endpoint some (fst w)).
Qed.

Lemma market_update_price_logs {server : Type}
      (prices_endpoint : list Market.price_entry -> server -> result unit * server)
      (some : list Market.price_entry) (w : MarketUpload.world server) :
  snd (snd (MarketUpload.update_price server prices_endpoint some w))
  = snd w ++ [MarketUpload.PostPrices some].
Proof.
  unfold MarketUpload.update_price. now destruct (prices_endpoint some (fst w)).
Qed.

(** X20: whatever way [upload_stocks] of seller.py ends, it has sent the
    listing requests of [get_offer_ids] and after them only stock imports,
    each of 1 to 100 entries.  When it returns, the imports sent are the
    stock list of [create_stocks] on the listing, cut into batches in order,
    and it returns that list with its entries of a quantity other than
    zero. *)
Theorem seller_upload_stocks_requests {server : Type}
        (list_endpoint : pyval -> server -> result Seller.product_page * server)
        (stocks_endpoint : list Seller.stock_entry -> server -> result unit * server)
        (fuel : nat) (watch_remnants : list watch)
        (s s' : server) (log log' : list SellerUpload.request)
        (r : result (list Seller.stock_entry * list Seller.stock_entry)) :
  SellerUpload.upload_stocks server list_endpoint stocks_endpoint fuel
                             watch_remnants (s, log) = Some (r, (s', log')) ->
  exists cursors sent,
    log' = log ++ map SellerUpload.ProductList cursors
               ++ map SellerUpload.ImportStocks sent
    /\ Forall (fun batch => 1 <= Z.of_nat (List.length batch) <= 100) sent
    /\ forall not_empty stocks,
         r = Ok (not_empty, stocks) ->
         List.concat sent = stocks
         /\ not_empty = SellerUpload.not_empty_of stocks
         /\ exists offer_ids,
              Seller.get_offer_ids server list_endpoint fuel s = Some (Ok offer_ids)
              /\ fst (Seller.create_stocks watch_remnants 0%nat (fun _ => offer_ids))
                 = Ok stocks.
Proof.
  unfold SellerUpload.upload_stocks.
  destruct (SellerUpload.get_offer_ids server list_endpoint fuel (s, log))
    as [[[offer_ids|e] [s1 log1]]|] eqn:G; [| |discriminate].
  2:{ intros [= <- <- <-]. apply seller_upload_listing in G.
      destruct G as [_ [cursors ->]]. exists cursors, [].
      cbn [map]. rewrite app_nil_r. repeat split; [constructor|discriminate..]. }
  apply seller_upload_listing in G. destruct G as [G [cursors ->]].
  destruct (fst (Seller.create_stocks watch_remnants 0%nat (fun _ => offer_ids)))
    as [stocks|e] eqn:C.
  2:{ intros [= <- <- <-]. exists cursors, [].
      cbn [map]. rewrite app_nil_r. repeat split; [constructor|discriminate..]. }
  destruct (push_divided_log
              (SellerUpload.update_stocks server stocks_endpoint)
              SellerUpload.ImportStocks
              (seller_update_stocks_logs stocks_endpoint)
              stocks 100 (s1, log ++ map SellerUpload.ProductList cursors)
              ltac:(lia))
    as (sent & rest & _ & Hlog & Hall & Hok & _).
  destruct (push_divided _ stocks 100 _) as [[u|e] [s2 log2]];
    cbn [fst snd] in Hlog, Hok; intros [= <- <- <-];
    exists cursors, sent; rewrite Hlog, <- app_assoc;
    (split; [reflexivity|]); (split; [exact Hall|]); intros not_empty stocks0 Hr;
    [|discriminate Hr].
  injection Hr as <- <-. destruct u. destruct (Hok eq_refl) as [_ Hcat].
  split; [exact Hcat|]. split; [reflexivity|]. now exists offer_ids.
Qed.

(** X21: the same for [upload_stocks] of market.py, with batches of 1 to
    2000 entries. *)
Theorem market_upload_stocks_requests {server : Type}
        (list_endpoint : pyval -> server -> result Market.product_page * server)
        (stocks_endpoint : list Market.stock_entry -> server -> result unit * server)
        (fuel : nat) (watch_remnants : list watch) (warehouse_id date : string)
        (s s' : server) (log log' : list MarketUpload.request)
        (r : result (list Market.stock_entry * list Market.stock_entry)) :
  MarketUpload.upload_stocks server list_endpoint stocks_endpoint fuel
                             watch_remnants warehouse_id date (s, log)
  = Some (r, (s', log')) ->
  exists cursors sent,
    log' = log ++ map MarketUpload.OfferMappingEntries cursors
               ++ map MarketUpload.PutStocks sent
    /\ Forall (fun batch => 1 <= Z.of_nat (List.length batch) <= 2000) sent
    /\ forall not_empty stocks,
         r = Ok (not_empty, stocks) ->
         List.concat sent = stocks
         /\ not_empty = MarketUpload.not_empty_of stocks
         /\ exists offer_ids,
              Market.get_offer_ids server list_endpoint fuel s = Some (Ok offer_ids)
              /\ fst (Market.create_stocks watch_remnants 0%nat warehouse_id date
                                           (fun _ => offer_ids))
                 = Ok stocks.
Proof.
  unfold MarketUpload.upload_stocks.
  destruct (MarketUpload.get_offer_ids server list_endpoint fuel (s, log))
    as [[[offer_ids|e] [s1 log1]]|] eqn:G; [| |discriminate].
  2:{ intros [= <- <- <-]. apply market_upload_listing in G.
      destruct G as [_ [cursors ->]]. exists cursors, [].
      cbn [map]. rewrite app_nil_r. repeat split; [constructor|discriminate..]. }
  apply market_upload_listing in G. destruct G as [G [cursors ->]].
  destruct (fst (Market.create_stocks watch_remnants 0%nat warehouse_id date
                                      (fun _ => offer_ids)))
    as [stocks|e] eqn:C.
  2:{ intros [= <- <- <-]. exists cursors, [].
      cbn [map]. rewrite app_nil_r. repeat split; [constructor|discriminate..]. }
  destruct (push_divided_log
              (MarketUpload.update_stocks server stocks_endpoint)
              MarketUpload.PutStocks
              (market_update_stocks_logs stocks_endpoint)
              stocks 2000 (s1, log ++ map MarketUpload.OfferMappingEntries cursors)
              ltac:(lia))
    as (sent & rest & _ & Hlog & Hall & Hok & _).
  destruct (push_divided _ stocks 2000 _) as [[u|e] [s2 log2]];
    cbn [fst snd] in Hlog, Hok; intros [= <- <- <-];
    exists cursors, sent; rewrite Hlog, <- app_assoc;
    (split; [reflexivity|]); (split; [exact Hall|]); intros not_empty stocks0 Hr;
    [|discriminate Hr].
  injection Hr as <- <-. destruct u. destruct (Hok eq_refl) as [_ Hcat].
  split; [exact Hcat|]. split; [reflexivity|]. now exists offer_ids.
Qed.

Lemma seller_upload_stocks_requests_witness :
  match seller_upload_stocks_ex with
  | Some (r, (_, log')) =>
      r = Ok ([seller_stock ("1001", 100)],
              [seller_stock ("1001", 100); seller_stock ("1003", 0);
               seller_stock ("1002", 0)])
      /\ exists cursors sent,
           log' = [] ++ map SellerUpload.ProductList cursors
                     ++ map SellerUpload.ImportStocks sent
           /\ Forall (fun batch => 1 <= Z.of_nat (List.length batch) <= 100) sent
  | None => False
  end.
Proof.
  destruct seller_upload_stocks_ex as [[r [s' log']]|] eqn:E; [|discriminate E].
  split; [now injection E as <- _ _|].
  destruct (seller_upload_stocks_requests _ _ _ _ _ _ _ _ _ E)
    as (cursors & sent & Hlog & Hall & _).
  now exists cursors, sent.
Defined.

Lemma market_upload_stocks_requests_witness :
  match market_upload_stocks_ex with
  | Some (r, (_, log')) =>
      result_map (fun p => (map market_pair (fst p), map market_pair (snd p))) r
      = Ok ([("1001", 100)], [("1001", 100); ("1003", 0); ("1002", 0)])
      /\ exists cursors sent,
           log' = [] ++ map MarketUpload.OfferMappingEntries cursors
                     ++ map MarketUpload.PutStocks sent
           /\ Forall (fun batch => 1 <= Z.of_nat (List.length batch) <= 2000) sent
  | None => False
  end.
Proof.
  destruct market_upload_stocks_ex as [[r [s' log']]|] eqn:E; [|discriminate E].
  split; [now injection E as <- _ _|].
  destruct (market_upload_stocks_requests _ _ _ _ _ _ _ _ _ _ _ E)
    as (cursors & sent & Hlog & Hall & _).
  now exists cursors, sent.
Defined.

(** X22: [upload_prices], of either module, sends after the listing
    requests only price imports, each of 1 to 1000 entries (seller.py),
    respectively 1 to 500 (market.py).  When it returns, it returns the list
    of [create_prices] on the listing, and the imports sent are that list
    cut into batches in order; an empty list sends no import. *)
Theorem upload_prices_requests {ozon yandex : Type}
        (ozon_list : pyval -> ozon -> result Seller.product_page * ozon)
        (ozon_prices : list Seller.price_entry -> ozon -> result unit * ozon)
        (yandex_list : pyval -> yandex -> result Market.product_page * yandex)
        (yandex_prices : list Market.price_entry -> yandex -> result unit * yandex)
        (fuel : nat) (watch_remnants : list watch) :
  (forall s s' log log' r,
      SellerUpload.upload_prices ozon ozon_list ozon_prices fuel
                                 watch_remnants (s, log) = Some (r, (s', log')) ->
      exists cursors sent,
        log' = log ++ map SellerUpload.ProductList cursors
                   ++ map SellerUpload.ImportPrices sent
        /\ Forall (fun batch => 1 <= Z.of_nat (List.length batch) <= 1000) sent
        /\ forall prices,
             r = Ok prices ->
             List.concat sent = prices
             /\ exists offer_ids,
                  Seller.get_offer_ids ozon ozon_list fuel s = Some (Ok offer_ids)
                  /\ fst (Seller.create_prices watch_remnants 0%nat (fun _ => offer_ids))
                     = Ok prices)
  /\ (forall s s' log log' r,
      MarketUpload.upload_prices yandex yandex_list yandex_prices fuel
                                 watch_remnants (s, log) = Some (r, (s', log')) ->
      exists cursors sent,
        log' = log ++ map MarketUpload.OfferMappingEntries cursors
                   ++ map MarketUpload.PostPrices sent
        /\ Forall (fun batch => 1 <= Z.of_nat (List.length batch) <= 500) sent
        /\ forall prices,
             r = Ok prices ->
             List.concat sent = prices
             /\ exists offer_ids,
                  Market.get_offer_ids yandex yandex_list fuel s = Some (Ok offer_ids)
                  /\ fst (Market.create_prices watch_remnants 0%nat (fun _ => offer_ids))
                     = Ok prices).
Proof.
  split; intros s s' log log' r.
  - unfold SellerUpload.upload_prices.
    destruct (SellerUpload.get_offer_ids ozon ozon_list fuel (s, log))
      as [[[offer_ids|e] [s1 log1]]|] eqn:G; [| |discriminate].
    2:{ intros [= <- <- <-]. apply seller_upload_listing in G.
        destruct G as [_ [cursors ->]]. exists cursors, [].
        cbn [map]. rewrite app_nil_r. repeat split; [constructor|discriminate..]. }
    apply seller_upload_listing in G. destruct G as [G [cursors ->]].
    destruct (fst (Seller.create_prices watch_remnants 0%nat (fun _ => offer_ids)))
      as [prices|e] eqn:C.
    2:{ intros [= <- <- <-]. exists cursors, [].
        cbn [map]. rewrite app_nil_r. repeat split; [constructor|discriminate..]. }
    destruct (push_divided_log
                (SellerUpload.update_price ozon ozon_prices)
                SellerUpload.ImportPrices
                (seller_update_price_logs ozon_prices)
                prices 1000 (s1, log ++ map SellerUpload.ProductList cursors)
                ltac:(lia))
      as (sent & rest & _ & Hlog & Hall & Hok & _).
    destruct (push_divided _ prices 1000 _) as [[u|e] [s2 log2]];
      cbn [fst snd] in Hlog, Hok; intros [= <- <- <-];
      exists cursors, sent; rewrite Hlog, <- app_assoc;
      (split; [reflexivity|]); (split; [exact Hall|]); intros prices0 Hr;
      [|discriminate Hr].
    injection Hr as <-. destruct u. destruct (Hok eq_refl) as [_ Hcat].
    split; [exact Hcat|]. now exists offer_ids.
  - unfold MarketUpload.upload_prices.
    destruct (MarketUpload.get_offer_ids yandex yandex_list fuel (s, log))
      as [[[offer_ids|e] [s1 log1]]|] eqn:G; [| |discriminate].
    2:{ intros [= <- <- <-]. apply market_upload_listing in G.
        destruct G as [_ [cursors ->]]. exists cursors, [].
        cbn [map]. rewrite app_nil_r. repeat split; [constructor|discriminate..]. }
    apply market_upload_listing in G. destruct G as [G [cursors ->]].
    destruct (fst (Market.create_prices watch_remnants 0%nat (fun _ => offer_ids)))
      as [prices|e] eqn:C.
    2:{ intros [= <- <- <-]. exists cursors, [].
        cbn [map]. rewrite app_nil_r. repeat split; [constructor|discriminate..]. }
    destruct (push_divided_log
                (MarketUpload.update_price yandex yandex_prices)
                MarketUpload.PostPrices
                (market_update_price_logs yandex_prices)
                prices 500 (s1, log ++ map MarketUpload.OfferMappingEntries cursors)
                ltac:(lia))
      as (sent & rest & _ & Hlog & Hall & Hok & _).
    destruct (push_divided _ prices 500 _) as [[u|e] [s2 log2]];
      cbn [fst snd] in Hlog, Hok; intros [= <- <- <-];
      exists cursors, sent; rewrite Hlog, <- app_assoc;
      (split; [reflexivity|]); (split; [exact Hall|]); intros prices0 Hr;
      [|discriminate Hr].
    injection Hr as <-. destruct u. destruct (Hok eq_refl) as [_ Hcat].
    split; [exact Hcat|]. now exists offer_ids.
Qed.

Lemma upload_prices_requests_witness :
  match seller_upload_prices_ex with
  | Some (r, (_, log')) =>
      r = Ok [seller_price "1001" "1500"]
      /\ exists cursors sent,
           log' = [] ++ map SellerUpload.ProductList cursors
                     ++ map SellerUpload.ImportPrices sent
           /\ Forall (fun batch => 1 <= Z.of_nat (List.length batch) <= 1000) sent
  | None => False
  end
  /\ match market_upload_prices_ex with
     | Some (r, (_, log')) =>
         r = Ok [ {| Market.id := "1001";
                     Market.price := {| Market.value := 1500;
                                        Market.currencyId := "RUR" |} |} ]
         /\ exists cursors sent,
              log' = [] ++ map MarketUpload.OfferMappingEntries cursors
                        ++ map MarketUpload.PostPrices sent
              /\ Forall (fun batch => 1 <= Z.of_nat (List.length batch) <= 500) sent
     | None => False
     end.
Proof.
  split.
  - destruct seller_upload_prices_ex as [[r [s' log']]|] eqn:E; [|discriminate E].
    split; [now injection E as <- _ _|].
    destruct (proj1 (upload_prices_requests ozon_shop (fun _ s => (Ok tt, s))
                       yandex_shop (fun _ s => (Ok tt, s)) 5 _) _ _ _ _ _ E)
      as (cursors & sent & Hlog & Hall & _).
    now exists cursors, sent.
  - destruct market_upload_prices_ex as [[r [s' log']]|] eqn:E; [|discriminate E].
    split; [now injection E as <- _ _|].
    destruct (proj2 (upload_prices_requests ozon_shop (fun _ s => (Ok tt, s))
                       yandex_shop (fun _ s => (Ok tt, s)) 5 _) _ _ _ _ _ E)
      as (cursors & sent & Hlog & Hall & _).
    now exists cursors, sent.
Defined.

Lemma filter_map_comm {A B} (f : B -> bool) (g : A -> B) (l : list A) :
  filter f (map g l) = map g (filter (fun a => f (g a)) l).
Proof.
  induction l as [|a l IH]; [reflexivity|]. cbn [map filter].
  destruct (f (g a)); cbn [map]; now rewrite IH.
Qed.

Lemma filter_zero_entries (ids : list string) :
  filter (fun u : string * Z => negb (snd u =? 0))
         (map (fun offer_id => (offer_id, 0)) ids) = [].
Proof. induction ids as [|i ids IH]; [reflexivity|exact IH]. Qed.

Lemma stock_updates_non_zero (inv : list watch) (ids : list string)
      (updates : list (string * Z)) :
  stock_updates inv ids = Ok updates ->
  exists found,
    mapM stock_of (matched inv ids) = Ok found
    /\ filter (fun u => negb (snd u =? 0)) updates
       = filter (fun u => negb (snd u =? 0)) found.
Proof.
  unfold stock_updates.
  destruct (mapM stock_of (matched inv ids)) as [found|]; [|discriminate].
  cbn [rbind]. intros [= <-]. exists found. split; [reflexivity|].
  now rewrite filter_app, filter_zero_entries, app_nil_r.
Qed.

(** X23: the first list [upload_stocks] returns ([not_empty], the entries
    of a quantity other than zero) holds, in inventory order, the entries of
    the matched records whose normalised quantity is not zero and nothing
    else: no entry of an identifier that the inventory does not have, and
    none of a record whose quantity normalises to zero, such as the text
    "1". *)
Theorem not_empty_matched (watch_remnants : list watch) (offer_ids : ref)
        (h : store) (warehouse_id date : string) :
  (forall stocks,
      fst (Seller.create_stocks watch_remnants offer_ids h) = Ok stocks ->
      exists found,
        mapM stock_of (matched watch_remnants (h offer_ids)) = Ok found
        /\ SellerUpload.not_empty_of stocks
           = map seller_stock (filter (fun u => negb (snd u =? 0)) found))
  /\ (forall stocks,
      fst (Market.create_stocks watch_remnants offer_ids warehouse_id date h)
      = Ok stocks ->
      exists found,
        mapM stock_of (matched watch_remnants (h offer_ids)) = Ok found
        /\ MarketUpload.not_empty_of stocks
           = map (market_stock warehouse_id date)
                 (filter (fun u => negb (snd u =? 0)) found)).
Proof.
  destruct (create_stocks_with_run
              (fun offer_id stock => {| Seller.offer_id := offer_id; Seller.stock := stock |})
              watch_remnants offer_ids h) as (ES & _).
  destruct (create_stocks_with_run
              (fun offer_id stock =>
                 {| Market.sku := offer_id;
                    Market.warehouseId := warehouse_id;
                    Market.stock_items :=
                      [ {| Market.count := stock; Market.type_ := "FIT";
                           Market.updatedAt := date |} ] |})
              watch_remnants offer_ids h) as (EM & _).
  fold (Seller.create_stocks watch_remnants offer_ids) in ES.
  fold (Market.create_stocks watch_remnants offer_ids warehouse_id date) in EM.
  split; intros stocks H.
  - rewrite ES in H. apply result_map_ok in H. destruct H as (ups & Hups & ->).
    destruct (stock_updates_non_zero _ _ _ Hups) as (found & Hf & Hnz).
    exists found. split; [exact Hf|].
    unfold SellerUpload.not_empty_of.
    rewrite (filter_map_comm _ (entry_of_pair _) ups). cbn [Seller.stock entry_of_pair].
    now rewrite Hnz.
  - rewrite EM in H. apply result_map_ok in H. destruct H as (ups & Hups & ->).
    destruct (stock_updates_non_zero _ _ _ Hups) as (found & Hf & Hnz).
    exists found. split; [exact Hf|].
    unfold MarketUpload.not_empty_of.
    rewrite (filter_map_comm _ (entry_of_pair _) ups).
    unfold Market.entry_count, entry_of_pair. cbn [Market.stock_items Market.count].
    now rewrite Hnz.
Qed.

Lemma not_empty_matched_witness :
  (exists found,
    mapM stock_of
         (matched [mk_watch (PyInt 1001) (PyStr ">10") PyNone;
                   mk_watch (PyInt 1003) (PyStr "1") PyNone]
                  ["1001"; "1002"; "1003"]) = Ok found
    /\ SellerUpload.not_empty_of
         [seller_stock ("1001", 100); seller_stock ("1003", 0);
          seller_stock ("1002", 0)]
       = map seller_stock (filter (fun u => negb (snd u =? 0)) found))
  /\ (exists found,
    mapM stock_of
         (matched [mk_watch (PyInt 1001) (PyStr ">10") PyNone;
                   mk_watch (PyInt 1003) (PyStr "1") PyNone]
                  ["1001"; "1002"; "1003"]) = Ok found
    /\ MarketUpload.not_empty_of
         [market_stock "7" "2025-01-01T12:00:00Z" ("1001", 100);
          market_stock "7" "2025-01-01T12:00:00Z" ("1003", 0);
          market_stock "7" "2025-01-01T12:00:00Z" ("1002", 0)]
       = map (market_stock "7" "2025-01-01T12:00:00Z")
             (filter (fun u => negb (snd u =? 0)) found)).
Proof.
  split.
  - apply (proj1 (not_empty_matched
                    [mk_watch (PyInt 1001) (PyStr ">10") PyNone;
                     mk_watch (PyInt 1003) (PyStr "1") PyNone] 0%nat
                    (fun _ => ["1001"; "1002"; "1003"]) "" "")).
    reflexivity.
  - apply (proj2 (not_empty_matched
                    [mk_watch (PyInt 1001) (PyStr ">10") PyNone;
                     mk_watch (PyInt 1003) (PyStr "1") PyNone] 0%nat
                    (fun _ => ["1001"; "1002"; "1003"])
                    "7" "2025-01-01T12:00:00Z")).
    reflexivity.
Defined.

Lemma forallb_map_const {A B} (f : B -> bool) (g : A -> B) (l : list A) :
  (forall a, f (g a) = true) -> forallb f (map g l) = true.
Proof.
  intro H. induction l as [|a l IH]; [reflexivity|].
  cbn [map forallb]. now rewrite H, IH.
Qed.

(** X24: in [main] of seller.py, when the listing has no duplicates, no
    price import is ever sent, however the run ends: [create_stocks] has
    taken the matched identifiers out of [offer_ids], [create_prices] finds
    none of the records listed, and the list of prices to send is empty. *)
Theorem seller_main_sends_no_prices {server : Type}
        (list_endpoint : pyval -> server -> result Seller.product_page * server)
        (stocks_endpoint : list Seller.stock_entry -> server -> result unit * server)
        (prices_endpoint : list Seller.price_entry -> server -> result unit * server)
        (fuel : nat) (read_excel : string -> result (list watch))
        (response : result (list (string * string))) (f f' : fs)
        (s s' : server) (log log' : list SellerUpload.request) (r : result unit) :
  (forall offer_ids,
      Seller.get_offer_ids server list_endpoint fuel s = Some (Ok offer_ids) ->
      NoDup offer_ids) ->
  SellerUpload.main_try server list_endpoint stocks_endpoint prices_endpoint
                        fuel read_excel response f (s, log)
  = Some (r, (f', (s', log'))) ->
  exists sent,
    log' = log ++ sent
    /\ forallb (fun q => negb (SellerUpload.is_import_prices q)) sent = true.
Proof.
  intros Hnd. unfold SellerUpload.main_try.
  destruct (SellerUpload.get_offer_ids server list_endpoint fuel (s, log))
    as [[[offer_ids|e] [s1 log1]]|] eqn:G; [| |discriminate];
    apply seller_upload_listing in G; destruct G as [G [cursors ->]].
  2:{ intros [= <- <- <- <-]. exists (map SellerUpload.ProductList cursors).
      split; [reflexivity|]. now apply forallb_map_const. }
  specialize (Hnd offer_ids G).
  destruct (Seller.download_stock read_excel response f) as [[watch_remnants|e] f1].
  2:{ intros [= <- <- <- <-]. exists (map SellerUpload.ProductList cursors).
      split; [reflexivity|]. now apply forallb_map_const. }
  destruct (create_stocks_with_run
              (fun offer_id stock => {| Seller.offer_id := offer_id; Seller.stock := stock |})
              watch_remnants 0%nat (fun _ => offer_ids)) as (_ & MS & _).
  fold (Seller.create_stocks watch_remnants 0%nat) in MS.
  destruct (Seller.create_stocks watch_remnants 0%nat (fun _ => offer_ids))
    as [[stocks|e] h1].
  2:{ intros [= <- <- <- <-]. exists (map SellerUpload.ProductList cursors).
      split; [reflexivity|]. now apply forallb_map_const. }
  cbn [fst snd is_ok] in MS. specialize (MS eq_refl).
  destruct (push_divided_log
              (SellerUpload.update_stocks server stocks_endpoint)
              SellerUpload.ImportStocks
              (seller_update_stocks_logs stocks_endpoint)
              stocks 100 (s1, log ++ map SellerUpload.ProductList cursors)
              ltac:(lia))
    as (sent & rest & _ & Hlog & _).
  assert (Hsent : forall log2,
             log2 = (log ++ map SellerUpload.ProductList cursors)
                      ++ map SellerUpload.ImportStocks sent ->
             exists sent0,
               log2 = log ++ sent0
               /\ forallb (fun q => negb (SellerUpload.is_import_prices q)) sent0 = true).
  { intros log2 ->. exists (map SellerUpload.ProductList cursors
                            ++ map SellerUpload.ImportStocks sent).
    split; [now rewrite app_assoc|].
    rewrite forallb_app, !forallb_map_const; reflexivity. }
  destruct (push_divided _ stocks 100 _) as [[u|e] [s2 log2]];
    cbn [fst snd] in Hlog.
  2:{ intros [= <- <- <- <-]. now apply Hsent. }
  unfold Seller.create_prices. rewrite create_prices_with_run. cbn [fst].
  rewrite MS, (listed_unmatched_nil watch_remnants offer_ids Hnd).
  cbn [mapM]. intros [= <- <- <- <-]. now apply Hsent.
Qed.

Lemma seller_main_sends_no_prices_witness :
  match seller_main_ex with
  | Some (r, (_, (_, log'))) =>
      r = Ok tt
      /\ exists sent,
           log' = [] ++ sent
           /\ forallb (fun q => negb (SellerUpload.is_import_prices q)) sent = true
  | None => False
  end.
Proof.
  destruct seller_main_ex as [[r [f' [s' log']]]|] eqn:E; [|discriminate E].
  split; [now injection E as <- _ _ _|].
  apply (seller_main_sends_no_prices _ _ _ _ _ _ _ _ _ _ _ _ _) with (2 := E).
  intros offer_ids H. cbv in H. injection H as <-.
  repeat constructor; cbn; intuition discriminate.
Defined.

Section PushRaises.
Context {server Q A : Type}.
Variable endpoint : list A -> server -> result unit * server.
Variable tag : list A -> Q.
Variable push : list A -> server * list Q -> result unit * (server * list Q).
Hypothesis push_eq :
  forall some w,
    push some w
    = let (r, s') := endpoint some (fst w) in (r, (s', snd w ++ [tag some])).

Lemma push_each_raise (chunks : list (list A)) :
  forall s log e,
    fst (push_each push chunks (s, log)) = Raise e ->
    exists before failed after s0,
      chunks = before ++ failed :: after
      /\ fst (endpoint failed s0) = Raise e
      /\ snd (snd (push_each push chunks (s, log)))
         = log ++ map tag (before ++ [failed]).
Proof.
  induction chunks as [|some chunks IH]; intros s log e H; [discriminate H|].
  cbn [push_each] in H |- *. rewrite push_eq in H |- *. cbn [fst snd] in H |- *.
  destruct (endpoint some s) as [[u|e0] s1] eqn:P.
  - destruct (IH _ _ _ H) as (before & failed & after & s0 & -> & Hf & Hlog).
    exists (some :: before), failed, after, s0.
    split; [reflexivity|]. split; [exact Hf|].
    rewrite Hlog. cbn [app map]. now rewrite <- app_assoc.
  - cbn [fst] in H. injection H as <-.
    exists [], some, chunks, s. split; [reflexivity|].
    split; [now rewrite P|reflexivity].
Qed.
End PushRaises.

(** X25: when an import of a batch of stocks raises in seller.py, the
    loop over the batches ends with that exception: the batches before the
    failed one have been sent and stay sent, the failed one is the last
    request, and the batches after it are not sent. *)
Theorem seller_stock_push_stops {server : Type}
        (stocks_endpoint : list Seller.stock_entry -> server -> result unit * server)
        (stocks : list Seller.stock_entry) (s : server)
        (log : list SellerUpload.request) (e : exn) :
  fst (push_divided (SellerUpload.update_stocks server stocks_endpoint)
                    stocks 100 (s, log)) = Raise e ->
  exists before failed after s0,
    divide stocks 100 = Ok (before ++ failed :: after)
    /\ fst (stocks_endpoint failed s0) = Raise e
    /\ snd (snd (push_divided (SellerUpload.update_stocks server stocks_endpoint)
                              stocks 100 (s, log)))
       = log ++ map SellerUpload.ImportStocks (before ++ [failed]).
Proof.
  unfold push_divided.
  destruct (divide_batches stocks 100 ltac:(lia)) as (chunks & E & _).
  rewrite E. intro H.
  destruct (push_each_raise stocks_endpoint SellerUpload.ImportStocks
              (SellerUpload.update_stocks server stocks_endpoint)
              (fun _ _ => eq_refl) chunks s log e H)
    as (before & failed & after & s0 & -> & Hf & Hlog).
  now exists before, failed, after, s0.
Qed.

Lemma seller_stock_push_stops_witness :
  exists before failed after s0,
    divide [seller_zero "A"; seller_zero "B"] 100 = Ok (before ++ failed :: after)
    /\ fst ((fun (_ : list Seller.stock_entry) (s : unit) =>
               (@Raise unit HTTPError, s)) failed s0) = Raise HTTPError
    /\ snd (snd (push_divided
                   (SellerUpload.update_stocks unit
                      (fun _ s => (Raise HTTPError, s)))
                   [seller_zero "A"; seller_zero "B"] 100 (tt, [])))
       = [] ++ map SellerUpload.ImportStocks (before ++ [failed]).
Proof.
  apply (seller_stock_push_stops (fun _ s => (Raise HTTPError, s))
                                 [seller_zero "A"; seller_zero "B"] tt [] HTTPError).
  reflexivity.
Defined.

Lemma create_stocks_modules_agree_witness :
  Forall (fun e =>
            Market.warehouseId e = "7"
            /\ Market.stock_items e
               = [ {| Market.count := Market.entry_count e;
                      Market.type_ := "FIT";
                      Market.updatedAt := "2025-01-01T12:00:00Z" |} ])
         [market_stock "7" "2025-01-01T12:00:00Z" ("A", 5);
          market_stock "7" "2025-01-01T12:00:00Z" ("B", 0)].
Proof.
  apply (proj2 (proj2 (create_stocks_modules_agree
                         [mk_watch (PyStr "A") (PyStr "5") PyNone] 0%nat
                         (fun _ => ["A"; "B"]) "7" "2025-01-01T12:00:00Z"))).
  reflexivity.
Defined.
